(** * Task-Manager-Backend: the task / class / notification controllers

    A shallow embedding of the Express controllers in
    [src/controllers/taskController.js], [src/controllers/classController.js]
    and [src/controllers/notificationController.js], together with the part
    of the relational schema that decides whether the store accepts a row and
    what a delete takes with it: the [CREATE TABLE] statements the server runs
    at start-up and, for [notifications], which the repository defines a
    second time, those of [src/supabase/migration.sql].

    Every controller is a function from the acting user, the request fields
    and the store to a response and the store after the call.  Tables are
    lists of rows in insertion order, which is also the order of their
    [created_at] / [joined_at] columns; the time stamps themselves are
    maintained by the store and are not part of the rows modelled here. *)

From stdpp Require Import base decidable option list strings infinite.
From Stdlib Require Import DecimalString.

Open Scope string_scope.

(** ** Request values *)

(** A key of [req.body] is absent, [null], or carries a value. *)
Inductive field (A : Type) : Type :=
  | Undefined
  | Null
  | Val (a : A).
Arguments Undefined {A}.
Arguments Null {A}.
Arguments Val {A} a.

(** JavaScript truthiness of a string-valued key: [undefined], [null] and the
    empty string are falsy. *)
Definition truthy (f : field string) : bool :=
  match f with
  | Val s => negb (String.eqb s EmptyString)
  | _ => false
  end.

(** [x || null] on a string-valued key. *)
Definition or_null (f : field string) : option string :=
  match f with
  | Val s => if String.eqb s EmptyString then None else Some s
  | _ => None
  end.

(** [x || d] on a string-valued key. *)
Definition or_default (f : field string) (d : string) : string :=
  match or_null f with
  | Some s => s
  | None => d
  end.

(** [x !== undefined]. *)
Definition defined {A} (f : field A) : bool :=
  match f with
  | Undefined => false
  | _ => true
  end.

(** The double-quote character used inside notification messages. *)
Definition dquote : string := String (Ascii.ascii_of_nat 34) EmptyString.

(** Decimal rendering of a number inside a template string. *)
Definition show_nat (n : nat) : string := NilZero.string_of_uint (Nat.to_uint n).

(** ** Text

    A string holds the UTF-8 encoding of a text: a character is one byte
    below 128, or a leading byte followed by continuation bytes. *)

(** [WhiteSpace] and [LineTerminator] of ECMAScript, by code point: tab to
    carriage return, space, no-break space, the space separators of
    Unicode, the line and paragraph separators and the byte order mark.
    This is what [String.prototype.trim] removes. *)
Definition is_space (cp : N) : bool :=
  ((9 <=? cp) && (cp <=? 13) || (cp =? 32) || (cp =? 160) || (cp =? 5760)
   || (8192 <=? cp) && (cp <=? 8202) || (cp =? 8232) || (cp =? 8233)
   || (cp =? 8239) || (cp =? 8287) || (cp =? 12288) || (cp =? 65279))%N.

(** The payload of a continuation byte. *)
Definition continuation (c : Ascii.ascii) : option N :=
  let n := Ascii.N_of_ascii c in
  if ((128 <=? n) && (n <? 192))%N then Some (n - 128)%N else None.

(** The code point of a character of one, two and three bytes; a sequence
    longer than the code point needs encodes nothing. *)
Definition code1 (a : Ascii.ascii) : option N :=
  let n := Ascii.N_of_ascii a in
  if (n <? 128)%N then Some n else None.
Definition code2 (a b : Ascii.ascii) : option N :=
  let n := Ascii.N_of_ascii a in
  if ((194 <=? n) && (n <? 224))%N
  then x ← continuation b; Some ((n - 192) * 64 + x)%N
  else None.
Definition code3 (a b c : Ascii.ascii) : option N :=
  let n := Ascii.N_of_ascii a in
  if ((224 <=? n) && (n <? 240))%N
  then x ← continuation b; y ← continuation c;
       if ((n =? 224) && (x <? 32))%N then None
       else Some ((n - 224) * 4096 + x * 64 + y)%N
  else None.

Definition space (cp : option N) : bool :=
  match cp with
  | Some n => is_space n
  | None => false
  end.

(** The text after its first character, when that is white space.  No
    character of four bytes is. *)
Definition leading_space (s : string) : option string :=
  match s with
  | String a s1 =>
      if space (code1 a) then Some s1
      else match s1 with
           | String b s2 =>
               if space (code2 a b) then Some s2
               else match s2 with
                    | String c s3 => if space (code3 a b c) then Some s3 else None
                    | EmptyString => None
                    end
           | EmptyString => None
           end
  | EmptyString => None
  end.

(** [trimStart]: the text from its first character that is not white
    space. *)
Fixpoint trim_start (s : string) : string :=
  match s with
  | String a s1 =>
      if space (code1 a) then trim_start s1
      else match s1 with
           | String b s2 =>
               if space (code2 a b) then trim_start s2
               else match s2 with
                    | String c s3 => if space (code3 a b c) then trim_start s3 else s
                    | EmptyString => s
                    end
           | EmptyString => s
           end
  | EmptyString => EmptyString
  end.

(** [trimEnd]: the text without the longest run of white space it ends
    with, found as the first place from which the text is white space only. *)
Fixpoint trim_end (s : string) : string :=
  match s with
  | String a r =>
      if String.eqb (trim_start s) EmptyString then EmptyString
      else String a (trim_end r)
  | EmptyString => EmptyString
  end.

(** [String.prototype.trim]. *)
Definition trim (s : string) : string := trim_end (trim_start s).

(** The number of characters of a text, which is what the length of a
    [VARCHAR] counts: the bytes that are not continuation bytes. *)
Fixpoint char_length (s : string) : nat :=
  match s with
  | String a r =>
      match continuation a with
      | Some _ => char_length r
      | None => S (char_length r)
      end
  | EmptyString => 0
  end.

(** The first [n] characters of a text, and what follows them. *)
Fixpoint take_chars (n : nat) (s : string) : string :=
  match s with
  | String a r =>
      match continuation a, n with
      | Some _, _ => String a (take_chars n r)
      | None, S n' => String a (take_chars n' r)
      | None, 0 => EmptyString
      end
  | EmptyString => EmptyString
  end.
Fixpoint drop_chars (n : nat) (s : string) : string :=
  match s with
  | String a r =>
      match continuation a, n with
      | Some _, _ => drop_chars n r
      | None, S n' => drop_chars n' r
      | None, 0 => s
      end
  | EmptyString => EmptyString
  end.

Fixpoint all_spaces (s : string) : bool :=
  match s with
  | String a r => (Ascii.nat_of_ascii a =? 32)%nat && all_spaces r
  | EmptyString => true
  end.

(** A value on its way into a [VARCHAR(n)] column: characters beyond the
    [n]-th are cut off when they are all spaces; any other text arrives as it
    is, and the column refuses it if it is longer than [n]. *)
Definition varchar (n : nat) (v : string) : string :=
  if (char_length v <=? n)%nat then v
  else if all_spaces (drop_chars n v) then take_chars n v
  else v.

(** A continuation byte. *)
Definition is_cont (x : N) : bool := ((128 <=? x) && (x <? 192))%N.

(** The first two bytes of a well-formed character of three and of four
    bytes: no overlong form, no surrogate, nothing beyond U+10FFFF. *)
Definition lead3 (n x : N) : bool :=
  ((n =? 224) && (160 <=? x) && (x <? 192)
   || (225 <=? n) && (n <=? 236) && is_cont x
   || (n =? 237) && (128 <=? x) && (x <? 160)
   || (238 <=? n) && (n <=? 239) && is_cont x)%N.
Definition lead4 (n x : N) : bool :=
  ((n =? 240) && (144 <=? x) && (x <? 192)
   || (241 <=? n) && (n <=? 243) && is_cont x
   || (n =? 244) && (128 <=? x) && (x <? 144))%N.

(** What a [TEXT] or [VARCHAR] column takes: well-formed UTF-8 without the
    character U+0000. *)
Fixpoint text_ok (s : string) : bool :=
  match s with
  | EmptyString => true
  | String a s1 =>
      let n := Ascii.N_of_ascii a in
      if ((1 <=? n) && (n <? 128))%N then text_ok s1
      else
        match s1 with
        | String b s2 =>
            let x := Ascii.N_of_ascii b in
            if ((194 <=? n) && (n <? 224))%N && is_cont x then text_ok s2
            else
              match s2 with
              | String c s3 =>
                  let y := Ascii.N_of_ascii c in
                  if lead3 n x && is_cont y then text_ok s3
                  else
                    match s3 with
                    | String d s4 =>
                        if lead4 n x && is_cont y && is_cont (Ascii.N_of_ascii d)
                        then text_ok s4
                        else false
                    | EmptyString => false
                    end
              | EmptyString => false
              end
        | EmptyString => false
        end
  end.

(** A nullable text column. *)
Definition text_opt (d : option string) : bool :=
  match d with
  | Some x => text_ok x
  | None => true
  end.

(** A decimal digit. *)
Definition digit (c : Ascii.ascii) : option nat :=
  let n := Ascii.nat_of_ascii c in
  if (48 <=? n)%nat && (n <=? 57)%nat then Some (n - 48)%nat else None.

Definition leap_year (y : nat) : bool :=
  (y mod 4 =? 0)%nat && (negb (y mod 100 =? 0)%nat || (y mod 400 =? 0)%nat).

Definition days_in_month (y m : nat) : nat :=
  match m with
  | 1 | 3 | 5 | 7 | 8 | 10 | 12 => 31
  | 4 | 6 | 9 | 11 => 30
  | 2 => if leap_year y then 29 else 28
  | _ => 0
  end.

(** A day of the calendar written [YYYY-MM-DD], the form in which the store
    returns a [DATE] of the years 1 to 9999. *)
Definition calendar_day (d : string) : bool :=
  match String.list_ascii_of_string d with
  | [y1; y2; y3; y4; h1; m1; m2; h2; d1; d2] =>
      match mapM digit [y1; y2; y3; y4; m1; m2; d1; d2] with
      | Some [a; b; c; e; f; g; h; i] =>
          let y := (1000 * a + 100 * b + 10 * c + e)%nat in
          let m := (10 * f + g)%nat in
          let day := (10 * h + i)%nat in
          (Ascii.nat_of_ascii h1 =? 45)%nat && (Ascii.nat_of_ascii h2 =? 45)%nat
          && (1 <=? y)%nat && (1 <=? day)%nat && (day <=? days_in_month y m)%nat
      | _ => false
      end
  | _ => false
  end.

(** A value of a [DATE] column as the store returns it: a day of the
    calendar or one of the two infinite dates, which the order of strings
    places after and before every day as the store does.  The days before
    the year 1 and after the year 9999, which the store writes in another
    form, are not modelled. *)
Definition valid_date (d : string) : bool :=
  calendar_day d || String.eqb d "infinity" || String.eqb d "-infinity".

(** A nullable [DATE] column. *)
Definition date_ok (d : option string) : bool :=
  match d with
  | Some x => valid_date x
  | None => true
  end.

(** ** Rows *)

Inductive Role : Type := student | teacher | admin.

Global Instance Role_eq_dec : EqDecision Role.
Proof. solve_decision. Defined.

(** [users]: the columns the controllers read. *)
Record User : Type := mkUser {
  user_id : string;
  user_name : string;
  user_email : string;
  user_role : Role
}.

(** [classes]. *)
Record Class : Type := mkClass {
  class_id : string;
  class_name : string;
  class_description : option string;
  invite_code : string;
  teacher_id : string
}.

(** [class_members]. *)
Record Member : Type := mkMember {
  member_id : string;
  member_class_id : string;
  member_user_id : string
}.

(** [tasks].  [due_date] is held in the form in which the store returns a
    [DATE], which for a day is [YYYY-MM-DD], the form in which the handlers
    write [today]; on that form the order of dates is the order of the
    strings.  [priority], [status],
    [due_date], [description], [assignee_id] and [class_id] are nullable
    columns. *)
Record Task : Type := mkTask {
  task_id : string;
  title : string;
  description : option string;
  due_date : option string;
  priority : option string;
  status : option string;
  created_by : string;
  assignee_id : option string;
  task_class_id : option string
}.

(** [notifications]. *)
Record Notification : Type := mkNotification {
  notification_id : string;
  n_user_id : string;
  n_type : string;
  n_title : string;
  n_message : string;
  n_task_id : option string;
  n_class_id : option string;
  is_read : bool
}.

(** The repository defines [notifications] twice, and [CREATE TABLE IF NOT
    EXISTS] keeps the table that was made first: by the server at start-up
    ([task_id] and [class_id] reference their tables with [ON DELETE
    CASCADE]), or by [supabase/migration.sql] ([task_id] is [ON DELETE SET
    NULL] and [class_id] carries no constraint).  The two definitions of
    [tasks] differ only in the width of [priority], which the [CHECK] on that
    column makes immaterial. *)
Inductive Origin : Type := startup | migration.

Global Instance Origin_eq_dec : EqDecision Origin.
Proof. solve_decision. Defined.

Record Store : Type := mkStore {
  users : list User;
  classes : list Class;
  class_members : list Member;
  tasks : list Task;
  notifications : list Notification;
  notifications_origin : Origin
}.

Global Instance User_eq_dec : EqDecision User.
Proof. solve_decision. Defined.
Global Instance Class_eq_dec : EqDecision Class.
Proof. solve_decision. Defined.
Global Instance Member_eq_dec : EqDecision Member.
Proof. solve_decision. Defined.
Global Instance Task_eq_dec : EqDecision Task.
Proof. solve_decision. Defined.
Global Instance Notification_eq_dec : EqDecision Notification.
Proof. solve_decision. Defined.

(** A store with one table replaced. *)
Definition set_class_members (f : list Member -> list Member) (s : Store) : Store :=
  mkStore (users s) (classes s) (f (class_members s)) (tasks s) (notifications s)
    (notifications_origin s).
Definition set_tasks (f : list Task -> list Task) (s : Store) : Store :=
  mkStore (users s) (classes s) (class_members s) (f (tasks s)) (notifications s)
    (notifications_origin s).
Definition set_notifications (f : list Notification -> list Notification) (s : Store) : Store :=
  mkStore (users s) (classes s) (class_members s) (tasks s) (f (notifications s))
    (notifications_origin s).

(** ** The query builder *)

(** What a query resolves to: [data] and whether [error] is set. *)
Record Result (A : Type) : Type := mkResult {
  data : option A;
  error : bool
}.
Arguments mkResult {A} data error.
Arguments data {A} r.
Arguments error {A} r.

(** [.single()]: exactly one row, otherwise an error and no data. *)
Definition single {A} (rows : list A) : Result A :=
  match rows with
  | [x] => mkResult (Some x) false
  | _ => mkResult None true
  end.

(** [.maybeSingle()]: no row is [null] without an error, one row is that row,
    several rows are an error ("multiple (or no) rows returned") and no
    data. *)
Definition maybeSingle {A} (rows : list A) : Result A :=
  match rows with
  | [] => mkResult None false
  | [x] => mkResult (Some x) false
  | _ => mkResult None true
  end.

(** [gen_random_uuid()]: an identifier not yet used in the table. *)
Definition gen_id (used : list string) : string := fresh used.

(** Row lookups by the filters the controllers use. *)
Definition users_by_id (s : Store) (id : string) : list User :=
  filter (λ u, user_id u = id) (users s).
Definition classes_by_id (s : Store) (id : string) : list Class :=
  filter (λ c, class_id c = id) (classes s).
Definition classes_by_invite_code (s : Store) (code : string) : list Class :=
  filter (λ c, invite_code c = code) (classes s).
Definition tasks_by_id (s : Store) (id : string) : list Task :=
  filter (λ t, task_id t = id) (tasks s).
Definition members_of (s : Store) (cid : string) : list Member :=
  filter (λ m, member_class_id m = cid) (class_members s).
Definition membership (s : Store) (cid uid : string) : list Member :=
  filter (λ m, member_class_id m = cid ∧ member_user_id m = uid) (class_members s).

(** ** Schema constraints

    The constraints of the tables: [NOT NULL] is carried by the row types,
    the rest is checked when a row is written. *)

Definition has_user (s : Store) (id : string) : bool :=
  bool_decide (id ∈ user_id <$> users s).
Definition has_class (s : Store) (id : string) : bool :=
  bool_decide (id ∈ class_id <$> classes s).
Definition has_task (s : Store) (id : string) : bool :=
  bool_decide (id ∈ task_id <$> tasks s).

(** A nullable foreign key. *)
Definition references (has : string -> bool) (k : option string) : bool :=
  match k with
  | Some id => has id
  | None => true
  end.

(** [CHECK (col IN (...))]: a [NULL] passes. *)
Definition check_in (allowed : list string) (v : option string) : bool :=
  match v with
  | Some x => bool_decide (x ∈ allowed)
  | None => true
  end.

Definition priorities : list string := ["low"; "medium"; "high"].
Definition statuses : list string := ["todo"; "in-progress"; "completed"].
Definition notification_types : list string :=
  ["task_assigned"; "task_completed"; "task_overdue"; "class_joined"].

(** [tasks]: [title VARCHAR(255)], the two [CHECK]s, the references to
    [users] and [classes], [due_date DATE], and the two texts. *)
Definition task_row_ok (s : Store) (t : Task) : bool :=
  (char_length (title t) <=? 255)%nat
  && check_in priorities (priority t)
  && check_in statuses (status t)
  && has_user s (created_by t)
  && references (has_user s) (assignee_id t)
  && references (has_class s) (task_class_id t)
  && date_ok (due_date t)
  && text_ok (title t)
  && text_opt (description t).

(** The reference of [notifications.class_id], which only the table made at
    start-up has. *)
Definition class_reference (s : Store) (k : option string) : bool :=
  match notifications_origin s with
  | startup => references (has_class s) k
  | migration => true
  end.

(** [notifications]. *)
Definition notification_row_ok (s : Store) (n : Notification) : bool :=
  has_user s (n_user_id n)
  && bool_decide (n_type n ∈ notification_types)
  && (char_length (n_title n) <=? 255)%nat
  && references (has_task s) (n_task_id n)
  && class_reference s (n_class_id n).

(** The columns of [classes] that hold text: [name VARCHAR(255)],
    [invite_code VARCHAR(8)] and [description TEXT].  The names the handlers
    write are trimmed and the codes are eight hexadecimal digits, so neither
    ends in spaces that the column would cut off. *)
Definition class_columns_ok (c : Class) : bool :=
  (char_length (class_name c) <=? 255)%nat
  && (char_length (invite_code c) <=? 8)%nat
  && text_ok (class_name c)
  && text_opt (class_description c)
  && text_ok (invite_code c).

(** [class_members]: both references and [UNIQUE(class_id, user_id)]. *)
Definition member_row_ok (s : Store) (m : Member) : bool :=
  has_class s (member_class_id m)
  && has_user s (member_user_id m)
  && bool_decide (membership s (member_class_id m) (member_user_id m) = []).

(** ** Responses *)

(** The part of the JSON answer that is not [success] or [message].  A row
    stands for the object built from it; the column list of [.select(...)]
    and the joined user objects only restrict or decorate what is sent. *)
Inductive Body : Type :=
  | NoBody
  | TaskBody (t : Task)
  | TasksBody (ts : list Task) (page limit total totalPages : nat)
  | ClassBody (c : Class)
  | ClassWithMembers (c : Class) (members : list (Member * option User))
  | StudentsBody (students : list (option User))
  | CountBody (count : nat).

Record Response : Type := mkResponse {
  code : nat;
  success : bool;
  message : option string;
  body : Body
}.

(** [res.status(c).json({ success: false, message })]. *)
Definition failure (c : nat) (msg : string) : Response :=
  mkResponse c false (Some msg) NoBody.

(** The error kinds of the specification, as the HTTP status that carries
    them: 400 is a validation error, 403 a denial, 404 a missing entity, 409
    a conflict, anything else that is not a 2xx a store failure. *)
Inductive ErrorKind : Type :=
  | ValidationError
  | ForbiddenError
  | NotFoundError
  | ConflictError
  | StoreError.

Global Instance ErrorKind_eq_dec : EqDecision ErrorKind.
Proof. solve_decision. Defined.

Definition error_kind (r : Response) : option ErrorKind :=
  if success r then None
  else Some (match code r with
             | 400 => ValidationError
             | 403 => ForbiddenError
             | 404 => NotFoundError
             | 409 => ConflictError
             | _ => StoreError
             end).

(** ** notificationController.js *)

(** [createNotification]: a best-effort insert; a row the store rejects is
    logged and dropped. *)
Definition createNotification (uid type ttl msg : string)
    (tid cid : option string) (s : Store) : Store :=
  let row := mkNotification (gen_id (notification_id <$> notifications s))
               uid type ttl msg tid cid false in
  if notification_row_ok s row
  then set_notifications (λ l, (l ++ [row])%list) s
  else s.

(** [.lt("due_date", today).neq("status", "completed")]: a [NULL] in either
    column fails the comparison. *)
Definition overdue (today : string) (t : Task) : bool :=
  match due_date t, status t with
  | Some d, Some st => String.ltb d today && negb (String.eqb st "completed")
  | _, _ => false
  end.

(** The rows the duplicate check of the overdue scan selects. *)
Definition overdue_notifications (s : Store) (t : Task) : list Notification :=
  filter (λ n, n_task_id n = Some (task_id t) ∧ n_type n = "task_overdue"
               ∧ n_user_id n = created_by t) (notifications s).

Definition overdue_message (t : Task) : string :=
  dquote ++ title t ++ dquote ++ " is past its due date ("
  ++ default "null" (due_date t) ++ ") and hasn't been completed yet.".

(** The body of the [for (const task of overdueTasks)] loop, threaded through
    the store and [notifiedCount].  The query that yields [overdueTasks] has
    no [ORDER BY]; the rows are taken here in the order of the table.  The
    order decides in which order the new notifications are appended and
    nothing else, since the duplicate check of a task reads only that
    task's notifications. *)
Fixpoint notify_overdue (ts : list Task) (s : Store) (notifiedCount : nat)
    : Store * nat :=
  match ts with
  | [] => (s, notifiedCount)
  | t :: ts' =>
      match data (maybeSingle (overdue_notifications s t)) with
      | None =>
          notify_overdue ts'
            (createNotification (created_by t) "task_overdue" "Task Overdue"
               (overdue_message t) (Some (task_id t)) None s)
            (S notifiedCount)
      | Some _ => notify_overdue ts' s notifiedCount
      end
  end.

(** [checkOverdueTasks]; [today] is the UTC calendar date of the call. *)
Definition checkOverdueTasks (today : string) (s : Store) : Response * Store :=
  let overdueTasks := filter (λ t, overdue today t = true) (tasks s) in
  match overdueTasks with
  | [] => (mkResponse 200 true (Some "No overdue tasks") (CountBody 0), s)
  | _ =>
      let '(s', notifiedCount) := notify_overdue overdueTasks s 0 in
      (mkResponse 200 true
         (Some ("Checked " ++ show_nat (length overdueTasks)
                ++ " overdue tasks, sent " ++ show_nat notifiedCount
                ++ " new notifications"))
         (CountBody notifiedCount), s')
  end.

(** The [count] of an answer. *)
Definition count_of (r : Response) : nat :=
  match body r with
  | CountBody n => n
  | _ => 0
  end.

(** ** taskController.js *)

(** The keys of [req.body] the task handlers read, and [created_by], which a
    client may send but no handler reads.  The handlers pass [due_date] on
    to the store without looking into it; a text that the [DATE] column reads
    as a date stands here as that date in the form in which the store
    returns it, which for a day is the [YYYY-MM-DD] that the client's date
    field sends, and any other text stands as it is. *)
Record TaskFields : Type := mkTaskFields {
  b_title : field string;
  b_description : field string;
  b_due_date : field string;
  b_priority : field string;
  b_status : field string;
  b_assignee_id : field string;
  b_class_id : field string;
  b_created_by : field string
}.

(** The object handed to [.update(...)]: a key is absent or carries the new
    value, which may be [null]. *)
Record TaskPatch : Type := mkTaskPatch {
  p_title : field string;
  p_description : field string;
  p_due_date : field string;
  p_priority : field string;
  p_status : field string;
  p_assignee_id : field string;
  p_class_id : field string
}.

(** Writing a key into a nullable column. *)
Definition assign (f : field string) (old : option string) : option string :=
  match f with
  | Undefined => old
  | Null => None
  | Val v => Some v
  end.

(** The row after the update, or nothing when [title], which is [NOT NULL],
    is set to [null]. *)
Definition patch_task (p : TaskPatch) (t : Task) : option Task :=
  match p_title p with
  | Null => None
  | ttl =>
      Some (mkTask (task_id t)
              (match ttl with Val v => varchar 255 v | _ => title t end)
              (assign (p_description p) (description t))
              (assign (p_due_date p) (due_date t))
              (assign (p_priority p) (priority t))
              (assign (p_status p) (status t))
              (created_by t)
              (assign (p_assignee_id p) (assignee_id t))
              (assign (p_class_id p) (task_class_id t)))
  end.

(** One row of [UPDATE tasks SET ... WHERE sel]: a selected row is replaced by
    its patched version if the schema accepts it. *)
Definition update_row (p : TaskPatch) (sel : Task -> bool) (s : Store)
    (t : Task) : option Task :=
  if sel t then
    match patch_task p t with
    | Some t' => if task_row_ok s t' then Some t' else None
    | None => None
    end
  else Some t.

(** [.from("tasks").update(p)] under a filter: all selected rows are updated,
    or the statement fails and nothing changes. *)
Definition update_tasks (p : TaskPatch) (sel : Task -> bool) (s : Store)
    : option Store :=
  match mapM (update_row p sel s) (tasks s) with
  | Some ts => Some (set_tasks (λ _, ts) s)
  | None => None
  end.

(** [.from("tasks").insert(row)]: the row gets a fresh id. *)
Definition insert_task (t : Task) (s : Store) : option (Task * Store) :=
  let row := mkTask (gen_id (task_id <$> tasks s)) (title t) (description t)
               (due_date t) (priority t) (status t) (created_by t)
               (assignee_id t) (task_class_id t) in
  if task_row_ok s row
  then Some (row, set_tasks (λ l, (l ++ [row])%list) s)
  else None.

(** A notification that has lost its task ([ON DELETE SET NULL]). *)
Definition unlinked (n : Notification) : Notification :=
  mkNotification (notification_id n) (n_user_id n) (n_type n) (n_title n)
    (n_message n) None (n_class_id n) (is_read n).

(** [.from("tasks").delete().eq("id", id)] with the action of the foreign key
    [notifications.task_id]: the notifications that reference the task go
    with it in the table made at start-up, and stay without their reference
    in the table of the migration. *)
Definition delete_task (id : string) (s : Store) : Store :=
  set_notifications
    (match notifications_origin s with
     | startup => filter (λ n, n_task_id n ≠ Some id)
     | migration => fmap (λ n, if bool_decide (n_task_id n = Some id)
                               then unlinked n else n)
     end)
    (set_tasks (filter (λ t, task_id t ≠ id)) s).

(** [!x] on a value a query returned. *)
Definition is_null {A} (o : option A) : bool :=
  match o with
  | Some _ => false
  | None => true
  end.

(** [createTask]. *)
Definition createTask (actor : User) (b : TaskFields) (s : Store)
    : Response * Store :=
  let createdBy := user_id actor in
  match or_null (b_title b) with
  | None => (failure 400 "Title is required", s)
  | Some ttl =>
      let class_check :=
        match or_null (b_class_id b) with
        | Some cid =>
            match data (single (classes_by_id s cid)) with
            | None => Some (failure 400 "Invalid class")
            | Some cls =>
                if bool_decide (user_role actor ≠ admin)
                   && bool_decide (teacher_id cls ≠ createdBy)
                then Some (failure 400 "You don't own this class")
                else None
            end
        | None => None
        end in
      match class_check with
      | Some r => (r, s)
      | None =>
          let taskData :=
            mkTask EmptyString (varchar 255 ttl)
              (or_null (b_description b))
              (or_null (b_due_date b))
              (Some (or_default (b_priority b) "medium"))
              (Some "todo")
              createdBy
              (or_null (b_assignee_id b))
              (or_null (b_class_id b)) in
          let assignee_check :=
            match or_null (b_assignee_id b) with
            | Some aid =>
                let r := single (users_by_id s aid) in
                if error r || is_null (data r)
                then Some (failure 400 "Assignee not found")
                else None
            | None => None
            end in
          match assignee_check with
          | Some r => (r, s)
          | None =>
              match insert_task taskData s with
              | None => (failure 500 "Failed to create task", s)
              | Some (task, s1) =>
                  let s2 :=
                    match assignee_id task with
                    | Some a =>
                        createNotification a "task_assigned" "New Task Assigned"
                          ("You've been assigned a new task: " ++ dquote
                           ++ title task ++ dquote)
                          (Some (task_id task)) (task_class_id task) s1
                    | None => s1
                    end in
                  (mkResponse 201 true (Some "Task created successfully")
                     (TaskBody task), s2)
              end
          end
      end
  end.

(** The filters of [getTasks] taken from [req.query]; [q_page] and [q_limit]
    are [parseInt(page)] and [parseInt(limit)] for requests on which both are
    positive. *)
Record TaskQuery : Type := mkTaskQuery {
  q_status : option string;
  q_priority : option string;
  q_search : option string;
  q_class_id : option string;
  q_page : positive;
  q_limit : positive
}.

(** A query-string value that is present and not empty. *)
Definition given (v : option string) : option string :=
  match v with
  | Some x => if String.eqb x EmptyString then None else Some x
  | None => None
  end.

(** [Math.ceil(count / limitNum)]. *)
Definition totalPages (count limitNum : nat) : nat :=
  (count + limitNum - 1) / limitNum.

Section Listing.

(** The store's [ILIKE]: does the column value match the pattern. *)
Variable ilike : string -> string -> bool.

(** The [WHERE] clause [getTasks] builds. *)
Definition getTasks_filter (actor : User) (q : TaskQuery) (t : Task) : bool :=
  (if bool_decide (user_role actor = teacher) || bool_decide (user_role actor = admin)
   then bool_decide (created_by t = user_id actor)
   else bool_decide (assignee_id t = Some (user_id actor)))
  && match given (q_class_id q) with
     | Some c => bool_decide (task_class_id t = Some c)
     | None => true
     end
  && match given (q_status q) with
     | Some st => if String.eqb st "all" then true
                  else bool_decide (status t = Some st)
     | None => true
     end
  && match given (q_priority q) with
     | Some pr => if String.eqb pr "all" then true
                  else bool_decide (priority t = Some pr)
     | None => true
     end
  && match given (q_search q) with
     | Some x => ilike (title t) ("%" ++ x ++ "%")
     | None => true
     end.

(** [getTasks]: the matching rows, newest first, cut to the requested
    page; [total] counts all matching rows. *)
Definition getTasks (actor : User) (q : TaskQuery) (s : Store)
    : Response * Store :=
  let pageNum := Pos.to_nat (q_page q) in
  let limitNum := Pos.to_nat (q_limit q) in
  let from := (pageNum - 1) * limitNum in
  let rows := filter (λ t, getTasks_filter actor q t = true) (tasks s) in
  let count := length rows in
  (mkResponse 200 true None
     (TasksBody (take limitNum (drop from (reverse rows)))
        pageNum limitNum count (totalPages count limitNum)), s).

End Listing.

(** [getTask]. *)
Definition getTask (actor : User) (id : string) (s : Store) : Response * Store :=
  let r := single (tasks_by_id s id) in
  match data r with
  | None => (failure 404 "Task not found", s)
  | Some task =>
      if error r then (failure 404 "Task not found", s)
      else if bool_decide (user_role actor = student)
              && bool_decide (assignee_id task ≠ Some (user_id actor))
      then (failure 403 "Forbidden — you can only view tasks assigned to you", s)
      else if bool_decide (user_role actor = teacher)
              && bool_decide (created_by task ≠ user_id actor)
      then (failure 403 "Forbidden — you can only view tasks you created", s)
      else (mkResponse 200 true None (TaskBody task), s)
  end.

(** [updateData] as the teacher / admin branch of [updateTask] builds it. *)
Definition updateData (b : TaskFields) : TaskPatch :=
  mkTaskPatch (b_title b) (b_description b) (b_due_date b) (b_priority b)
    (b_status b) (b_assignee_id b) (b_class_id b).

(** [Object.keys(updateData).length === 0]. *)
Definition no_keys (p : TaskPatch) : bool :=
  negb (defined (p_title p) || defined (p_description p)
        || defined (p_due_date p) || defined (p_priority p)
        || defined (p_status p) || defined (p_assignee_id p)
        || defined (p_class_id p)).

(** [.update(p).eq("id", id).select(...).single()]. *)
Definition update_task_by_id (p : TaskPatch) (id : string) (s : Store)
    : option (Task * Store) :=
  match update_tasks p (λ t, bool_decide (task_id t = id)) s with
  | Some s' =>
      match data (single (tasks_by_id s' id)) with
      | Some task => Some (task, s')
      | None => None
      end
  | None => None
  end.

(** The object [{ status }] a student's update writes. *)
Definition status_patch (st : string) : TaskPatch :=
  mkTaskPatch Undefined Undefined Undefined Undefined (Val st) Undefined Undefined.

(** The notification to the creator after a student's update: sent when the
    new status is [completed] and the fetched task has a creator. *)
Definition notify_completed (actor : User) (st : string)
    (existingTask task : Task) (s : Store) : Store :=
  if String.eqb st "completed"
     && negb (String.eqb (created_by existingTask) EmptyString)
  then
    let studentName :=
      match data (single (users_by_id s (user_id actor))) with
      | Some u => if String.eqb (user_name u) EmptyString
                  then "A student" else user_name u
      | None => "A student"
      end in
    createNotification (created_by existingTask) "task_completed" "Task Completed"
      (studentName ++ " completed the task: " ++ dquote ++ title task ++ dquote)
      (Some (task_id task)) None s
  else s.

(** [updateTask]. *)
Definition updateTask (actor : User) (id : string) (b : TaskFields) (s : Store)
    : Response * Store :=
  let userId := user_id actor in
  let r := single (tasks_by_id s id) in
  match data r with
  | None => (failure 404 "Task not found", s)
  | Some existingTask =>
      if error r then (failure 404 "Task not found", s)
      else if bool_decide (user_role actor = student) then
        if bool_decide (assignee_id existingTask ≠ Some userId)
        then (failure 403 "Forbidden — you can only update tasks assigned to you", s)
        else
          match or_null (b_status b) with
          | None => (failure 400 "Students can only update task status", s)
          | Some st =>
              match update_task_by_id (status_patch st) id s with
              | None => (failure 500 "Failed to update task", s)
              | Some (task, s1) =>
                  (mkResponse 200 true (Some "Task status updated") (TaskBody task),
                   notify_completed actor st existingTask task s1)
              end
          end
      else if bool_decide (created_by existingTask ≠ userId)
              && bool_decide (user_role actor ≠ admin)
      then (failure 403 "Forbidden — you can only edit tasks you created", s)
      else if no_keys (updateData b)
      then (failure 400 "No fields to update", s)
      else
        match update_task_by_id (updateData b) id s with
        | None => (failure 500 "Failed to update task", s)
        | Some (task, s1) =>
            (mkResponse 200 true (Some "Task updated successfully")
               (TaskBody task), s1)
        end
  end.

(** [deleteTask]. *)
Definition deleteTask (actor : User) (id : string) (s : Store) : Response * Store :=
  let r := single (tasks_by_id s id) in
  match data r with
  | None => (failure 404 "Task not found", s)
  | Some existingTask =>
      if error r then (failure 404 "Task not found", s)
      else if bool_decide (created_by existingTask ≠ user_id actor)
              && bool_decide (user_role actor ≠ admin)
      then (failure 403 "Forbidden — you can only delete tasks you created", s)
      else (mkResponse 200 true (Some "Task deleted successfully") NoBody,
            delete_task id s)
  end.

(** ** classController.js *)

(** The user object joined to a membership row. *)
Definition member_user (s : Store) (m : Member) : option User :=
  head (users_by_id s (member_user_id m)).

(** [.from("class_members").insert({ class_id, user_id })]. *)
Definition insert_member (cid uid : string) (s : Store) : option Store :=
  let row := mkMember (gen_id (member_id <$> class_members s)) cid uid in
  if member_row_ok s row
  then Some (set_class_members (λ l, (l ++ [row])%list) s)
  else None.

(** [ON DELETE SET NULL] on [tasks.class_id], for one row. *)
Definition detach (id : string) (t : Task) : Task :=
  if bool_decide (task_class_id t = Some id)
  then mkTask (task_id t) (title t) (description t) (due_date t) (priority t)
         (status t) (created_by t) (assignee_id t) None
  else t.

(** [.from("classes").delete().eq("id", id)] with the actions of the foreign
    keys that reference [classes]: membership rows are deleted, tasks of the
    class keep their row and lose the reference, and the notifications of
    the class are deleted where [notifications.class_id] is a reference, that
    is in the table made at start-up. *)
Definition delete_class (id : string) (s : Store) : Store :=
  mkStore (users s)
    (filter (λ c, class_id c ≠ id) (classes s))
    (filter (λ m, member_class_id m ≠ id) (class_members s))
    (detach id <$> tasks s)
    (match notifications_origin s with
     | startup => filter (λ n, n_class_id n ≠ Some id) (notifications s)
     | migration => notifications s
     end)
    (notifications_origin s).

(** [getClass]. *)
Definition getClass (actor : User) (id : string) (s : Store) : Response * Store :=
  let userId := user_id actor in
  let r := single (classes_by_id s id) in
  match data r with
  | None => (failure 404 "Class not found", s)
  | Some cls =>
      if error r then (failure 404 "Class not found", s)
      else if bool_decide (user_role actor = teacher)
              && bool_decide (teacher_id cls ≠ userId)
      then (failure 403 "Forbidden", s)
      else if bool_decide (user_role actor = student)
              && is_null (data (maybeSingle (membership s id userId)))
      then (failure 403 "Forbidden — you are not a member of this class", s)
      else
        (mkResponse 200 true None
           (ClassWithMembers cls ((λ m, (m, member_user s m)) <$> members_of s id)),
         s)
  end.

(** [getClassMembers]. *)
Definition getClassMembers (actor : User) (classId : string) (s : Store)
    : Response * Store :=
  (mkResponse 200 true None (StudentsBody (member_user s <$> members_of s classId)), s).

(** [joinClass]; the argument is [req.body.invite_code]. *)
Definition joinClass (actor : User) (code : field string) (s : Store)
    : Response * Store :=
  let userId := user_id actor in
  match or_null code with
  | None => (failure 400 "Invite code is required", s)
  | Some c =>
      let r := single (classes_by_invite_code s (trim c)) in
      match data r with
      | None => (failure 404 "Invalid invite code", s)
      | Some cls =>
          if error r then (failure 404 "Invalid invite code", s)
          else if bool_decide (teacher_id cls = userId)
          then (failure 400 "You are the teacher of this class", s)
          else
            match data (maybeSingle (membership s (class_id cls) userId)) with
            | Some _ => (failure 400 "You are already a member of this class", s)
            | None =>
                match insert_member (class_id cls) userId s with
                | None => (failure 500 "Internal server error", s)
                | Some s' =>
                    (mkResponse 200 true
                       (Some ("Joined class " ++ dquote ++ class_name cls
                              ++ dquote ++ " successfully"))
                       (ClassBody cls), s')
                end
            end
      end
  end.

(** [deleteClass].  The result of the update that clears [class_id] is not
    inspected: when the store rejects it, the handler goes on to the delete. *)
Definition deleteClass (actor : User) (id : string) (s : Store) : Response * Store :=
  match data (single (classes_by_id s id)) with
  | None => (failure 404 "Class not found", s)
  | Some cls =>
      if bool_decide (teacher_id cls ≠ user_id actor)
         && bool_decide (user_role actor ≠ admin)
      then (failure 403 "Forbidden", s)
      else
        let s1 :=
          default s
            (update_tasks
               (mkTaskPatch Undefined Undefined Undefined Undefined Undefined
                  Undefined Null)
               (λ t, bool_decide (task_class_id t = Some id)) s) in
        (mkResponse 200 true (Some "Class deleted successfully") NoBody,
         delete_class id s1)
  end.

(** ** Routes *)

Definition role_name (r : Role) : string :=
  match r with
  | student => "student"
  | teacher => "teacher"
  | admin => "admin"
  end.

Fixpoint join_with (sep : string) (l : list string) : string :=
  match l with
  | [] => EmptyString
  | [x] => x
  | x :: l' => x ++ sep ++ join_with sep l'
  end.

(** [requireRole(...roles)] in front of a handler. *)
Definition requireRole (roles : list Role) (actor : User)
    (next : Store -> Response * Store) (s : Store) : Response * Store :=
  if bool_decide (user_role actor ∈ roles) then next s
  else (failure 403 ("Forbidden — requires "
                     ++ join_with " or " (role_name <$> roles) ++ " role"), s).

(** [POST /api/tasks], [DELETE /api/tasks/:id] and [DELETE /api/classes/:id]
    are gated; the remaining routes used below reach their handler for every
    authenticated user. *)
Definition route_createTask (actor : User) (b : TaskFields) : Store -> Response * Store :=
  requireRole [teacher; admin] actor (createTask actor b).
Definition route_deleteTask (actor : User) (id : string) : Store -> Response * Store :=
  requireRole [teacher; admin] actor (deleteTask actor id).
Definition route_deleteClass (actor : User) (id : string) : Store -> Response * Store :=
  requireRole [teacher; admin] actor (deleteClass actor id).

(** ** Stores that satisfy the schema *)

(** Identifiers are UUIDs, in particular never the empty string. *)
Definition nonempty (x : string) : bool := negb (String.eqb x EmptyString).

(** Primary keys, [UNIQUE] constraints, foreign keys, [CHECK]s and column
    types of the five tables: what the store guarantees of every state it is
    in. *)
Definition schema_ok (s : Store) : bool :=
  bool_decide (NoDup (user_id <$> users s))
  && forallb (λ u, nonempty (user_id u)) (users s)
  && bool_decide (NoDup (class_id <$> classes s))
  && bool_decide (NoDup (invite_code <$> classes s))
  && forallb (λ c, has_user s (teacher_id c)) (classes s)
  && bool_decide (NoDup ((λ m, (member_class_id m, member_user_id m)) <$> class_members s))
  && forallb (λ m, has_class s (member_class_id m) && has_user s (member_user_id m))
       (class_members s)
  && bool_decide (NoDup (task_id <$> tasks s))
  && forallb (task_row_ok s) (tasks s)
  && bool_decide (NoDup (notification_id <$> notifications s))
  && forallb (notification_row_ok s) (notifications s)
  && bool_decide (NoDup (user_email <$> users s))
  && forallb (λ u, (char_length (user_name u) <=? 255)%nat
                   && (char_length (user_email u) <=? 255)%nat) (users s)
  && forallb class_columns_ok (classes s)
  && bool_decide (NoDup (member_id <$> class_members s)).

(** The invariant of the data model on overdue notifications: at most one per
    task and creator. *)
Definition overdue_deduplicated (s : Store) : bool :=
  forallb (λ t, (length (overdue_notifications s t) <=? 1)%nat) (tasks s).

(** A task row with its status replaced. *)
Definition with_status (st : option string) (t : Task) : Task :=
  mkTask (task_id t) (title t) (description t) (due_date t) (priority t) st
    (created_by t) (assignee_id t) (task_class_id t).

(** The table after the row with the given id has become [t']. *)
Definition replace_task (id : string) (t' : Task) (x : Task) : Task :=
  if bool_decide (task_id x = id) then t' else x.

(** A request body that carries only [status]. *)
Definition only_status (st : field string) : TaskFields :=
  mkTaskFields Undefined Undefined Undefined Undefined st Undefined Undefined Undefined.

(** The notifications of one type addressed to one user about one task. *)
Definition notifications_about (s : Store) (type uid tid : string) : list Notification :=
  filter (λ n, n_type n = type ∧ n_user_id n = uid ∧ n_task_id n = Some tid)
    (notifications s).

(** What [deleteClass] does to one task row: every column is kept, except
    that a reference to the deleted class becomes [NULL]. *)
Definition detached (id : string) (t t' : Task) : Prop :=
  task_id t' = task_id t ∧ title t' = title t ∧ description t' = description t
  ∧ due_date t' = due_date t ∧ priority t' = priority t ∧ status t' = status t
  ∧ created_by t' = created_by t ∧ assignee_id t' = assignee_id t
  ∧ task_class_id t'
    = (if bool_decide (task_class_id t = Some id) then None else task_class_id t).

(** The rows and the total of a [getTasks] answer. *)
Definition listed_tasks (r : Response) : list Task :=
  match body r with
  | TasksBody ts _ _ _ _ => ts
  | _ => []
  end.

Definition total_of (r : Response) : nat :=
  match body r with
  | TasksBody _ _ _ total _ => total
  | _ => 0
  end.

(** The row the scan inserts for a task. *)
Definition overdue_row (id : string) (t : Task) : Notification :=
  mkNotification id (created_by t) "task_overdue" "Task Overdue"
    (overdue_message t) (Some (task_id t)) None false.

(** ** Answers that carry other data *)

(** An answer whose data is not one of the shapes of [Body]. *)
Record Reply (A : Type) : Type := mkReply {
  reply_code : nat;
  reply_success : bool;
  reply_message : option string;
  reply_data : option A
}.
Arguments mkReply {A} reply_code reply_success reply_message reply_data.
Arguments reply_code {A} r.
Arguments reply_success {A} r.
Arguments reply_message {A} r.
Arguments reply_data {A} r.

(** One page of rows with the [pagination] object. *)
Record Page (A : Type) : Type := mkPage {
  page_rows : list A;
  page_number : nat;
  page_limit : nat;
  page_total : nat;
  page_pages : nat
}.
Arguments mkPage {A} page_rows page_number page_limit page_total page_pages.
Arguments page_rows {A} p.
Arguments page_number {A} p.
Arguments page_limit {A} p.
Arguments page_total {A} p.
Arguments page_pages {A} p.

(** ** notificationController.js, the remaining handlers *)

(** The values of [req.query] that [getNotifications] reads; [nq_page] and
    [nq_limit] are the parsed numbers, as in [TaskQuery], of a request whose
    range starts within the rows it counts. *)
Record NotificationQuery : Type := mkNotificationQuery {
  nq_page : positive;
  nq_limit : positive;
  nq_unread_only : option string
}.

(** The [WHERE] clause of [getNotifications]. *)
Definition getNotifications_filter (actor : User) (q : NotificationQuery)
    (n : Notification) : bool :=
  bool_decide (n_user_id n = user_id actor)
  && (if bool_decide (nq_unread_only q = Some "true") then negb (is_read n) else true).

(** [getNotifications]. *)
Definition getNotifications (actor : User) (q : NotificationQuery) (s : Store)
    : Reply (Page Notification) * Store :=
  let pageNum := Pos.to_nat (nq_page q) in
  let limitNum := Pos.to_nat (nq_limit q) in
  let from := (pageNum - 1) * limitNum in
  let rows := filter (λ n, getNotifications_filter actor q n = true) (notifications s) in
  let count := length rows in
  (mkReply 200 true None
     (Some (mkPage (take limitNum (drop from (reverse rows)))
              pageNum limitNum count (totalPages count limitNum))), s).

(** The rows [getUnreadCount] counts. *)
Definition unread (s : Store) (uid : string) : list Notification :=
  filter (λ n, n_user_id n = uid ∧ is_read n = false) (notifications s).

(** [getUnreadCount]; the number is sent as [unreadCount]. *)
Definition getUnreadCount (actor : User) (s : Store) : Response * Store :=
  (mkResponse 200 true None (CountBody (length (unread s (user_id actor)))), s).

(** [.update({ is_read: true })] on one row. *)
Definition mark_read (n : Notification) : Notification :=
  mkNotification (notification_id n) (n_user_id n) (n_type n) (n_title n)
    (n_message n) (n_task_id n) (n_class_id n) true.

(** [markAsRead]: the update is filtered by the id and by the caller; [id]
    is a value of the column's type. *)
Definition markAsRead (actor : User) (id : string) (s : Store) : Response * Store :=
  (mkResponse 200 true (Some "Notification marked as read") NoBody,
   set_notifications
     (fmap (λ n, if bool_decide (notification_id n = id ∧ n_user_id n = user_id actor)
                 then mark_read n else n)) s).

(** [markAllAsRead]. *)
Definition markAllAsRead (actor : User) (s : Store) : Response * Store :=
  (mkResponse 200 true (Some "All notifications marked as read") NoBody,
   set_notifications
     (fmap (λ n, if bool_decide (n_user_id n = user_id actor ∧ is_read n = false)
                 then mark_read n else n)) s).

(** ** taskController.js, the remaining handlers *)

(** The [stats] object of [getTaskStats]. *)
Record TaskStats : Type := mkTaskStats {
  stats_totalActive : nat;
  stats_pendingReview : nat;
  stats_todo : nat;
  stats_completed : nat;
  stats_totalTasks : nat;
  stats_totalStudents : nat
}.

(** [tasks.filter((t) => t.status === st).length]. *)
Definition count_status (st : string) (ts : list Task) : nat :=
  length (filter (λ t, status t = Some st) ts).

(** [getTaskStats]. *)
Definition getTaskStats (actor : User) (s : Store) : Reply TaskStats * Store :=
  let mine := filter (λ t, created_by t = user_id actor) (tasks s) in
  let totalTasks := length mine in
  let todoCount := count_status "todo" mine in
  let inProgressCount := count_status "in-progress" mine in
  let completedCount := count_status "completed" mine in
  let assignees := omap assignee_id mine in
  let uniqueStudents := length (remove_dups assignees) in
  (mkReply 200 true None
     (Some (mkTaskStats (todoCount + inProgressCount) inProgressCount todoCount
              completedCount totalTasks uniqueStudents)), s).

(** ** classController.js, the remaining handlers *)

(** [classes]: the columns, the reference to the teacher and [UNIQUE] on
    [invite_code], for a row that is not yet in the table. *)
Definition class_row_ok (s : Store) (c : Class) : bool :=
  class_columns_ok c
  && has_user s (teacher_id c)
  && bool_decide (classes_by_invite_code s (invite_code c) = []).

(** [.from("classes").insert(row)]: the row gets a fresh id. *)
Definition insert_class (c : Class) (s : Store) : option (Class * Store) :=
  let row := mkClass (gen_id (class_id <$> classes s)) (class_name c)
               (class_description c) (invite_code c) (teacher_id c) in
  if class_row_ok s row
  then Some (row, mkStore (users s) (classes s ++ [row])%list (class_members s)
                    (tasks s) (notifications s) (notifications_origin s))
  else None.

(** [description?.trim() || null]. *)
Definition trimmed_or_null (f : field string) : option string :=
  match f with
  | Val d => if String.eqb (trim d) EmptyString then None else Some (trim d)
  | _ => None
  end.

(** [createClass].  [draw1] and [draw2] are what the first and the second
    call of [generateInviteCode] return; the second is used when a class
    with the first exists, without a further check. *)
Definition createClass (actor : User) (name description : field string)
    (draw1 draw2 : string) (s : Store) : Response * Store :=
  match or_null name with
  | None => (failure 400 "Class name is required", s)
  | Some n =>
      if String.eqb (trim n) EmptyString
      then (failure 400 "Class name is required", s)
      else
        let inviteCode :=
          match data (maybeSingle (classes_by_invite_code s draw1)) with
          | Some _ => draw2
          | None => draw1
          end in
        match insert_class
                (mkClass EmptyString (trim n) (trimmed_or_null description)
                   inviteCode (user_id actor)) s with
        | None => (failure 500 "Failed to create class", s)
        | Some (newClass, s') =>
            (mkResponse 201 true (Some "Class created successfully")
               (ClassBody newClass), s')
        end
  end.

(** [getClasses]: the classes the caller may see, newest first, each with
    the number of its membership rows. *)
Definition getClasses (actor : User) (s : Store)
    : Reply (list (Class * nat)) * Store :=
  let userId := user_id actor in
  let enrich := fmap (λ cls, (cls, length (members_of s (class_id cls)))) in
  match user_role actor with
  | admin => (mkReply 200 true None (Some (enrich (reverse (classes s)))), s)
  | teacher =>
      (mkReply 200 true None
         (Some (enrich (reverse (filter (λ c, teacher_id c = userId) (classes s))))), s)
  | student =>
      let classIds :=
        member_class_id <$> filter (λ m, member_user_id m = userId) (class_members s) in
      match classIds with
      | [] => (mkReply 200 true None (Some []), s)
      | _ =>
          (mkReply 200 true None
             (Some (enrich (reverse (filter (λ c, class_id c ∈ classIds) (classes s))))),
           s)
      end
  end.

(** The row of [classes] after [updateClass] has written [updateData]:
    [name.trim()] and [description?.trim() || null] for the keys present. *)
Definition patch_class (name description : field string) (c : Class) : Class :=
  mkClass (class_id c)
    (match name with Val n => trim n | _ => class_name c end)
    (match description with
     | Undefined => class_description c
     | d => trimmed_or_null d
     end)
    (invite_code c) (teacher_id c).

(** The values of [updateData] on their way into [classes]. *)
Definition class_patch_ok (name description : field string) : bool :=
  match name with
  | Val n => (char_length (trim n) <=? 255)%nat && text_ok (trim n)
  | _ => true
  end
  && match description with
     | Val d => text_ok (trim d)
     | _ => true
     end.

(** [updateClass].  A [null] name makes [name.trim()] throw, which the
    handler turns into the answer of its [catch]; values that the columns
    refuse make the update fail, which the handler throws on. *)
Definition updateClass (actor : User) (id : string) (name description : field string)
    (s : Store) : Response * Store :=
  match data (single (classes_by_id s id)) with
  | None => (failure 404 "Class not found", s)
  | Some cls =>
      if bool_decide (teacher_id cls ≠ user_id actor)
         && bool_decide (user_role actor ≠ admin)
      then (failure 403 "Forbidden", s)
      else
        match name with
        | Null => (failure 500 "Internal server error", s)
        | _ =>
            if negb (defined name || defined description)
            then (failure 400 "No fields to update", s)
            else
              let rows :=
                (λ c, if bool_decide (class_id c = id)
                      then patch_class name description c else c) <$> classes s in
              if class_patch_ok name description
              then
                let s' := mkStore (users s) rows (class_members s) (tasks s)
                            (notifications s) (notifications_origin s) in
                match data (single (classes_by_id s' id)) with
                | Some updated =>
                    (mkResponse 200 true (Some "Class updated") (ClassBody updated), s')
                | None => (failure 500 "Internal server error", s)
                end
              else (failure 500 "Internal server error", s)
        end
  end.

(** [removeMember]. *)
Definition removeMember (actor : User) (classId memberId : string) (s : Store)
    : Response * Store :=
  match data (single (classes_by_id s classId)) with
  | None => (failure 404 "Class not found", s)
  | Some cls =>
      if bool_decide (teacher_id cls ≠ user_id actor)
         && bool_decide (user_role actor ≠ admin)
      then (failure 403 "Forbidden", s)
      else
        (mkResponse 200 true (Some "Member removed from class") NoBody,
         set_class_members
           (filter (λ m, ¬ (member_class_id m = classId ∧ member_user_id m = memberId)))
           s)
  end.

(** The other gated routes of [classRoutes.js]. *)
Definition route_createClass (actor : User) (name description : field string)
    (draw1 draw2 : string) : Store -> Response * Store :=
  requireRole [teacher; admin] actor (createClass actor name description draw1 draw2).
Definition route_updateClass (actor : User) (id : string)
    (name description : field string) : Store -> Response * Store :=
  requireRole [teacher; admin] actor (updateClass actor id name description).
Definition route_removeMember (actor : User) (classId memberId : string)
    : Store -> Response * Store :=
  requireRole [teacher; admin] actor (removeMember actor classId memberId).

(** ** The mutating routes as a transition system *)

(** A request to one of the routes of the task, class and notification
    routers that write to the store. *)
Inductive Request : Type :=
  | PostTask (actor : User) (b : TaskFields)
  | PutTask (actor : User) (id : string) (b : TaskFields)
  | DeleteTask (actor : User) (id : string)
  | PostClass (actor : User) (name description : field string) (draw1 draw2 : string)
  | PutClass (actor : User) (id : string) (name description : field string)
  | DeleteClass (actor : User) (id : string)
  | PostJoin (actor : User) (invite : field string)
  | DeleteMember (actor : User) (classId memberId : string)
  | PutRead (actor : User) (id : string)
  | PutReadAll (actor : User)
  | PostCheckOverdue (today : string).

(** The store after the request has been served. *)
Definition serve (r : Request) (s : Store) : Store :=
  match r with
  | PostTask actor b => snd (route_createTask actor b s)
  | PutTask actor id b => snd (updateTask actor id b s)
  | DeleteTask actor id => snd (route_deleteTask actor id s)
  | PostClass actor name description draw1 draw2 =>
      snd (route_createClass actor name description draw1 draw2 s)
  | PutClass actor id name description =>
      snd (route_updateClass actor id name description s)
  | DeleteClass actor id => snd (route_deleteClass actor id s)
  | PostJoin actor invite => snd (joinClass actor invite s)
  | DeleteMember actor classId memberId =>
      snd (route_removeMember actor classId memberId s)
  | PutRead actor id => snd (markAsRead actor id s)
  | PutReadAll actor => snd (markAllAsRead actor s)
  | PostCheckOverdue today => snd (checkOverdueTasks today s)
  end.

(** Requests served one after the other. *)
Definition run (rs : list Request) (s : Store) : Store :=
  foldl (λ s r, serve r s) s rs.

(** [schema_ok], constraint by constraint. *)
Record schema (s : Store) : Prop := mkSchema {
  users_key : NoDup (user_id <$> users s);
  users_uuid : Forall (λ u, nonempty (user_id u) = true) (users s);
  classes_key : NoDup (class_id <$> classes s);
  classes_codes : NoDup (invite_code <$> classes s);
  classes_teachers : Forall (λ c, has_user s (teacher_id c) = true) (classes s);
  members_key :
    NoDup ((λ m, (member_class_id m, member_user_id m)) <$> class_members s);
  members_refs :
    Forall (λ m, has_class s (member_class_id m) && has_user s (member_user_id m) = true)
      (class_members s);
  tasks_key : NoDup (task_id <$> tasks s);
  tasks_rows : Forall (λ t, task_row_ok s t = true) (tasks s);
  notifications_key : NoDup (notification_id <$> notifications s);
  notifications_rows : Forall (λ n, notification_row_ok s n = true) (notifications s);
  users_emails : NoDup (user_email <$> users s);
  users_lengths :
    Forall (λ u, (char_length (user_name u) <=? 255)%nat
                 && (char_length (user_email u) <=? 255)%nat = true) (users s);
  classes_lengths : Forall (λ c, class_columns_ok c = true) (classes s);
  members_ids : NoDup (member_id <$> class_members s)
}.

(** The columns of a task that no handler writes after the insert. *)
Definition task_identity (t : Task) : string * string := (task_id t, created_by t).

(** Two versions of a task row that differ at most in [status]. *)
Definition same_but_status (t t' : Task) : Prop :=
  with_status (status t) t' = t.

(** The columns of a class that [updateClass] never writes. *)
Definition class_identity (c : Class) : string * string * string :=
  (class_id c, invite_code c, teacher_id c).

(** Two versions of a notification that differ at most in [is_read]. *)
Definition same_but_read (n n' : Notification) : Prop :=
  mkNotification (notification_id n') (n_user_id n') (n_type n') (n_title n')
    (n_message n') (n_task_id n') (n_class_id n') (is_read n) = n.

(** ** A classroom used in the examples

    Teacher T1 owns class c1, student S1 is a member of it and S2 is not;
    T2 is another teacher and A1 an administrator. *)
Module Scenario.

Definition T1 : User := mkUser "t1" "Tina" "tina@school.example" teacher.
Definition T2 : User := mkUser "t2" "Tom" "tom@school.example" teacher.
Definition S1 : User := mkUser "s1" "Sam" "sam@school.example" student.
Definition S2 : User := mkUser "s2" "Sue" "sue@school.example" student.
Definition A1 : User := mkUser "a1" "Ada" "ada@school.example" admin.

Definition c1 : Class := mkClass "c1" "Maths" None "abcd1234" "t1".

(** An unfinished essay that was due on 10 January 2024. *)
Definition essay : Task :=
  mkTask "k1" "Essay" None (Some "2024-01-10") (Some "medium") (Some "todo")
    "t1" (Some "s1") (Some "c1").

(** A quiz set by T2 that S1 has already completed. *)
Definition quiz : Task :=
  mkTask "k2" "Quiz" None None (Some "high") (Some "completed")
    "t2" (Some "s1") None.

Definition school : Store :=
  mkStore [T1; T2; S1; S2; A1] [c1] [mkMember "m1" "c1" "s1"] [essay; quiz] []
    startup.

(** Three tasks of class c1. *)
Definition three_tasks : Store :=
  mkStore [T1; T2; S1; S2; A1] [c1]
    [mkMember "m1" "c1" "s1"; mkMember "m2" "c1" "s2"]
    [essay;
     mkTask "k3" "Reading" None None (Some "low") (Some "in-progress")
       "t1" (Some "s2") (Some "c1");
     mkTask "k4" "Lab" (Some "bring goggles") None (Some "high") (Some "todo")
       "t1" None (Some "c1");
     quiz]
    [] startup.

Definition overdue_note (id : string) : Notification :=
  mkNotification id "t1" "task_overdue" "Task Overdue"
    (overdue_message essay) (Some "k1") None false.

(** The store after two overlapping overdue scans have each notified T1
    about the essay. *)
Definition notified_twice : Store :=
  set_notifications (λ _, [overdue_note "n1"; overdue_note "n2"]) school.

(** The same data in a database whose [notifications] table was made by
    the migration. *)
Definition migrated (s : Store) : Store :=
  mkStore (users s) (classes s) (class_members s) (tasks s) (notifications s)
    migration.

Definition no_filters : TaskQuery := mkTaskQuery None None None None 1 10.

(** A matcher standing for [ILIKE] where no search is requested. *)
Definition any_title (value pattern : string) : bool := true.

(** A body that names a status and a creator of its own. *)
Definition forged : TaskFields :=
  mkTaskFields (Val "Homework") Undefined (Val "2024-03-01") Undefined
    (Val "completed") (Val "s1") (Val "c1") (Val "t2").

(** A body for a task of class c1. *)
Definition for_c1 : TaskFields :=
  mkTaskFields (Val "Homework") Undefined Undefined Undefined Undefined
    Undefined (Val "c1") Undefined.

(** A body that carries a new title next to the status. *)
Definition retitled : TaskFields :=
  mkTaskFields (Val "Changed") Undefined Undefined Undefined
    (Val "completed") Undefined Undefined Undefined.

(** A body that carries a new title and no status. *)
Definition title_only : TaskFields :=
  mkTaskFields (Val "Changed") Undefined Undefined Undefined Undefined
    Undefined Undefined Undefined.

(** Requests of one week at the school, of every mutating route. *)
Definition a_week : list Request :=
  [PostCheckOverdue "2024-02-01";
   PostTask T1 forged;
   PostJoin S2 (Val "abcd1234");
   PutReadAll T1;
   PostClass T2 (Val " Physics ") Undefined "abcd1234" "0f0f0f0f";
   PutClass T1 "c1" (Val "Algebra") (Val "  ");
   DeleteMember T1 "c1" "s2";
   PostCheckOverdue "2024-02-02";
   PutTask S1 "k1" retitled;
   PutRead T1 "n1";
   DeleteTask A1 "k2";
   DeleteClass T1 "c1"].

(** The first page of a user's notifications. *)
Definition inbox : NotificationQuery := mkNotificationQuery 1 20 None.
Definition first_page : Page Notification :=
  mkPage [overdue_note "n2"; overdue_note "n1"] 1 20 2 1.

(** A no-break space (U+00A0) and an ideographic space (U+3000). *)
Definition nbsp : string :=
  String (Ascii.ascii_of_nat 194) (String (Ascii.ascii_of_nat 160) EmptyString).
Definition ideographic_space : string :=
  String (Ascii.ascii_of_nat 227)
    (String (Ascii.ascii_of_nat 128) (String (Ascii.ascii_of_nat 128) EmptyString)).

(** A name that is blank but not empty. *)
Definition blank : string := " " ++ nbsp ++ ideographic_space ++ " ".

(** The invite code of c1 as pasted from a message. *)
Definition padded_code : string := nbsp ++ " abcd1234 " ++ nbsp.

(** A class name typed with a no-break space in front. *)
Definition physics : string := nbsp ++ "Physics ".

(** A body that clears the due date with an empty text. *)
Definition empty_date : TaskFields :=
  mkTaskFields Undefined Undefined (Val EmptyString) Undefined Undefined
    Undefined Undefined Undefined.

(** A body that carries a title and nothing else. *)
Definition only_title (ttl : string) : TaskFields :=
  mkTaskFields (Val ttl) Undefined Undefined Undefined Undefined Undefined
    Undefined Undefined.

(** A title of 255 letters e with an acute accent, two bytes each. *)
Definition long_title : string :=
  foldr String.append EmptyString
    (replicate 255 (String (Ascii.ascii_of_nat 195)
                      (String (Ascii.ascii_of_nat 169) EmptyString))).

End Scenario.

(** * Properties *)

(** ** Lookups by a key *)

Section Lists.
Context {A K : Type} `{EqDecision K} (f : A -> K).

Lemma filter_key_absent (k : K) (l : list A) :
  k ∉ f <$> l -> filter (λ y, f y = k) l = [].
Proof.
  induction l as [|a l IH]; intros Hk; [done|].
  rewrite fmap_cons, not_elem_of_cons in Hk. destruct Hk as [Hne Hk].
  rewrite filter_cons_False by congruence. auto.
Qed.

Lemma filter_key_unique (x : A) (l : list A) :
  NoDup (f <$> l) -> x ∈ l -> filter (λ y, f y = f x) l = [x].
Proof.
  induction l as [|a l IH]; intros Hnd Hx; [by apply elem_of_nil in Hx|].
  rewrite fmap_cons in Hnd. apply NoDup_cons in Hnd as [Ha Hnd].
  apply elem_of_cons in Hx as [->|Hx].
  - rewrite filter_cons_True by done. by rewrite filter_key_absent.
  - rewrite filter_cons_False; [auto|].
    intros Heq. apply Ha. rewrite Heq. by apply list_elem_of_fmap_2.
Qed.

Lemma filter_key_singleton (k : K) (x : A) (l : list A) :
  filter (λ y, f y = k) l = [x] -> x ∈ l ∧ f x = k.
Proof.
  intros H. assert (Hx : x ∈ filter (λ y, f y = k) l) by (rewrite H; left).
  apply list_elem_of_filter in Hx. tauto.
Qed.
End Lists.

Lemma schema_ok_spec (s : Store) :
  schema_ok s = true ->
  NoDup (user_id <$> users s)
  ∧ Forall (λ u, user_id u ≠ EmptyString) (users s)
  ∧ NoDup (class_id <$> classes s)
  ∧ NoDup (invite_code <$> classes s)
  ∧ NoDup ((λ m, (member_class_id m, member_user_id m)) <$> class_members s)
  ∧ NoDup (task_id <$> tasks s)
  ∧ Forall (λ t, task_row_ok s t = true) (tasks s).
Proof.
  unfold schema_ok. rewrite !andb_true_iff, !bool_decide_eq_true.
  intros ((((((((((((((H1 & H2) & H3) & H4) & H5) & H6) & H7) & H8) & H9) & H10) & H11) & H12) & H13) & H14) & H15).
  rewrite forallb_forall in H2, H9. repeat split; try done.
  - apply Forall_forall. intros u Hu He. apply list_elem_of_In, H2 in Hu.
    unfold nonempty in Hu. by rewrite He in Hu.
  - apply Forall_forall. intros t Ht. rewrite list_elem_of_In in Ht. auto.
Qed.

(** ** Updates of a task row *)

Lemma patch_task_id p t t' : patch_task p t = Some t' -> task_id t' = task_id t.
Proof. unfold patch_task. destruct (p_title p); intros; simplify_eq; done. Qed.

Lemma update_tasks_Some p sel s s' :
  update_tasks p sel s = Some s' ->
  s' = set_tasks (λ _, tasks s') s
  ∧ Forall2 (λ t t', update_row p sel s t = Some t') (tasks s) (tasks s').
Proof.
  unfold update_tasks. destruct (mapM _ _) as [ts|] eqn:E; [|done].
  intros [= <-]. split; [done|]. by apply mapM_Some_1.
Qed.

Lemma filter_id_replace id t' (l : list Task) :
  task_id t' = id ->
  filter (λ y, task_id y = id) (replace_task id t' <$> l)
  = replace_task id t' <$> filter (λ y, task_id y = id) l.
Proof.
  intros Hid. induction l as [|a l IH]; [done|].
  rewrite fmap_cons. unfold replace_task at 1. case_bool_decide as Ha.
  - rewrite !filter_cons_True by done. rewrite fmap_cons, IH.
    f_equal. unfold replace_task. by rewrite bool_decide_true.
  - rewrite !filter_cons_False by done. done.
Qed.

Lemma update_task_by_id_accept p id s t t' :
  tasks_by_id s id = [t] -> patch_task p t = Some t' -> task_row_ok s t' = true ->
  update_task_by_id p id s
  = Some (t', set_tasks (fmap (replace_task id t')) s).
Proof.
  intros Ht Hp Hok. unfold update_task_by_id, update_tasks.
  assert (Hall : ∀ x, x ∈ tasks s -> task_id x = id -> x = t).
  { intros x Hx Hid. assert (x ∈ tasks_by_id s id) as Hin.
    { unfold tasks_by_id. apply list_elem_of_filter. split; done. }
    rewrite Ht in Hin. by apply list_elem_of_singleton in Hin. }
  assert (Hm : mapM (update_row p (λ x, bool_decide (task_id x = id)) s) (tasks s)
               = Some (replace_task id t' <$> tasks s)).
  { apply mapM_Some_2, Forall2_fmap_r, Forall_Forall2_diag, Forall_forall.
    intros x Hx. unfold compose, update_row, replace_task.
    destruct (decide (task_id x = id)) as [Hid|Hid].
    - rewrite !bool_decide_true by done. by rewrite (Hall x Hx Hid), Hp, Hok.
    - by rewrite !bool_decide_false by done. }
  rewrite Hm. unfold tasks_by_id. cbn [set_tasks tasks].
  pose proof (patch_task_id _ _ _ Hp) as Hid'.
  destruct (filter_key_singleton task_id id t (tasks s) Ht) as [_ Hid].
  rewrite filter_id_replace by congruence.
  fold (tasks_by_id s id). rewrite Ht. cbn. unfold replace_task.
  rewrite bool_decide_true by done. done.
Qed.

Lemma update_task_by_id_reject p id s t :
  tasks_by_id s id = [t] ->
  match patch_task p t with
  | Some t' => task_row_ok s t' = false
  | None => True
  end ->
  update_task_by_id p id s = None.
Proof.
  intros Ht Hrej. unfold update_task_by_id, update_tasks.
  destruct (filter_key_singleton task_id id t (tasks s) Ht) as [Hin Hid].
  destruct (mapM _ _) as [ts|] eqn:E; [|done]. exfalso.
  assert (is_Some (mapM (update_row p (λ x, bool_decide (task_id x = id)) s) (tasks s)))
    as Hs by (rewrite E; eauto).
  apply mapM_is_Some in Hs. rewrite Forall_forall in Hs.
  destruct (Hs t Hin) as [y Hy]. unfold update_row in Hy. 
  rewrite bool_decide_true in Hy by done.
  destruct (patch_task p t) as [t'|]; [|done]. rewrite Hrej in Hy. done.
Qed.

(** ** Stores that satisfy the schema *)

Lemma schema_task_ids s : schema_ok s = true -> NoDup (task_id <$> tasks s).
Proof. intros H. by destruct (schema_ok_spec s H) as (_ & _ & _ & _ & _ & ? & _). Qed.

Lemma tasks_by_id_unique s t :
  schema_ok s = true -> t ∈ tasks s -> tasks_by_id s (task_id t) = [t].
Proof. intros H Ht. apply filter_key_unique; [by apply schema_task_ids|done]. Qed.

Lemma schema_task_row_ok s t :
  schema_ok s = true -> t ∈ tasks s -> task_row_ok s t = true.
Proof.
  intros H Ht. destruct (schema_ok_spec s H) as (_ & _ & _ & _ & _ & _ & Hrows).
  rewrite Forall_forall in Hrows. auto.
Qed.

Lemma classes_by_id_unique s c :
  schema_ok s = true -> c ∈ classes s -> classes_by_id s (class_id c) = [c].
Proof.
  intros H Hc. destruct (schema_ok_spec s H) as (_ & _ & ? & _).
  by apply filter_key_unique.
Qed.

Lemma classes_by_invite_code_unique s c :
  schema_ok s = true -> c ∈ classes s ->
  classes_by_invite_code s (invite_code c) = [c].
Proof.
  intros H Hc. destruct (schema_ok_spec s H) as (_ & _ & _ & ? & _).
  by apply filter_key_unique.
Qed.

Lemma users_by_id_unique s u :
  schema_ok s = true -> u ∈ users s -> users_by_id s (user_id u) = [u].
Proof.
  intros H Hu. destruct (schema_ok_spec s H) as (? & _).
  by apply filter_key_unique.
Qed.

Lemma has_user_nonempty s id :
  schema_ok s = true -> has_user s id = true -> id ≠ EmptyString.
Proof.
  intros H Hid. destruct (schema_ok_spec s H) as (_ & Hne & _).
  unfold has_user in Hid. apply bool_decide_eq_true in Hid.
  apply list_elem_of_fmap in Hid as (u & -> & Hu).
  rewrite Forall_forall in Hne. auto.
Qed.

Lemma task_row_ok_creator s t : task_row_ok s t = true -> has_user s (created_by t) = true.
Proof. unfold task_row_ok. rewrite !andb_true_iff. tauto. Qed.

(** ** Notifications are a side table *)

Lemma createNotification_frame uid type ttl msg tid cid s :
  users (createNotification uid type ttl msg tid cid s) = users s
  ∧ classes (createNotification uid type ttl msg tid cid s) = classes s
  ∧ class_members (createNotification uid type ttl msg tid cid s) = class_members s
  ∧ tasks (createNotification uid type ttl msg tid cid s) = tasks s.
Proof. unfold createNotification. by destruct (notification_row_ok _ _). Qed.

Lemma createNotification_tasks uid type ttl msg tid cid s :
  tasks (createNotification uid type ttl msg tid cid s) = tasks s.
Proof. apply createNotification_frame. Qed.

Lemma createNotification_accepted uid type ttl msg tid cid s :
  has_user s uid = true -> type ∈ notification_types ->
  (char_length ttl <= 255)%nat ->
  references (has_task s) tid = true -> references (has_class s) cid = true ->
  notifications (createNotification uid type ttl msg tid cid s)
  = (notifications s
     ++ [mkNotification (gen_id (notification_id <$> notifications s))
           uid type ttl msg tid cid false])%list.
Proof.
  intros Hu Hty Hlen Ht Hc.
  assert (class_reference s cid = true) as Hc'
    by (unfold class_reference; by destruct (notifications_origin s)).
  unfold createNotification, notification_row_ok. cbn.
  rewrite Hu, Ht, Hc', bool_decide_true by done.
  apply Nat.leb_le in Hlen. by rewrite Hlen.
Qed.

(** ** createTask *)

(** C8: a task that [createTask] stores has status [todo] and the acting
    user as its creator, whatever [status] or [created_by] the request body
    carries; the answer is that stored row, appended to the table. *)
Theorem createTask_server_fields actor b s :
  code (fst (createTask actor b s)) = 201 ->
  ∃ task,
    body (fst (createTask actor b s)) = TaskBody task
    ∧ status task = Some "todo"
    ∧ created_by task = user_id actor
    ∧ tasks (snd (createTask actor b s)) = (tasks s ++ [task])%list.
Proof.
  unfold createTask. intros Hcode.
  repeat case_match; simplify_eq/=; try discriminate.
  all: match goal with H : insert_task _ _ = Some _ |- _ =>
         unfold insert_task in H; cbn in H; case_match; simplify_eq end.
  all: eexists; split; [reflexivity|]; split; [done|]; split; [done|].
  all: by rewrite ?createNotification_tasks.
Qed.


(** ** deleteClass *)

Lemma detach_detached id t : detached id t (detach id t).
Proof.
  unfold detached, detach. case_bool_decide as Hc; cbn; repeat split; try done.
  all: try by rewrite bool_decide_false.
Qed.

Lemma detach_update_row id s t t1 :
  update_row (mkTaskPatch Undefined Undefined Undefined Undefined Undefined
                Undefined Null)
    (λ t, bool_decide (task_class_id t = Some id)) s t = Some t1 ->
  detach id t1 = detach id t.
Proof.
  unfold update_row, patch_task, detach. cbn.
  case_bool_decide as Hsel; [|by intros [= ->]; rewrite bool_decide_false].
  case_match; [|done]. intros [= <-]. cbn. by rewrite bool_decide_false.
Qed.

Lemma detach_after_update id s s1 :
  update_tasks (mkTaskPatch Undefined Undefined Undefined Undefined Undefined
                  Undefined Null)
    (λ t, bool_decide (task_class_id t = Some id)) s = Some s1 ->
  detach id <$> tasks s1 = detach id <$> tasks s.
Proof.
  intros H. apply update_tasks_Some in H as [_ H].
  induction H as [|t t1 l l1 Ht _ IH]; [done|].
  rewrite !fmap_cons, IH. f_equal. by eapply detach_update_row.
Qed.

(** C9: after a successful [deleteClass] the task table has the same rows in
    the same order, each with all its columns unchanged except that a
    reference to the class has become [NULL]; no membership row of the class
    and no class with that id is left. *)
Theorem deleteClass_detaches_tasks actor id s :
  code (fst (deleteClass actor id s)) = 200 ->
  Forall2 (detached id) (tasks s) (tasks (snd (deleteClass actor id s)))
  ∧ length (tasks (snd (deleteClass actor id s))) = length (tasks s)
  ∧ (∀ m, m ∈ class_members (snd (deleteClass actor id s)) -> member_class_id m ≠ id)
  ∧ (∀ c, c ∈ classes (snd (deleteClass actor id s)) -> class_id c ≠ id).
Proof.
  unfold deleteClass. intros Hcode.
  destruct (data (single (classes_by_id s id))) as [cls|]; [|discriminate].
  destruct (_ && _); [discriminate|]. cbn [snd].
  set (p := mkTaskPatch _ _ _ _ _ _ _) in *.
  set (sel := λ t : Task, bool_decide (task_class_id t = Some id)) in *.
  assert (Htasks : tasks (delete_class id (default s (update_tasks p sel s)))
                   = detach id <$> tasks s).
  { cbn. destruct (update_tasks p sel s) as [s1|] eqn:E; cbn; [|done].
    by apply detach_after_update. }
  repeat split.
  - rewrite Htasks. apply Forall2_fmap_r, Forall_Forall2_diag, Forall_forall.
    intros t _. apply detach_detached.
  - by rewrite Htasks, length_fmap.
  - intros m Hm. cbn in Hm. apply list_elem_of_filter in Hm. tauto.
  - intros c Hc. cbn in Hc. apply list_elem_of_filter in Hc. tauto.
Qed.

(** ** joinClass *)

Lemma membership_absent s cid uid :
  (∀ m, m ∈ class_members s -> ¬ (member_class_id m = cid ∧ member_user_id m = uid)) ->
  membership s cid uid = [].
Proof.
  intros H. unfold membership. induction (class_members s) as [|m l IH]; [done|].
  rewrite filter_cons_False by (apply H; left).
  apply IH. intros m' Hm'. apply H. by right.
Qed.

Lemma membership_unique s m :
  schema_ok s = true -> m ∈ class_members s ->
  membership s (member_class_id m) (member_user_id m) = [m].
Proof.
  intros H Hm. destruct (schema_ok_spec s H) as (_ & _ & _ & _ & Hnd & _).
  unfold membership.
  rewrite (list_filter_iff _
             (λ y, (λ m, (member_class_id m, member_user_id m)) y
                   = (λ m, (member_class_id m, member_user_id m)) m)).
  - by apply (filter_key_unique (λ m, (member_class_id m, member_user_id m))).
  - intros y. cbn. split; [by intros [-> ->]|by intros [= -> ->]].
Qed.

Lemma has_class_elem s c : c ∈ classes s -> has_class s (class_id c) = true.
Proof.
  intros Hc. unfold has_class. apply bool_decide_eq_true.
  by apply list_elem_of_fmap_2.
Qed.

(** A user who is neither the teacher nor a member of the matched class
    gets one membership row appended. *)
Lemma joinClass_new_member actor invite s c cls :
  schema_ok s = true -> has_user s (user_id actor) = true ->
  or_null invite = Some c -> cls ∈ classes s -> invite_code cls = trim c ->
  teacher_id cls ≠ user_id actor ->
  (∀ m, m ∈ class_members s ->
     ¬ (member_class_id m = class_id cls ∧ member_user_id m = user_id actor)) ->
  ∃ m, member_class_id m = class_id cls ∧ member_user_id m = user_id actor
       ∧ joinClass actor invite s
         = (mkResponse 200 true
              (Some ("Joined class " ++ dquote ++ class_name cls ++ dquote
                     ++ " successfully"))
              (ClassBody cls),
            set_class_members (λ l, (l ++ [m])%list) s).
Proof.
  intros Hok Hactor Hc Hcls Hcode Ht Hnone. unfold joinClass. rewrite Hc.
  rewrite <- Hcode, (classes_by_invite_code_unique s cls Hok Hcls). cbn.
  rewrite bool_decide_false by done.
  rewrite (membership_absent s _ _ Hnone). cbn.
  unfold insert_member, member_row_ok. cbn.
  rewrite (has_class_elem s cls Hcls), Hactor, (membership_absent s _ _ Hnone).
  cbn. by eexists (mkMember _ _ _).
Qed.

(** C6, as the code has it: a missing or empty invite code is a validation
    error; a code that, once trimmed, matches no class is [NotFoundError];
    the teacher of the matched class gets a validation error; a user who is
    already a member gets an answer of the same kind, status 400, told apart
    from the teacher's only by its message; any other user gets exactly one
    membership row for the class appended and the class returned. *)
Theorem joinClass_outcomes actor code s :
  schema_ok s = true -> has_user s (user_id actor) = true ->
  (or_null code = None ->
     joinClass actor code s = (failure 400 "Invite code is required", s))
  ∧ (∀ c, or_null code = Some c ->
       (∀ cls, cls ∈ classes s -> invite_code cls ≠ trim c) ->
       joinClass actor code s = (failure 404 "Invalid invite code", s)
       ∧ error_kind (fst (joinClass actor code s)) = Some NotFoundError)
  ∧ (∀ c cls, or_null code = Some c -> cls ∈ classes s -> invite_code cls = trim c ->
       (teacher_id cls = user_id actor ->
          joinClass actor code s = (failure 400 "You are the teacher of this class", s)
          ∧ error_kind (fst (joinClass actor code s)) = Some ValidationError)
       ∧ (teacher_id cls ≠ user_id actor ->
          (∃ m, m ∈ class_members s ∧ member_class_id m = class_id cls
                ∧ member_user_id m = user_id actor) ->
          joinClass actor code s
          = (failure 400 "You are already a member of this class", s)
          ∧ error_kind (fst (joinClass actor code s)) = Some ValidationError)
       ∧ (teacher_id cls ≠ user_id actor ->
          (∀ m, m ∈ class_members s ->
             ¬ (member_class_id m = class_id cls ∧ member_user_id m = user_id actor)) ->
          ∃ m, member_class_id m = class_id cls ∧ member_user_id m = user_id actor
               ∧ joinClass actor code s
                 = (mkResponse 200 true
                      (Some ("Joined class " ++ dquote ++ class_name cls ++ dquote
                             ++ " successfully"))
                      (ClassBody cls),
                    set_class_members (λ l, (l ++ [m])%list) s))).
Proof.
  intros Hok Hactor. split; [|split].
  - unfold joinClass. by intros ->.
  - unfold joinClass. intros c -> Hnone.
    assert (classes_by_invite_code s (trim c) = []) as ->; [|done].
    apply filter_key_absent. intros Hin.
    apply list_elem_of_fmap in Hin as (cls & Heq & Hcls). by eapply Hnone.
  - intros c cls Hc Hcls Hcode. split; [|split].
    + intros Ht. unfold joinClass.
      rewrite Hc, <- Hcode, (classes_by_invite_code_unique s cls Hok Hcls). cbn.
      by rewrite bool_decide_true.
    + intros Ht (m & Hm & Hmc & Hmu). unfold joinClass.
      rewrite Hc, <- Hcode, (classes_by_invite_code_unique s cls Hok Hcls). cbn.
      rewrite bool_decide_false by done.
      by rewrite <- Hmc, <- Hmu, (membership_unique s m Hok Hm).
    + intros Ht Hnone. by apply (joinClass_new_member actor code s c cls).
Qed.

(** Joining twice: the second call finds the row the first one inserted. *)
Lemma joinClass_twice actor invite s c cls :
  schema_ok s = true -> has_user s (user_id actor) = true ->
  or_null invite = Some c -> cls ∈ classes s -> invite_code cls = trim c ->
  teacher_id cls ≠ user_id actor ->
  (∀ m, m ∈ class_members s ->
     ¬ (member_class_id m = class_id cls ∧ member_user_id m = user_id actor)) ->
  code (fst (joinClass actor invite s)) = 200%nat
  ∧ joinClass actor invite (snd (joinClass actor invite s))
    = (failure 400 "You are already a member of this class",
       snd (joinClass actor invite s)).
Proof.
  intros Hok Hactor Hc Hcls Hcode Ht Hnone.
  destruct (joinClass_new_member actor invite s c cls Hok Hactor Hc Hcls Hcode
              Ht Hnone) as (m & Hmc & Hmu & ->).
  split; [done|]. cbn [snd].
  unfold joinClass. rewrite Hc.
  change (classes_by_invite_code (set_class_members _ s) (trim c))
    with (classes_by_invite_code s (trim c)).
  rewrite <- Hcode, (classes_by_invite_code_unique s cls Hok Hcls). cbn.
  rewrite bool_decide_false by done.
  unfold membership. cbn. rewrite filter_app.
  fold (membership s (class_id cls) (user_id actor)).
  rewrite (membership_absent s _ _ Hnone), filter_cons_True by done. done.
Qed.

(** ** updateTask *)

Lemma patch_status_only st t :
  patch_task (status_patch st) t = Some (with_status (Some st) t).
Proof. done. Qed.

Lemma task_row_ok_with_status s t st :
  task_row_ok s t = true ->
  task_row_ok s (with_status (Some st) t) = bool_decide (st ∈ statuses).
Proof.
  unfold task_row_ok. rewrite !andb_true_iff. cbn.
  intros ((((((((-> & ->) & _) & ->) & ->) & ->) & ->) & ->) & ->). cbn.
  by rewrite !andb_true_r.
Qed.

Lemma replace_task_ids id t' (l : list Task) :
  task_id t' = id -> task_id <$> (replace_task id t' <$> l) = task_id <$> l.
Proof.
  intros Hid. rewrite <- list_fmap_compose. apply list_fmap_ext.
  intros i x _. cbn. unfold replace_task. by case_bool_decide; simplify_eq.
Qed.

(** A student's update of a task assigned to them, once a status is given:
    the store decides. *)
Lemma student_update actor s t b st :
  schema_ok s = true -> t ∈ tasks s ->
  user_role actor = student -> assignee_id t = Some (user_id actor) ->
  or_null (b_status b) = Some st ->
  updateTask actor (task_id t) b s
  = if bool_decide (st ∈ statuses)
    then (mkResponse 200 true (Some "Task status updated")
            (TaskBody (with_status (Some st) t)),
          notify_completed actor st t (with_status (Some st) t)
            (set_tasks (fmap (replace_task (task_id t) (with_status (Some st) t))) s))
    else (failure 500 "Failed to update task", s).
Proof.
  intros Hok Ht Hrole Hassign Hst. unfold updateTask.
  rewrite (tasks_by_id_unique s t Hok Ht). cbn.
  rewrite bool_decide_true, bool_decide_false, Hst by (done || by intros []).
  pose proof (task_row_ok_with_status s t st (schema_task_row_ok s t Hok Ht)) as Hrow.
  case_bool_decide as Hin.
  - by rewrite (update_task_by_id_accept _ _ s t (with_status (Some st) t))
      by (done || by apply tasks_by_id_unique).
  - by rewrite (update_task_by_id_reject _ _ s t)
      by (by apply tasks_by_id_unique || by rewrite patch_status_only).
Qed.

(** An update by the creator or by an administrator, once the body has a
    key: again the store decides. *)
Lemma editor_update actor s t b :
  schema_ok s = true -> t ∈ tasks s ->
  user_role actor ≠ student ->
  created_by t = user_id actor ∨ user_role actor = admin ->
  no_keys (updateData b) = false ->
  updateTask actor (task_id t) b s
  = match patch_task (updateData b) t with
    | Some t' =>
        if task_row_ok s t'
        then (mkResponse 200 true (Some "Task updated successfully") (TaskBody t'),
              set_tasks (fmap (replace_task (task_id t) t')) s)
        else (failure 500 "Failed to update task", s)
    | None => (failure 500 "Failed to update task", s)
    end.
Proof.
  intros Hok Ht Hrole Hmay Hkeys. unfold updateTask.
  rewrite (tasks_by_id_unique s t Hok Ht). cbn.
  rewrite (bool_decide_false (user_role actor = student)) by done.
  assert (bool_decide (created_by t ≠ user_id actor)
          && bool_decide (user_role actor ≠ admin) = false) as ->.
  { destruct Hmay as [H|H].
    - by rewrite (bool_decide_false (created_by t ≠ user_id actor)) by tauto.
    - rewrite (bool_decide_false (user_role actor ≠ admin)) by tauto.
      apply andb_false_r. }
  rewrite Hkeys.
  destruct (patch_task (updateData b) t) as [t'|] eqn:Hp.
  - destruct (task_row_ok s t') eqn:Hrow.
    + by rewrite (update_task_by_id_accept _ _ s t t')
        by (done || by apply tasks_by_id_unique).
    + by rewrite (update_task_by_id_reject _ _ s t)
        by (by apply tasks_by_id_unique || by rewrite Hp).
  - by rewrite (update_task_by_id_reject _ _ s t)
      by (by apply tasks_by_id_unique || by rewrite Hp).
Qed.

Lemma notify_completed_tasks actor st t task s :
  tasks (notify_completed actor st t task s) = tasks s.
Proof.
  unfold notify_completed. case_match; [|done]. apply createNotification_tasks.
Qed.

(** C2, as the code has it: for a student and a task assigned to them, a
    body without a usable [status] (absent, [null] or empty) is a validation
    error that changes nothing; a body with one is never a validation error,
    whatever else it carries; and in every case the answer and the store are
    those of the same body stripped of all keys but [status]: other keys are
    ignored, not rejected. *)
Theorem student_update_reads_only_status actor s t b :
  schema_ok s = true -> t ∈ tasks s ->
  user_role actor = student -> assignee_id t = Some (user_id actor) ->
  (or_null (b_status b) = None ->
     updateTask actor (task_id t) b s
     = (failure 400 "Students can only update task status", s)
     ∧ error_kind (fst (updateTask actor (task_id t) b s)) = Some ValidationError)
  ∧ (is_Some (or_null (b_status b)) ->
     error_kind (fst (updateTask actor (task_id t) b s)) ≠ Some ValidationError)
  ∧ updateTask actor (task_id t) b s
    = updateTask actor (task_id t) (only_status (b_status b)) s.
Proof.
  intros Hok Ht Hrole Hassign. split; [|split].
  - intros Hst. unfold updateTask.
    rewrite (tasks_by_id_unique s t Hok Ht). cbn.
    by rewrite bool_decide_true, bool_decide_false, Hst by (done || by intros []).
  - intros [st Hst]. rewrite (student_update actor s t b st) by done.
    by case_bool_decide.
  - unfold updateTask. rewrite (tasks_by_id_unique s t Hok Ht). cbn.
    by rewrite bool_decide_true by done.
Qed.

(** C4, as the code has it: when a student's update of an assigned task
    succeeds, exactly one [task_completed] notification for the task is
    appended, addressed to its creator, if the new status is [completed],
    and none otherwise; the status the task had before plays no part. *)
Theorem completion_notice_follows_new_status actor s t b st :
  schema_ok s = true -> t ∈ tasks s ->
  user_role actor = student -> assignee_id t = Some (user_id actor) ->
  or_null (b_status b) = Some st ->
  code (fst (updateTask actor (task_id t) b s)) = 200 ->
  (st = "completed" ->
     ∃ n, notifications (snd (updateTask actor (task_id t) b s))
          = (notifications s ++ [n])%list
          ∧ n_type n = "task_completed" ∧ n_user_id n = created_by t
          ∧ n_task_id n = Some (task_id t))
  ∧ (st ≠ "completed" ->
     notifications (snd (updateTask actor (task_id t) b s)) = notifications s).
Proof.
  intros Hok Ht Hrole Hassign Hst.
  rewrite (student_update actor s t b st) by done.
  case_bool_decide as Hin; [|discriminate]. intros _. cbn [snd].
  unfold notify_completed. split.
  - intros ->. cbn [String.eqb Ascii.eqb Bool.eqb andb].
    pose proof (task_row_ok_creator s t (schema_task_row_ok s t Hok Ht)) as Hcre.
    pose proof (has_user_nonempty s _ Hok Hcre) as Hne.
    apply String.eqb_neq in Hne. rewrite Hne. cbn [negb].
    rewrite createNotification_accepted.
    + eexists. split; [reflexivity|]. done.
    + done.
    + unfold notification_types. by right; left.
    + apply Nat.leb_le. vm_compute. reflexivity.
    + cbn. unfold has_task. apply bool_decide_eq_true. cbn.
      rewrite replace_task_ids by done. by apply list_elem_of_fmap_2.
    + done.
  - intros Hne. apply String.eqb_neq in Hne. by rewrite Hne.
Qed.

(** C10, as the code has it: neither branch of [updateTask] compares the
    status with the three known values; a student's status only has to be
    non-empty.  The value goes to the store as it is: one of [todo],
    [in-progress], [completed] is stored verbatim and the call succeeds, any
    other string is refused by the [CHECK] on [tasks.status] and the call
    fails as a store failure, leaving the store unchanged. *)
Theorem status_checked_by_store_only actor s t st :
  schema_ok s = true -> t ∈ tasks s ->
  (user_role actor = student ∧ assignee_id t = Some (user_id actor)
   ∧ st ≠ EmptyString)
  ∨ (user_role actor ≠ student
     ∧ (created_by t = user_id actor ∨ user_role actor = admin)) ->
  (st ∈ statuses ->
     code (fst (updateTask actor (task_id t) (only_status (Val st)) s)) = 200
     ∧ body (fst (updateTask actor (task_id t) (only_status (Val st)) s))
       = TaskBody (with_status (Some st) t)
     ∧ tasks (snd (updateTask actor (task_id t) (only_status (Val st)) s))
       = replace_task (task_id t) (with_status (Some st) t) <$> tasks s)
  ∧ (st ∉ statuses ->
     updateTask actor (task_id t) (only_status (Val st)) s
     = (failure 500 "Failed to update task", s)).
Proof.
  intros Hok Ht [(Hrole & Hassign & Hne)|(Hrole & Hmay)].
  - assert (or_null (b_status (only_status (Val st))) = Some st) as Hst.
    { cbn. apply String.eqb_neq in Hne. by rewrite Hne. }
    rewrite (student_update actor s t _ st) by done.
    split; intros Hin.
    + rewrite bool_decide_true by done. cbn [fst snd code body].
      by rewrite notify_completed_tasks.
    + by rewrite bool_decide_false by done.
  - rewrite (editor_update actor s t) by done.
    change (patch_task (updateData (only_status (Val st))) t)
      with (Some (with_status (Some st) t)). cbn match.
    rewrite (task_row_ok_with_status s t st (schema_task_row_ok s t Hok Ht)).
    split; intros Hin.
    + by rewrite bool_decide_true by done.
    + by rewrite bool_decide_false by done.
Qed.

(** ** What an administrator may do with tasks *)

Lemma getTasks_filter_creator ilike actor q t :
  user_role actor = admin ->
  getTasks_filter ilike actor q t = true -> created_by t = user_id actor.
Proof.
  intros Hrole. unfold getTasks_filter. rewrite Hrole.
  rewrite (bool_decide_true (admin = admin)), orb_true_r by done.
  rewrite !andb_true_iff, bool_decide_eq_true. tauto.
Qed.

Lemma getTasks_filter_unfiltered ilike actor page limit t :
  user_role actor = admin ->
  getTasks_filter ilike actor (mkTaskQuery None None None None page limit) t = true
  <-> created_by t = user_id actor.
Proof.
  intros Hrole. unfold getTasks_filter. rewrite Hrole.
  rewrite (bool_decide_true (admin = admin)), orb_true_r by done. cbn.
  by rewrite !andb_true_r, bool_decide_eq_true.
Qed.

(** C3, as the code has it: for an administrator and any task of the store,
    [getTask] and [deleteTask] succeed and [updateTask] succeeds with every
    non-empty body the store accepts, none of them looking at [created_by] or
    [assignee_id]; [getTasks], however, gives an administrator the tasks they
    created themselves, like a teacher, and counts only those. *)
Theorem admin_task_access actor s t :
  schema_ok s = true -> t ∈ tasks s -> user_role actor = admin ->
  getTask actor (task_id t) s = (mkResponse 200 true None (TaskBody t), s)
  ∧ deleteTask actor (task_id t) s
    = (mkResponse 200 true (Some "Task deleted successfully") NoBody,
       delete_task (task_id t) s)
  ∧ (∀ b t', no_keys (updateData b) = false ->
       patch_task (updateData b) t = Some t' -> task_row_ok s t' = true ->
       updateTask actor (task_id t) b s
       = (mkResponse 200 true (Some "Task updated successfully") (TaskBody t'),
          set_tasks (fmap (replace_task (task_id t) t')) s))
  ∧ (∀ ilike q,
       Forall (λ x, created_by x = user_id actor)
         (listed_tasks (fst (getTasks ilike actor q s))))
  ∧ (∀ ilike page limit,
       total_of (fst (getTasks ilike actor
                        (mkTaskQuery None None None None page limit) s))
       = length (filter (λ x, created_by x = user_id actor) (tasks s))).
Proof.
  intros Hok Ht Hrole. repeat split.
  - unfold getTask. rewrite (tasks_by_id_unique s t Hok Ht). cbn.
    by rewrite !(bool_decide_false (user_role actor = _)) by (by rewrite Hrole).
  - unfold deleteTask. rewrite (tasks_by_id_unique s t Hok Ht). cbn.
    rewrite (bool_decide_false (user_role actor ≠ admin)) by tauto.
    by rewrite andb_false_r.
  - intros b t' Hkeys Hp Hrow.
    rewrite (editor_update actor s t b), Hp, Hrow; try done.
    + by rewrite Hrole.
    + by right.
  - intros ilike q. cbn. apply Forall_take, Forall_drop, Forall_reverse, Forall_forall.
    intros x Hx. apply list_elem_of_filter in Hx as [Hx _].
    by eapply getTasks_filter_creator.
  - intros ilike page limit. cbn. f_equal. apply list_filter_iff.
    intros x. by apply getTasks_filter_unfiltered.
Qed.

(** ** Reading a class *)

(** [getClass] refuses a student without a membership row. *)
Lemma getClass_denies_non_member actor id s cls :
  user_role actor = student -> classes_by_id s id = [cls] ->
  membership s id (user_id actor) = [] ->
  getClass actor id s
  = (failure 403 "Forbidden — you are not a member of this class", s).
Proof.
  intros Hrole Hcls Hnone. unfold getClass. rewrite Hcls, Hnone. cbn.
  rewrite (bool_decide_false (user_role actor = teacher)) by (by rewrite Hrole).
  by rewrite (bool_decide_true (user_role actor = student)) by done.
Qed.

(** [getClassMembers] answers every caller alike. *)
Lemma getClassMembers_any_actor actor actor' id s :
  getClassMembers actor id s = getClassMembers actor' id s
  ∧ code (fst (getClassMembers actor id s)) = 200.
Proof. done. Qed.

(** ** The overdue scan *)

Lemma filter_ext_elem {A} (P Q : A -> Prop) `{∀ x, Decision (P x)} `{∀ x, Decision (Q x)}
    (l : list A) :
  (∀ x, x ∈ l -> P x <-> Q x) -> filter P l = filter Q l.
Proof.
  induction l as [|a l IH]; intros Hext; [done|].
  assert (filter P l = filter Q l) as Hl by (apply IH; intros x Hx; apply Hext; by right).
  destruct (decide (P a)) as [Ha|Ha].
  - rewrite !filter_cons_True, Hl; [done| |done]. apply Hext; [left|done].
  - rewrite !filter_cons_False, Hl; [done| |done]. rewrite <- Hext; [done|left].
Qed.

Lemma overdue_notifications_snoc s t u id :
  overdue_notifications
    (set_notifications (λ l, (l ++ [overdue_row id t])%list) s) u
  = (overdue_notifications s u
     ++ if bool_decide (task_id u = task_id t ∧ created_by u = created_by t)
        then [overdue_row id t] else [])%list.
Proof.
  unfold overdue_notifications. cbn. rewrite filter_app. f_equal.
  case_bool_decide as H.
  - rewrite filter_cons_True; [done|]. cbn. destruct H as [-> ->]. done.
  - rewrite filter_cons_False; [done|]. cbn. intros ([= ?] & _ & ?). auto.
Qed.

Lemma notify_overdue_step_insert s t :
  has_user s (created_by t) = true -> has_task s (task_id t) = true ->
  createNotification (created_by t) "task_overdue" "Task Overdue"
    (overdue_message t) (Some (task_id t)) None s
  = set_notifications
      (λ l, (l ++ [overdue_row (gen_id (notification_id <$> notifications s)) t])%list) s.
Proof.
  intros Hu Ht. unfold createNotification.
  assert (notification_row_ok s
            (overdue_row (gen_id (notification_id <$> notifications s)) t) = true)
    as Hrow; [|unfold overdue_row in *; cbv zeta; by rewrite Hrow].
  unfold notification_row_ok, class_reference, overdue_row.
  cbn [n_user_id n_type n_title n_task_id n_class_id references].
  rewrite Hu, Ht. assert ((char_length "Task Overdue" <=? 255)%nat = true) as ->
    by (vm_compute; reflexivity).
  rewrite bool_decide_true by (unfold notification_types; by right; right; left).
  by destruct (notifications_origin s).
Qed.

Lemma notify_overdue_spec ts : ∀ s n,
  NoDup (task_id <$> ts) ->
  (∀ t, t ∈ ts -> has_user s (created_by t) = true ∧ has_task s (task_id t) = true) ->
  (∀ t, t ∈ ts -> (length (overdue_notifications s t) <= 1)%nat) ->
  users (fst (notify_overdue ts s n)) = users s
  ∧ classes (fst (notify_overdue ts s n)) = classes s
  ∧ class_members (fst (notify_overdue ts s n)) = class_members s
  ∧ tasks (fst (notify_overdue ts s n)) = tasks s
  ∧ snd (notify_overdue ts s n)
    = (n + length (filter (λ t, overdue_notifications s t = []) ts))%nat
  ∧ length (notifications (fst (notify_overdue ts s n)))
    = (length (notifications s)
       + length (filter (λ t, overdue_notifications s t = []) ts))%nat
  ∧ (∀ t, t ∈ ts -> length (overdue_notifications (fst (notify_overdue ts s n)) t) = 1%nat)
  ∧ (∀ u, task_id u ∉ task_id <$> ts ->
       overdue_notifications (fst (notify_overdue ts s n)) u
       = overdue_notifications s u).
Proof.
  induction ts as [|t ts IH]; intros s n Hnd Hfk Hle.
  { cbn. repeat split; try done; try lia. intros t Ht. by apply elem_of_nil in Ht. }
  rewrite fmap_cons in Hnd. apply NoDup_cons in Hnd as [Hfresh Hnd].
  assert (Hother : ∀ u, u ∈ ts -> ¬ (task_id u = task_id t ∧ created_by u = created_by t)).
  { intros u Hu [Heq _]. apply Hfresh. rewrite <- Heq. by apply list_elem_of_fmap_2. }
  cbn [notify_overdue].
  destruct (overdue_notifications s t) as [|x [|y l]] eqn:Ex.
  - (* no notification yet: one is inserted *)
    cbn [maybeSingle data].
    destruct (Hfk t) as [Hu Ht]; [left|].
    rewrite notify_overdue_step_insert by done.
    set (row := overdue_row _ t). set (s1 := set_notifications _ s).
    assert (Hsame : ∀ u, u ∈ ts -> overdue_notifications s1 u = overdue_notifications s u).
    { intros u Hu'. unfold s1, row. rewrite overdue_notifications_snoc.
      rewrite bool_decide_false by by apply Hother. by rewrite app_nil_r. }
    destruct (IH s1 (S n)) as (H1 & H2 & H3 & H4 & H5 & H6 & H7 & H8).
    + done.
    + intros u Hu'. apply Hfk. by right.
    + intros u Hu'. rewrite Hsame by done. apply Hle. by right.
    + assert (filter (λ u, overdue_notifications s1 u = []) ts
              = filter (λ u, overdue_notifications s u = []) ts) as Hf.
      { apply filter_ext_elem. intros u Hu'. by rewrite Hsame. }
      rewrite Hf in *. rewrite filter_cons_True by done.
      repeat split; try done.
      * rewrite H5. cbn. lia.
      * rewrite H6. unfold s1. cbn. rewrite length_app. cbn. lia.
      * intros u Hu'. apply elem_of_cons in Hu' as [->|Hu']; [|by apply H7].
        rewrite H8 by done. unfold s1, row. rewrite overdue_notifications_snoc, Ex.
        by rewrite bool_decide_true.
      * intros u Hu'. rewrite fmap_cons, not_elem_of_cons in Hu'.
        destruct Hu' as [Hne Hu']. rewrite H8 by done. unfold s1, row.
        rewrite overdue_notifications_snoc.
        rewrite bool_decide_false by (intros [? _]; done). by rewrite app_nil_r.
  - (* one notification: nothing is sent *)
    cbn [maybeSingle data].
    destruct (IH s n) as (H1 & H2 & H3 & H4 & H5 & H6 & H7 & H8).
    + done.
    + intros u Hu'. apply Hfk. by right.
    + intros u Hu'. apply Hle. by right.
    + rewrite filter_cons_False by (by rewrite Ex).
      repeat split; try done.
      * intros u Hu'. apply elem_of_cons in Hu' as [->|Hu']; [|by apply H7].
        rewrite H8 by done. by rewrite Ex.
      * intros u Hu'. rewrite fmap_cons, not_elem_of_cons in Hu'.
        destruct Hu' as [Hne Hu']. by apply H8.
  - (* excluded by the invariant *)
    specialize (Hle t). rewrite Ex in Hle. cbn in Hle. 
    assert (t ∈ t :: ts) as Hin by left. apply Hle in Hin. lia.
Qed.

Lemma notify_overdue_noop ts : ∀ s n,
  (∀ t, t ∈ ts -> length (overdue_notifications s t) = 1%nat) ->
  notify_overdue ts s n = (s, n).
Proof.
  induction ts as [|t ts IH]; intros s n H; [done|].
  cbn [notify_overdue].
  assert (length (overdue_notifications s t) = 1%nat) as Hl by (apply H; left).
  destruct (overdue_notifications s t) as [|x [|y l]]; try done.
  cbn. apply IH. intros u Hu. apply H. by right.
Qed.

Lemma checkOverdueTasks_loop today s :
  count_of (fst (checkOverdueTasks today s))
  = snd (notify_overdue (filter (λ t, overdue today t = true) (tasks s)) s 0)
  ∧ snd (checkOverdueTasks today s)
    = fst (notify_overdue (filter (λ t, overdue today t = true) (tasks s)) s 0).
Proof.
  unfold checkOverdueTasks.
  destruct (filter (λ t, overdue today t = true) (tasks s)) as [|t ts]; [done|].
  by destruct (notify_overdue (t :: ts) s 0).
Qed.

Lemma has_task_elem s t : t ∈ tasks s -> has_task s (task_id t) = true.
Proof.
  intros Ht. unfold has_task. apply bool_decide_eq_true. by apply list_elem_of_fmap_2.
Qed.

(** On a store that satisfies its schema and holds at most one overdue
    notification per task and creator, the scan notifies exactly the overdue
    tasks that have none, leaves every overdue task with exactly one, and a
    second scan on the same day sends nothing and changes nothing. *)
Theorem checkOverdueTasks_idempotent today s :
  schema_ok s = true -> overdue_deduplicated s = true ->
  count_of (fst (checkOverdueTasks today s))
  = length (filter (λ t, overdue_notifications s t = [] ∧ overdue today t = true) (tasks s))
  ∧ length (notifications (snd (checkOverdueTasks today s)))
    = (length (notifications s) + count_of (fst (checkOverdueTasks today s)))%nat
  ∧ tasks (snd (checkOverdueTasks today s)) = tasks s
  ∧ (∀ t, t ∈ tasks s -> overdue today t = true ->
       length (overdue_notifications (snd (checkOverdueTasks today s)) t) = 1%nat)
  ∧ count_of (fst (checkOverdueTasks today (snd (checkOverdueTasks today s)))) = 0%nat
  ∧ snd (checkOverdueTasks today (snd (checkOverdueTasks today s)))
    = snd (checkOverdueTasks today s).
Proof.
  intros Hok Hdedup.
  destruct (checkOverdueTasks_loop today s) as [Hc Hs].
  destruct (checkOverdueTasks_loop today (snd (checkOverdueTasks today s))) as [Hc2 Hs2].
  set (ts := filter (λ t, overdue today t = true) (tasks s)) in *.
  assert (Hin : ∀ t, t ∈ ts -> t ∈ tasks s ∧ overdue today t = true).
  { intros t Ht. apply list_elem_of_filter in Ht. tauto. }
  destruct (notify_overdue_spec ts s 0) as (_ & _ & _ & H4 & H5 & H6 & H7 & _).
  - eapply sublist_NoDup; [by apply schema_task_ids|].
    apply fmap_sublist, sublist_filter.
  - intros t Ht. destruct (Hin t Ht) as [Ht' _]. split.
    + by apply task_row_ok_creator, schema_task_row_ok.
    + by apply has_task_elem.
  - intros t Ht. destruct (Hin t Ht) as [Ht' _].
    unfold overdue_deduplicated in Hdedup. rewrite forallb_forall in Hdedup.
    apply Nat.leb_le, Hdedup, list_elem_of_In, Ht'.
  - rewrite <- Hs in H4, H6, H7. rewrite <- Hc in H5.
    unfold ts in H5, H6. rewrite list_filter_filter in H5, H6. cbn in H5.
    assert (Hones : ∀ t, t ∈ tasks s -> overdue today t = true ->
              length (overdue_notifications (snd (checkOverdueTasks today s)) t) = 1%nat).
    { intros t Ht Hov. apply H7. by apply list_elem_of_filter. }
    rewrite H4 in Hc2, Hs2. fold ts in Hc2, Hs2.
    rewrite notify_overdue_noop in Hc2, Hs2
      by (intros t Ht; destruct (Hin t Ht); by apply Hones).
    repeat split; try done. by rewrite H6, H5.
Qed.

(** The scan keeps the invariant it relies on. *)
Lemma checkOverdueTasks_keeps_deduplicated today s :
  schema_ok s = true -> overdue_deduplicated s = true ->
  overdue_deduplicated (snd (checkOverdueTasks today s)) = true.
Proof.
  intros Hok Hdedup.
  destruct (checkOverdueTasks_idempotent today s Hok Hdedup)
    as (_ & _ & Htasks & Hones & _).
  destruct (checkOverdueTasks_loop today s) as [_ Hs].
  set (ts := filter (λ t, overdue today t = true) (tasks s)) in *.
  destruct (notify_overdue_spec ts s 0) as (_ & _ & _ & _ & _ & _ & _ & Hframe).
  - eapply sublist_NoDup; [by apply schema_task_ids|].
    apply fmap_sublist, sublist_filter.
  - intros t Ht. apply list_elem_of_filter in Ht as [_ Ht]. split.
    + by apply task_row_ok_creator, schema_task_row_ok.
    + by apply has_task_elem.
  - intros t Ht. apply list_elem_of_filter in Ht as [_ Ht].
    unfold overdue_deduplicated in Hdedup. rewrite forallb_forall in Hdedup.
    apply Nat.leb_le, Hdedup, list_elem_of_In, Ht.
  - rewrite <- Hs in Hframe.
    unfold overdue_deduplicated. rewrite Htasks. apply forallb_forall.
    intros t Ht. apply list_elem_of_In in Ht. apply Nat.leb_le.
    destruct (overdue today t) eqn:Hov.
    + by rewrite Hones.
    + rewrite Hframe.
      * unfold overdue_deduplicated in Hdedup. rewrite forallb_forall in Hdedup.
        apply Nat.leb_le, Hdedup, list_elem_of_In, Ht.
      * intros Hin. apply list_elem_of_fmap in Hin as (u & Hid & Hu).
        apply list_elem_of_filter in Hu as [Hou Hu].
        pose proof (tasks_by_id_unique s t Hok Ht) as Huniq.
        assert (u ∈ tasks_by_id s (task_id t)) as Hu'
          by (unfold tasks_by_id; apply list_elem_of_filter; by split).
        rewrite Huniq in Hu'. apply list_elem_of_singleton in Hu'. subst u.
        congruence.
Qed.

(** * The remaining handlers *)

(** ** The schema as an invariant *)

Lemma forallb_Forall {A} (f : A -> bool) (l : list A) :
  forallb f l = true <-> Forall (λ x, f x = true) l.
Proof.
  rewrite forallb_forall, Forall_forall.
  split; intros H x Hx; apply H; by apply list_elem_of_In.
Qed.

Lemma schema_ok_schema s : schema_ok s = true <-> schema s.
Proof.
  unfold schema_ok. rewrite !andb_true_iff, !bool_decide_eq_true, !forallb_Forall.
  split.
  - intros H. destruct_and!. by constructor.
  - intros []. repeat split; done.
Qed.

Lemma gen_id_fresh (used : list string) : gen_id used ∉ used.
Proof. apply infinite_is_fresh. Qed.

Lemma NoDup_snoc_fresh {A B} (f : A -> B) (l : list A) (x : A) :
  NoDup (f <$> l) -> f x ∉ f <$> l -> NoDup (f <$> (l ++ [x])%list).
Proof.
  intros Hnd Hx. rewrite fmap_app. apply NoDup_app. split; [done|]. split.
  - intros y Hy Hy'. cbn in Hy'. apply list_elem_of_singleton in Hy'. by subst.
  - cbn. apply NoDup_singleton.
Qed.

Lemma has_task_snoc s t id :
  has_task s id = true -> has_task (set_tasks (λ l, (l ++ [t])%list) s) id = true.
Proof.
  unfold has_task. rewrite !bool_decide_eq_true. cbn. rewrite fmap_app.
  intros H. apply elem_of_app. by left.
Qed.

Lemma task_row_ok_mono s s' t :
  users s' = users s ->
  (∀ id, has_class s id = true -> has_class s' id = true) ->
  task_row_ok s t = true -> task_row_ok s' t = true.
Proof.
  intros Hu Hc. unfold task_row_ok, has_user.
  rewrite Hu, !andb_true_iff. intros ((((((((? & ?) & ?) & ?) & ?) & Hr) & ?) & ?) & ?).
  repeat split; try done. destruct (task_class_id t); [by apply Hc|done].
Qed.

Lemma notification_row_ok_mono s s' n :
  notifications_origin s' = notifications_origin s ->
  users s' = users s ->
  (∀ id, has_task s id = true -> has_task s' id = true) ->
  (∀ id, has_class s id = true -> has_class s' id = true) ->
  notification_row_ok s n = true -> notification_row_ok s' n = true.
Proof.
  intros Ho Hu Ht Hc. unfold notification_row_ok, class_reference, has_user.
  rewrite Ho, Hu, !andb_true_iff. intros ((((? & ?) & ?) & Hr) & Hr').
  repeat split; try done.
  - destruct (n_task_id n); [by apply Ht|done].
  - destruct (notifications_origin s); [|done].
    destruct (n_class_id n); [by apply Hc|done].
Qed.

(** The best-effort insert of a notification keeps the schema. *)
Lemma createNotification_schema uid type ttl msg tid cid s :
  schema s -> schema (createNotification uid type ttl msg tid cid s).
Proof.
  intros H. unfold createNotification.
  destruct (notification_row_ok s _) eqn:Hrow; [|done].
  destruct H. constructor; try done.
  - cbn. apply NoDup_snoc_fresh; [done|]. cbn. apply gen_id_fresh.
  - cbn. apply Forall_app. split; [done|]. by apply Forall_singleton.
Qed.

Lemma insert_task_schema t s row s' :
  schema s -> insert_task t s = Some (row, s') -> schema s'.
Proof.
  intros H. unfold insert_task.
  destruct (task_row_ok s _) eqn:Hrow; [|done]. intros [= <- <-].
  destruct H as [Hu Huu Hc Hcc Hct Hm Hmr Ht Htr Hn Hnr Hue Hul Hcln Hmi]. constructor; try done.
  - cbn. apply NoDup_snoc_fresh; [done|]. cbn. apply gen_id_fresh.
  - apply Forall_app. split; [exact Htr|]. apply Forall_singleton. exact Hrow.
  - eapply Forall_impl; [exact Hnr|]. intros n Hn'.
    apply (notification_row_ok_mono s); [done|done| |done|exact Hn'].
    intros id. apply has_task_snoc.
Qed.

Lemma update_row_identity p sel s t t' :
  update_row p sel s t = Some t' -> task_identity t' = task_identity t.
Proof.
  unfold update_row. destruct (sel t); [|by intros [= ->]].
  destruct (patch_task p t) as [t1|] eqn:Hp; [|done].
  destruct (task_row_ok s t1); [|done]. intros [= <-].
  unfold patch_task in Hp. by destruct (p_title p); simplify_eq.
Qed.

Lemma update_row_ok p sel s t t' :
  task_row_ok s t = true -> update_row p sel s t = Some t' -> task_row_ok s t' = true.
Proof.
  unfold update_row. intros Ht. destruct (sel t); [|by intros [= <-]].
  destruct (patch_task p t) as [t1|]; [|done].
  destruct (task_row_ok s t1) eqn:E; [|done]. by intros [= <-].
Qed.

Lemma update_tasks_identity p sel s s' :
  update_tasks p sel s = Some s' ->
  task_identity <$> tasks s' = task_identity <$> tasks s.
Proof.
  intros H. apply update_tasks_Some in H as [_ H].
  induction H as [|t t' l l' Ht _ IH]; [done|].
  rewrite !fmap_cons, IH. f_equal. by eapply update_row_identity.
Qed.

Lemma task_ids_of_identity (l l' : list Task) :
  task_identity <$> l' = task_identity <$> l -> task_id <$> l' = task_id <$> l.
Proof.
  intros H. apply (f_equal (fmap fst)) in H.
  by rewrite <- !list_fmap_compose in H.
Qed.

Lemma update_rows_ok p sel s (l l' : list Task) :
  Forall2 (λ t t', update_row p sel s t = Some t') l l' ->
  Forall (λ t, task_row_ok s t = true) l -> Forall (λ t, task_row_ok s t = true) l'.
Proof.
  induction 1 as [|t t' l l' Hrow _ IH]; [done|].
  intros Hl. apply Forall_cons in Hl as [Hok Hl].
  constructor; [by eapply update_row_ok|by apply IH].
Qed.

Lemma update_tasks_schema p sel s s' :
  schema s -> update_tasks p sel s = Some s' -> schema s'.
Proof.
  intros [Hu Huu Hc Hcc Hct Hm Hmr Ht Htr Hn Hnr Hue Hul Hcln Hmi] Hup.
  pose proof (task_ids_of_identity _ _ (update_tasks_identity _ _ _ _ Hup)) as Hids.
  destruct (update_tasks_Some _ _ _ _ Hup) as [-> Hrows].
  constructor; try done.
  - cbn. by rewrite Hids.
  - exact (update_rows_ok _ _ _ _ _ Hrows Htr).
  - eapply Forall_impl; [exact Hnr|]. intros n Hn'.
    apply (notification_row_ok_mono s); [done|done| |done|exact Hn'].
    intros id. unfold has_task. cbn. by rewrite Hids.
Qed.

Lemma NoDup_fmap_filter {A B} (f : A -> B) (P : A -> Prop) `{∀ x, Decision (P x)}
    (l : list A) :
  NoDup (f <$> l) -> NoDup (f <$> filter P l).
Proof.
  intros Hnd. eapply sublist_NoDup; [exact Hnd|]. apply fmap_sublist, sublist_filter.
Qed.

Lemma Forall_filter_weaken {A} (Q : A -> Prop) (P : A -> Prop) `{∀ x, Decision (P x)}
    (l : list A) :
  Forall Q l -> Forall Q (filter P l).
Proof.
  rewrite !Forall_forall. intros H' x Hx. apply H'.
  apply list_elem_of_filter in Hx. tauto.
Qed.

Lemma has_task_delete s id tid :
  has_task s tid = true -> tid ≠ id -> has_task (delete_task id s) tid = true.
Proof.
  unfold has_task. rewrite !bool_decide_eq_true. cbn. intros Hin Hne.
  apply list_elem_of_fmap in Hin as (t & -> & Ht).
  apply list_elem_of_fmap_2, list_elem_of_filter. by split.
Qed.

Lemma delete_task_schema id s : schema s -> schema (delete_task id s).
Proof.
  intros [Hu Huu Hc Hcc Hct Hm Hmr Ht Htr Hn Hnr Hue Hul Hcln Hmi]. constructor; try done.
  - by apply NoDup_fmap_filter.
  - apply Forall_filter_weaken. exact Htr.
  - cbn. destruct (notifications_origin s); [by apply NoDup_fmap_filter|].
    rewrite <- list_fmap_compose.
    rewrite (list_fmap_ext _ notification_id (notifications s)); [done|].
    intros i n _. cbn. by case_bool_decide.
  - cbn. rewrite Forall_forall in Hnr. destruct (notifications_origin s) eqn:Ho.
    + apply Forall_forall. intros n Hn'.
      apply list_elem_of_filter in Hn' as [Hne Hn'].
      specialize (Hnr n Hn'). revert Hnr. unfold notification_row_ok, class_reference.
      cbn [notifications_origin delete_task set_notifications set_tasks]. rewrite Ho.
      rewrite !andb_true_iff. intros ((((? & ?) & ?) & Hr) & ?).
      repeat split; try done. destruct (n_task_id n) as [tid|]; [|done]. cbn in *.
      apply (has_task_delete s id tid Hr). congruence.
    + apply Forall_fmap, Forall_forall. intros n Hn'. cbn.
      specialize (Hnr n Hn'). revert Hnr.
      destruct (decide (n_task_id n = Some id)) as [Hid|Hid].
      * rewrite bool_decide_true by done.
        unfold notification_row_ok, class_reference, unlinked.
        cbn [notifications_origin delete_task set_notifications set_tasks
             n_user_id n_type n_title n_task_id n_class_id references].
        rewrite Ho, !andb_true_iff. intros ((((? & ?) & ?) & _) & ?). by repeat split.
      * rewrite bool_decide_false by done.
        unfold notification_row_ok, class_reference.
        cbn [notifications_origin delete_task set_notifications set_tasks]. rewrite Ho.
        rewrite !andb_true_iff. intros ((((? & ?) & ?) & Hr) & ?).
        repeat split; try done. destruct (n_task_id n) as [tid|]; [|done]. cbn in *.
        apply (has_task_delete s id tid Hr). congruence.
Qed.

Lemma membership_nil_not_elem s cid uid :
  membership s cid uid = [] ->
  (cid, uid) ∉ (λ m, (member_class_id m, member_user_id m)) <$> class_members s.
Proof.
  intros Hnil Hin. apply list_elem_of_fmap in Hin as (m & [= -> ->] & Hm).
  assert (m ∈ membership s (member_class_id m) (member_user_id m)) as Hm'
    by (unfold membership; apply list_elem_of_filter; by split).
  rewrite Hnil in Hm'. by apply elem_of_nil in Hm'.
Qed.

Lemma insert_member_schema cid uid s s' :
  schema s -> insert_member cid uid s = Some s' -> schema s'.
Proof.
  intros [Hu Huu Hc Hcc Hct Hm Hmr Ht Htr Hn Hnr Hue Hul Hcln Hmi]. unfold insert_member, member_row_ok.
  cbn. destruct (has_class s cid) eqn:Hcls; [|done].
  destruct (has_user s uid) eqn:Husr; [|done]. cbn.
  case_bool_decide as Hnil; [|done]. intros [= <-].
  constructor; try done.
  - apply (NoDup_snoc_fresh (λ m, (member_class_id m, member_user_id m))); [done|].
    by apply membership_nil_not_elem.
  - apply Forall_app. split; [exact Hmr|]. apply Forall_singleton.
    change (has_class s cid && has_user s uid = true). by rewrite Hcls, Husr.
  - apply (NoDup_snoc_fresh member_id); [done|]. apply gen_id_fresh.
Qed.

Lemma set_class_members_filter_schema (P : Member -> Prop) `{∀ m, Decision (P m)} s :
  schema s -> schema (set_class_members (filter P) s).
Proof.
  intros [Hu Huu Hc Hcc Hct Hm Hmr Ht Htr Hn Hnr Hue Hul Hcln Hmi]. constructor; try done.
  - by apply NoDup_fmap_filter.
  - apply Forall_filter_weaken. exact Hmr.
  - by apply NoDup_fmap_filter.
Qed.

Lemma has_class_snoc s c (rest : Store) id :
  users rest = users s -> classes rest = (classes s ++ [c])%list ->
  has_class s id = true -> has_class rest id = true.
Proof.
  unfold has_class. rewrite !bool_decide_eq_true. intros _ ->.
  rewrite fmap_app. intros H. apply elem_of_app. by left.
Qed.

Lemma classes_by_invite_code_nil_not_elem s code :
  classes_by_invite_code s code = [] -> code ∉ invite_code <$> classes s.
Proof.
  intros Hnil Hin. apply list_elem_of_fmap in Hin as (c & -> & Hc).
  assert (c ∈ classes_by_invite_code s (invite_code c)) as Hc'
    by (unfold classes_by_invite_code; apply list_elem_of_filter; by split).
  rewrite Hnil in Hc'. by apply elem_of_nil in Hc'.
Qed.

Lemma insert_class_schema c s row s' :
  schema s -> insert_class c s = Some (row, s') -> schema s'.
Proof.
  intros [Hu Huu Hc Hcc Hct Hm Hmr Ht Htr Hn Hnr Hue Hul Hcln Hmi]. unfold insert_class, class_row_ok.
  cbn. rewrite !andb_if. repeat (case_match; [|done]).
  match goal with H : bool_decide _ = true |- _ => apply bool_decide_eq_true in H;
    rename H into Hnil end.
  intros [= <- <-].
  set (new := mkClass _ _ _ _ _).
  set (s' := mkStore _ _ _ _ _ _).
  assert (Hmono : ∀ id, has_class s id = true -> has_class s' id = true).
  { intros id. by apply (has_class_snoc s new). }
  constructor; try done.
  - apply (NoDup_snoc_fresh class_id); [done|]. apply gen_id_fresh.
  - apply (NoDup_snoc_fresh invite_code); [done|].
    by apply classes_by_invite_code_nil_not_elem.
  - apply Forall_app. split; [exact Hct|]. by apply Forall_singleton.
  - eapply Forall_impl; [exact Hmr|]. intros m. cbn. rewrite !andb_true_iff.
    intros [? ?]. split; [by apply Hmono|done].
  - eapply Forall_impl; [exact Htr|]. intros t. by apply task_row_ok_mono.
  - eapply Forall_impl; [exact Hnr|]. intros n. by apply notification_row_ok_mono.
  - apply Forall_app. split; [exact Hcln|]. by apply Forall_singleton.
Qed.

Lemma patch_class_identity name description c :
  class_identity (patch_class name description c) = class_identity c.
Proof. done. Qed.

Lemma class_rows_schema s (rows : list Class) :
  schema s -> class_identity <$> rows = class_identity <$> classes s ->
  Forall (λ c, class_columns_ok c = true) rows ->
  schema (mkStore (users s) rows (class_members s) (tasks s) (notifications s)
            (notifications_origin s)).
Proof.
  intros [Hu Huu Hc Hcc Hct Hm Hmr Ht Htr Hn Hnr Hue Hul Hcln Hmi] Hid Hnames.
  assert (class_id <$> rows = class_id <$> classes s) as Hids.
  { apply (f_equal (fmap (λ x, fst (fst x)))) in Hid.
    by rewrite <- !list_fmap_compose in Hid. }
  assert (invite_code <$> rows = invite_code <$> classes s) as Hcodes.
  { apply (f_equal (fmap (λ x, snd (fst x)))) in Hid.
    by rewrite <- !list_fmap_compose in Hid. }
  assert (teacher_id <$> rows = teacher_id <$> classes s) as Hteach.
  { apply (f_equal (fmap snd)) in Hid. by rewrite <- !list_fmap_compose in Hid. }
  assert (Hsame : ∀ id, has_class s id = true ->
            has_class (mkStore (users s) rows (class_members s) (tasks s)
                         (notifications s) (notifications_origin s)) id = true).
  { intros id. unfold has_class. cbn. by rewrite Hids. }
  constructor; try done.
  - cbn. by rewrite Hids.
  - cbn. by rewrite Hcodes.
  - cbn. apply (Forall_fmap teacher_id (λ u, has_user s u = true)).
    rewrite Hteach. by apply Forall_fmap.
  - eapply Forall_impl; [exact Hmr|]. intros m. cbn. rewrite !andb_true_iff.
    intros [? ?]. split; [by apply Hsame|done].
  - eapply Forall_impl; [exact Htr|]. intros t. by apply task_row_ok_mono.
  - eapply Forall_impl; [exact Hnr|]. intros n. by apply notification_row_ok_mono.
Qed.

Lemma has_class_delete s id cid :
  has_class s cid = true -> cid ≠ id -> has_class (delete_class id s) cid = true.
Proof.
  unfold has_class. rewrite !bool_decide_eq_true. cbn. intros Hin Hne.
  apply list_elem_of_fmap in Hin as (c & -> & Hc).
  apply list_elem_of_fmap_2, list_elem_of_filter. by split.
Qed.

Lemma detach_identity id t : task_identity (detach id t) = task_identity t.
Proof. unfold detach. by case_bool_decide. Qed.

Lemma delete_class_schema id s : schema s -> schema (delete_class id s).
Proof.
  intros [Hu Huu Hc Hcc Hct Hm Hmr Ht Htr Hn Hnr Hue Hul Hcln Hmi].
  assert (Hids : task_id <$> (detach id <$> tasks s) = task_id <$> tasks s).
  { rewrite <- list_fmap_compose. apply list_fmap_ext. intros i t _. cbn.
    unfold detach. by case_bool_decide. }
  constructor; try done.
  - by apply NoDup_fmap_filter.
  - by apply NoDup_fmap_filter.
  - apply Forall_filter_weaken. exact Hct.
  - by apply NoDup_fmap_filter.
  - cbn. rewrite Forall_forall in Hmr. apply Forall_forall. intros m Hm'.
    apply list_elem_of_filter in Hm' as [Hne Hm'].
    specialize (Hmr m Hm'). cbn in Hmr. apply andb_true_iff in Hmr as [Hcl Hus].
    apply andb_true_iff. split; [|done]. by apply has_class_delete.
  - cbn. by rewrite Hids.
  - cbn. rewrite Forall_forall in Htr. apply Forall_forall. intros t' Ht'.
    apply list_elem_of_fmap in Ht' as (t & -> & Ht').
    specialize (Htr t Ht'). revert Htr. unfold task_row_ok, detach.
    rewrite !andb_true_iff. intros ((((((((? & ?) & ?) & ?) & ?) & Hr) & ?) & ?) & ?).
    case_bool_decide as Hcls; cbn; repeat split; try done.
    destruct (task_class_id t) as [cid|]; [|done]. cbn in *.
    apply (has_class_delete s id cid Hr). congruence.
  - cbn. destruct (notifications_origin s); [by apply NoDup_fmap_filter|done].
  - cbn. rewrite Forall_forall in Hnr. apply Forall_forall. intros n Hn'.
    assert (n ∈ notifications s
            ∧ (notifications_origin s = startup -> n_class_id n ≠ Some id))
      as [Hin Hne].
    { destruct (notifications_origin s); [|done].
      apply list_elem_of_filter in Hn' as [Hne Hn']. done. }
    specialize (Hnr n Hin). revert Hnr. unfold notification_row_ok, class_reference.
    cbn [notifications_origin delete_class].
    rewrite !andb_true_iff. intros ((((? & ?) & ?) & Hr) & Hr').
    repeat split; try done.
    + destruct (n_task_id n) as [tid|]; [|done]. cbn in *.
      unfold has_task in *. cbn. by rewrite Hids.
    + destruct (notifications_origin s); [|done].
      destruct (n_class_id n) as [cid|]; [|done]. cbn in *.
      apply (has_class_delete s id cid Hr'). specialize (Hne eq_refl). congruence.
  - apply Forall_filter_weaken. exact Hcln.
  - by apply NoDup_fmap_filter.
Qed.

Lemma same_but_read_fields n n' :
  same_but_read n n' ->
  notification_id n' = notification_id n ∧ n_user_id n' = n_user_id n
  ∧ n_type n' = n_type n ∧ n_title n' = n_title n ∧ n_message n' = n_message n
  ∧ n_task_id n' = n_task_id n ∧ n_class_id n' = n_class_id n.
Proof. unfold same_but_read. intros <-. done. Qed.

Lemma notification_rows_schema s (f : Notification -> Notification) :
  (∀ n, same_but_read n (f n)) ->
  schema s -> schema (set_notifications (fmap f) s).
Proof.
  intros Hf [Hu Huu Hc Hcc Hct Hm Hmr Ht Htr Hn Hnr Hue Hul Hcln Hmi]. constructor; try done.
  - cbn. rewrite <- list_fmap_compose.
    assert (notification_id ∘ f <$> notifications s
            = notification_id <$> notifications s) as ->; [|done].
    apply list_fmap_ext. intros i n _. cbn.
    by destruct (same_but_read_fields _ _ (Hf n)) as (-> & _).
  - cbn. apply Forall_fmap. eapply Forall_impl; [exact Hnr|]. intros n Hn'. cbn.
    destruct (same_but_read_fields _ _ (Hf n)) as (_ & H1 & H2 & H3 & _ & H5 & H6).
    revert Hn'. unfold notification_row_ok. by rewrite H1, H2, H3, H5, H6.
Qed.

Lemma update_task_by_id_schema p id s task s' :
  schema s -> update_task_by_id p id s = Some (task, s') -> schema s'.
Proof.
  intros H. unfold update_task_by_id.
  destruct (update_tasks _ _ s) as [s1|] eqn:E; [|done].
  destruct (data _); [|done]. intros [= _ <-]. by eapply update_tasks_schema.
Qed.

Lemma notify_completed_schema actor st t task s :
  schema s -> schema (notify_completed actor st t task s).
Proof.
  intros H. unfold notify_completed. case_match; [|done].
  by apply createNotification_schema.
Qed.

Lemma requireRole_schema roles actor next s :
  schema s -> (schema s -> schema (snd (next s))) ->
  schema (snd (requireRole roles actor next s)).
Proof. intros H Hnext. unfold requireRole. case_bool_decide; [by apply Hnext|done]. Qed.

Lemma createTask_schema actor b s : schema s -> schema (snd (createTask actor b s)).
Proof.
  intros H. unfold createTask.
  repeat case_match; simplify_eq/=; try done.
  all: first [by eapply createNotification_schema, insert_task_schema
             |by eapply insert_task_schema].
Qed.

Lemma updateTask_schema actor id b s : schema s -> schema (snd (updateTask actor id b s)).
Proof.
  intros H. unfold updateTask.
  repeat case_match; simplify_eq/=; try done.
  all: first [by eapply notify_completed_schema, update_task_by_id_schema
             |by eapply update_task_by_id_schema].
Qed.

Lemma deleteTask_schema actor id s : schema s -> schema (snd (deleteTask actor id s)).
Proof.
  intros H. unfold deleteTask.
  repeat case_match; simplify_eq/=; try done. by apply delete_task_schema.
Qed.

Lemma createClass_schema actor name description draw1 draw2 s :
  schema s -> schema (snd (createClass actor name description draw1 draw2 s)).
Proof.
  intros H. unfold createClass.
  repeat case_match; simplify_eq/=; try done; by eapply insert_class_schema.
Qed.

Lemma updateClass_rows_identity id name description (l : list Class) :
  class_identity <$> ((λ c, if bool_decide (class_id c = id)
                            then patch_class name description c else c) <$> l)
  = class_identity <$> l.
Proof.
  rewrite <- list_fmap_compose. apply list_fmap_ext. intros i c _. cbn.
  by case_bool_decide.
Qed.

Lemma updateClass_rows_ok id name description (l : list Class) :
  class_patch_ok name description = true ->
  Forall (λ c, class_columns_ok c = true) l ->
  Forall (λ c, class_columns_ok c = true)
    ((λ c, if bool_decide (class_id c = id)
           then patch_class name description c else c) <$> l).
Proof.
  intros Hpatch Hl. apply Forall_fmap. eapply Forall_impl; [exact Hl|].
  intros c Hc. cbn. case_bool_decide; [|done].
  revert Hpatch Hc. unfold class_patch_ok, class_columns_ok, patch_class, trimmed_or_null.
  cbn [class_name class_description invite_code].
  rewrite !andb_true_iff. intros [Hn Hd] [[[[Hlen Hcode] Htext] Hdesc] Hhex].
  destruct name as [| |n], description as [| |d]; cbn [text_opt];
    rewrite ?andb_true_iff in Hn; try (repeat split; tauto).
  all: destruct (String.eqb (trim d) EmptyString); cbn [text_opt];
    repeat split; tauto.
Qed.

Lemma updateClass_schema actor id name description s :
  schema s -> schema (snd (updateClass actor id name description s)).
Proof.
  intros H. unfold updateClass.
  repeat case_match; simplify_eq/=; try done.
  all: apply class_rows_schema; [done|apply updateClass_rows_identity|].
  all: apply updateClass_rows_ok; [assumption|apply (classes_lengths _ H)].
Qed.

Lemma deleteClass_schema actor id s : schema s -> schema (snd (deleteClass actor id s)).
Proof.
  intros H. unfold deleteClass.
  destruct (data _); [|done]. destruct (_ && _); [done|]. cbn [snd].
  apply delete_class_schema.
  destruct (update_tasks _ _ s) as [s1|] eqn:E; cbn; [|done].
  by eapply update_tasks_schema.
Qed.

Lemma joinClass_schema actor invite s : schema s -> schema (snd (joinClass actor invite s)).
Proof.
  intros H. unfold joinClass.
  repeat case_match; simplify_eq/=; try done. by eapply insert_member_schema.
Qed.

Lemma removeMember_schema actor classId memberId s :
  schema s -> schema (snd (removeMember actor classId memberId s)).
Proof.
  intros H. unfold removeMember.
  repeat case_match; simplify_eq/=; try done.
  by apply set_class_members_filter_schema.
Qed.

Lemma mark_read_same n : same_but_read n (mark_read n).
Proof. by destruct n. Qed.

Lemma markAsRead_schema actor id s : schema s -> schema (snd (markAsRead actor id s)).
Proof.
  intros H. apply notification_rows_schema; [|done].
  intros n. case_bool_decide; [apply mark_read_same|by destruct n].
Qed.

Lemma markAllAsRead_schema actor s : schema s -> schema (snd (markAllAsRead actor s)).
Proof.
  intros H. apply notification_rows_schema; [|done].
  intros n. case_bool_decide; [apply mark_read_same|by destruct n].
Qed.

Lemma notify_overdue_schema ts : ∀ s n, schema s -> schema (fst (notify_overdue ts s n)).
Proof.
  induction ts as [|t ts IH]; intros s n H; [done|]. cbn [notify_overdue].
  destruct (data _); apply IH; [done|]. by apply createNotification_schema.
Qed.

Lemma checkOverdueTasks_schema today s :
  schema s -> schema (snd (checkOverdueTasks today s)).
Proof.
  intros H. destruct (checkOverdueTasks_loop today s) as [_ ->].
  by apply notify_overdue_schema.
Qed.

Lemma serve_schema r s : schema s -> schema (serve r s).
Proof.
  intros H. destruct r; cbn [serve].
  - apply requireRole_schema; [done|apply createTask_schema].
  - by apply updateTask_schema.
  - apply requireRole_schema; [done|apply deleteTask_schema].
  - apply requireRole_schema; [done|apply createClass_schema].
  - apply requireRole_schema; [done|apply updateClass_schema].
  - apply requireRole_schema; [done|apply deleteClass_schema].
  - by apply joinClass_schema.
  - apply requireRole_schema; [done|apply removeMember_schema].
  - by apply markAsRead_schema.
  - by apply markAllAsRead_schema.
  - by apply checkOverdueTasks_schema.
Qed.

Lemma serve_schema_ok r s :
  schema_ok s = true -> schema_ok (serve r s) = true.
Proof. rewrite !schema_ok_schema. apply serve_schema. Qed.

(** The store keeps its schema through every run, by the checks it makes on
    each write and the actions of its foreign keys. *)
Lemma run_keeps_schema rs s :
  schema_ok s = true -> schema_ok (run rs s) = true.
Proof.
  revert s. induction rs as [|r rs IH]; intros s H; [done|].
  cbn. apply IH. by apply serve_schema_ok.
Qed.

(** ** At most one overdue notification per task, as an invariant *)

Lemma overdue_deduplicated_spec s :
  overdue_deduplicated s = true
  <-> ∀ t, t ∈ tasks s -> (length (overdue_notifications s t) <= 1)%nat.
Proof.
  unfold overdue_deduplicated. rewrite forallb_Forall, Forall_forall.
  split; intros H t Ht; [apply Nat.leb_le|apply Nat.leb_le]; by apply H.
Qed.

Lemma overdue_notifications_identity s t t' :
  task_identity t = task_identity t' ->
  overdue_notifications s t = overdue_notifications s t'.
Proof. unfold task_identity, overdue_notifications. by intros [= -> ->]. Qed.

Lemma deduplicated_transfer s s' :
  (∀ t', t' ∈ tasks s' -> ∃ t, t ∈ tasks s ∧ task_identity t = task_identity t') ->
  (∀ t, (length (overdue_notifications s' t) <= length (overdue_notifications s t))%nat) ->
  overdue_deduplicated s = true -> overdue_deduplicated s' = true.
Proof.
  rewrite !overdue_deduplicated_spec. intros Htasks Hlen H t' Ht'.
  destruct (Htasks t' Ht') as (t & Ht & Hid).
  etrans; [apply Hlen|]. rewrite <- (overdue_notifications_identity s t t' Hid).
  by apply H.
Qed.

Lemma identity_elem (l l' : list Task) t' :
  task_identity <$> l' = task_identity <$> l -> t' ∈ l' ->
  ∃ t, t ∈ l ∧ task_identity t = task_identity t'.
Proof.
  intros Hid Ht'. assert (task_identity t' ∈ task_identity <$> l) as Hin
    by (rewrite <- Hid; by apply list_elem_of_fmap_2).
  apply list_elem_of_fmap in Hin as (t & ? & ?). eauto.
Qed.

Lemma createNotification_not_overdue uid type ttl msg tid cid s t :
  type ≠ "task_overdue" ->
  overdue_notifications (createNotification uid type ttl msg tid cid s) t
  = overdue_notifications s t.
Proof.
  intros Hty. unfold createNotification. destruct (notification_row_ok s _); [|done].
  unfold overdue_notifications. cbn. rewrite filter_app, filter_cons_False.
  - by rewrite filter_nil, app_nil_r.
  - cbn. tauto.
Qed.

Lemma filter_filter_length {A} (P Q : A -> Prop) `{∀ x, Decision (P x)}
    `{∀ x, Decision (Q x)} (l : list A) :
  (length (filter P (filter Q l)) <= length (filter P l))%nat.
Proof.
  rewrite list_filter_filter. induction l as [|a l IH]; [done|].
  rewrite !filter_cons. destruct (decide (P a ∧ Q a)) as [[? ?]|?].
  - rewrite decide_True by done. cbn. lia.
  - destruct (decide (P a)); cbn; lia.
Qed.

Lemma filter_fmap_length {A} (P : A -> Prop) `{∀ x, Decision (P x)} (f : A -> A)
    (l : list A) :
  (∀ x, P (f x) <-> P x) -> length (filter P (f <$> l)) = length (filter P l).
Proof.
  intros Hf. induction l as [|a l IH]; [done|].
  rewrite fmap_cons, !filter_cons. destruct (decide (P a)) as [Ha|Ha].
  - rewrite decide_True by by apply Hf. cbn. by rewrite IH.
  - rewrite decide_False by by rewrite Hf. done.
Qed.

Lemma filter_fmap_length_le {A} (P : A -> Prop) `{∀ x, Decision (P x)} (f : A -> A)
    (l : list A) :
  (∀ x, P (f x) -> P x) -> (length (filter P (f <$> l)) <= length (filter P l))%nat.
Proof.
  intros Hf. induction l as [|a l IH]; [done|].
  rewrite fmap_cons, !filter_cons. destruct (decide (P (f a))) as [Ha|Ha].
  - rewrite decide_True by by apply Hf. cbn. lia.
  - destruct (decide (P a)); cbn; lia.
Qed.

Lemma insert_task_deduplicated t s row s' :
  schema s -> insert_task t s = Some (row, s') ->
  overdue_deduplicated s = true -> overdue_deduplicated s' = true.
Proof.
  intros Hs. unfold insert_task. destruct (task_row_ok s _); [|done].
  intros [= <- <-]. rewrite !overdue_deduplicated_spec. intros H t' Ht'. cbn in Ht'.
  apply elem_of_app in Ht' as [Ht'|Ht']; [by apply H|].
  apply list_elem_of_singleton in Ht' as ->.
  assert (overdue_notifications s
            (mkTask (gen_id (task_id <$> tasks s)) (title t) (description t)
               (due_date t) (priority t) (status t) (created_by t) (assignee_id t)
               (task_class_id t)) = []) as Hnil; [|unfold overdue_notifications in *;
                 cbn in *; rewrite Hnil; cbn; lia].
  unfold overdue_notifications. cbn.
  destruct (filter _ (notifications s)) as [|n l] eqn:E; [done|]. exfalso.
  assert (n ∈ n :: l) as Hn by left. rewrite <- E in Hn.
  apply list_elem_of_filter in Hn as [(Href & _) Hn].
  destruct Hs as [_ _ _ _ _ _ _ _ _ _ Hnr _ _ _ _]. rewrite Forall_forall in Hnr.
  specialize (Hnr n Hn). unfold notification_row_ok in Hnr.
  rewrite !andb_true_iff, Href in Hnr. destruct Hnr as [[_ Hr] _]. cbn in Hr.
  unfold has_task in Hr. apply bool_decide_eq_true in Hr.
  by apply gen_id_fresh in Hr.
Qed.

Lemma same_tables_deduplicated s s' :
  tasks s' = tasks s -> notifications s' = notifications s ->
  overdue_deduplicated s = true -> overdue_deduplicated s' = true.
Proof.
  intros Ht Hn. unfold overdue_deduplicated, overdue_notifications.
  by rewrite Ht, Hn.
Qed.

Lemma createNotification_deduplicated uid type ttl msg tid cid s :
  type ≠ "task_overdue" ->
  overdue_deduplicated s = true ->
  overdue_deduplicated (createNotification uid type ttl msg tid cid s) = true.
Proof.
  intros Hty. apply deduplicated_transfer.
  - intros t' Ht'. rewrite createNotification_tasks in Ht'. eauto.
  - intros t. by rewrite createNotification_not_overdue.
Qed.

Lemma update_tasks_deduplicated p sel s s' :
  update_tasks p sel s = Some s' ->
  overdue_deduplicated s = true -> overdue_deduplicated s' = true.
Proof.
  intros Hup. apply deduplicated_transfer.
  - intros t' Ht'. eapply identity_elem; [|done]. by eapply update_tasks_identity.
  - intros t. by destruct (update_tasks_Some _ _ _ _ Hup) as [-> _].
Qed.

Lemma update_task_by_id_deduplicated p id s task s' :
  update_task_by_id p id s = Some (task, s') ->
  overdue_deduplicated s = true -> overdue_deduplicated s' = true.
Proof.
  unfold update_task_by_id. destruct (update_tasks _ _ s) as [s1|] eqn:E; [|done].
  destruct (data _); [|done]. intros [= _ <-]. by eapply update_tasks_deduplicated.
Qed.

Lemma notify_completed_deduplicated actor st t task s :
  overdue_deduplicated s = true ->
  overdue_deduplicated (notify_completed actor st t task s) = true.
Proof.
  intros H. unfold notify_completed. case_match; [|done].
  by apply createNotification_deduplicated.
Qed.

Lemma delete_task_deduplicated id s :
  overdue_deduplicated s = true -> overdue_deduplicated (delete_task id s) = true.
Proof.
  apply deduplicated_transfer.
  - intros t' Ht'. cbn in Ht'. apply list_elem_of_filter in Ht' as [_ Ht']. eauto.
  - intros t. unfold overdue_notifications. cbn.
    destruct (notifications_origin s); [apply filter_filter_length|].
    apply filter_fmap_length_le. intros n. by case_bool_decide; [intros [[=] _]|].
Qed.

Lemma delete_class_deduplicated id s :
  overdue_deduplicated s = true -> overdue_deduplicated (delete_class id s) = true.
Proof.
  apply deduplicated_transfer.
  - intros t' Ht'. cbn in Ht'. apply list_elem_of_fmap in Ht' as (t & -> & Ht).
    exists t. split; [done|]. by rewrite detach_identity.
  - intros t. unfold overdue_notifications. cbn.
    destruct (notifications_origin s); [apply filter_filter_length|done].
Qed.

Lemma notification_rows_deduplicated s (f : Notification -> Notification) :
  (∀ n, same_but_read n (f n)) ->
  overdue_deduplicated s = true ->
  overdue_deduplicated (set_notifications (fmap f) s) = true.
Proof.
  intros Hf. apply deduplicated_transfer; [by eauto|].
  intros t. unfold overdue_notifications. cbn.
  rewrite filter_fmap_length; [done|]. intros n.
  by destruct (same_but_read_fields _ _ (Hf n)) as (_ & -> & -> & _ & _ & -> & _).
Qed.

Lemma requireRole_deduplicated roles actor next s :
  overdue_deduplicated s = true ->
  (overdue_deduplicated s = true -> overdue_deduplicated (snd (next s)) = true) ->
  overdue_deduplicated (snd (requireRole roles actor next s)) = true.
Proof. intros H Hnext. unfold requireRole. case_bool_decide; [by apply Hnext|done]. Qed.

Lemma createTask_deduplicated actor b s :
  schema s -> overdue_deduplicated s = true ->
  overdue_deduplicated (snd (createTask actor b s)) = true.
Proof.
  intros Hs H. unfold createTask.
  repeat case_match; simplify_eq/=; try done.
  all: first [apply createNotification_deduplicated; [done|];
              by eapply insert_task_deduplicated
             |by eapply insert_task_deduplicated].
Qed.

Lemma updateTask_deduplicated actor id b s :
  overdue_deduplicated s = true ->
  overdue_deduplicated (snd (updateTask actor id b s)) = true.
Proof.
  intros H. unfold updateTask.
  repeat case_match; simplify_eq/=; try done.
  all: first [apply notify_completed_deduplicated;
              by eapply update_task_by_id_deduplicated
             |by eapply update_task_by_id_deduplicated].
Qed.

Lemma deleteTask_deduplicated actor id s :
  overdue_deduplicated s = true ->
  overdue_deduplicated (snd (deleteTask actor id s)) = true.
Proof.
  intros H. unfold deleteTask.
  repeat case_match; simplify_eq/=; try done. by apply delete_task_deduplicated.
Qed.

Lemma deleteClass_deduplicated actor id s :
  overdue_deduplicated s = true ->
  overdue_deduplicated (snd (deleteClass actor id s)) = true.
Proof.
  intros H. unfold deleteClass.
  destruct (data _); [|done]. destruct (_ && _); [done|]. cbn [snd].
  apply delete_class_deduplicated.
  destruct (update_tasks _ _ s) as [s1|] eqn:E; cbn; [|done].
  by eapply update_tasks_deduplicated.
Qed.

Lemma createClass_deduplicated actor name description draw1 draw2 s :
  overdue_deduplicated s = true ->
  overdue_deduplicated (snd (createClass actor name description draw1 draw2 s)) = true.
Proof.
  intros H. unfold createClass, insert_class.
  repeat case_match; simplify_eq/=; try done.
Qed.

Lemma updateClass_deduplicated actor id name description s :
  overdue_deduplicated s = true ->
  overdue_deduplicated (snd (updateClass actor id name description s)) = true.
Proof.
  intros H. unfold updateClass.
  repeat case_match; simplify_eq/=; try done.
Qed.

Lemma joinClass_deduplicated actor invite s :
  overdue_deduplicated s = true ->
  overdue_deduplicated (snd (joinClass actor invite s)) = true.
Proof.
  intros H. unfold joinClass, insert_member.
  repeat case_match; simplify_eq/=; try done.
Qed.

Lemma removeMember_deduplicated actor classId memberId s :
  overdue_deduplicated s = true ->
  overdue_deduplicated (snd (removeMember actor classId memberId s)) = true.
Proof.
  intros H. unfold removeMember.
  repeat case_match; simplify_eq/=; try done.
Qed.

Lemma markAsRead_deduplicated actor id s :
  overdue_deduplicated s = true ->
  overdue_deduplicated (snd (markAsRead actor id s)) = true.
Proof.
  apply notification_rows_deduplicated.
  intros n. case_bool_decide; [apply mark_read_same|by destruct n].
Qed.

Lemma markAllAsRead_deduplicated actor s :
  overdue_deduplicated s = true ->
  overdue_deduplicated (snd (markAllAsRead actor s)) = true.
Proof.
  apply notification_rows_deduplicated.
  intros n. case_bool_decide; [apply mark_read_same|by destruct n].
Qed.

Lemma serve_deduplicated r s :
  schema_ok s = true -> overdue_deduplicated s = true ->
  overdue_deduplicated (serve r s) = true.
Proof.
  intros Hok H. pose proof (proj1 (schema_ok_schema s) Hok) as Hs.
  destruct r; cbn [serve].
  - apply requireRole_deduplicated; [done|]. by apply createTask_deduplicated.
  - by apply updateTask_deduplicated.
  - apply requireRole_deduplicated; [done|apply deleteTask_deduplicated].
  - apply requireRole_deduplicated; [done|apply createClass_deduplicated].
  - apply requireRole_deduplicated; [done|apply updateClass_deduplicated].
  - apply requireRole_deduplicated; [done|apply deleteClass_deduplicated].
  - by apply joinClass_deduplicated.
  - apply requireRole_deduplicated; [done|apply removeMember_deduplicated].
  - by apply markAsRead_deduplicated.
  - by apply markAllAsRead_deduplicated.
  - by apply checkOverdueTasks_keeps_deduplicated.
Qed.

Lemma run_keeps_both rs : ∀ s,
  schema_ok s = true -> overdue_deduplicated s = true ->
  schema_ok (run rs s) = true ∧ overdue_deduplicated (run rs s) = true.
Proof.
  induction rs as [|r rs IH]; intros s Hok H; [done|].
  cbn. apply IH; [by apply serve_schema_ok|by apply serve_deduplicated].
Qed.

(** X2: No sequence of requests makes a second overdue notification for the
    same task and creator: served one after the other, the mutating routes
    keep a store free of duplicate overdue notifications. *)
Theorem run_keeps_deduplicated rs s :
  schema_ok s = true -> overdue_deduplicated s = true ->
  overdue_deduplicated (run rs s) = true.
Proof.
  revert s. induction rs as [|r rs IH]; intros s Hok H; [done|].
  cbn. apply IH; [by apply serve_schema_ok|by apply serve_deduplicated].
Qed.

(** X3: In a sequential run the overdue scan is idempotent: after any sequence
    of requests served from a store that satisfies its schema and holds no
    duplicate overdue notification, the second of two scans on the same day
    sends nothing and changes nothing. *)
Theorem scan_idempotent_after_any_run rs today s :
  schema_ok s = true -> overdue_deduplicated s = true ->
  count_of (fst (checkOverdueTasks today
                   (snd (checkOverdueTasks today (run rs s))))) = 0%nat
  ∧ snd (checkOverdueTasks today (snd (checkOverdueTasks today (run rs s))))
    = snd (checkOverdueTasks today (run rs s)).
Proof.
  intros Hok H. destruct (run_keeps_both rs s Hok H) as [Hok' H'].
  by destruct (checkOverdueTasks_idempotent today (run rs s) Hok' H')
    as (_ & _ & _ & _ & ? & ?).
Qed.

(** ** Reading and marking notifications *)

(** X15: [markAsRead] touches one table, changes nothing but [is_read], and only
    on rows that have the given id and belong to the caller; it never turns
    a read notification unread. *)
Theorem markAsRead_scoped actor id s :
  users (snd (markAsRead actor id s)) = users s
  ∧ classes (snd (markAsRead actor id s)) = classes s
  ∧ class_members (snd (markAsRead actor id s)) = class_members s
  ∧ tasks (snd (markAsRead actor id s)) = tasks s
  ∧ Forall2 (λ n n', same_but_read n n'
                     ∧ (is_read n = true -> is_read n' = true)
                     ∧ (n_user_id n ≠ user_id actor ∨ notification_id n ≠ id -> n' = n)
                     ∧ (n_user_id n = user_id actor -> notification_id n = id ->
                        is_read n' = true))
      (notifications s) (notifications (snd (markAsRead actor id s))).
Proof.
  do 4 (split; [done|]). cbn.
  apply Forall2_fmap_r, Forall_Forall2_diag, Forall_forall. intros n _.
  unfold compose. case_bool_decide as H.
  - split; [apply mark_read_same|]. split; [done|]. split; [tauto|done].
  - split; [by destruct n|]. split; [done|]. split; [done|]. tauto.
Qed.

(** X16: Marking twice is marking once. *)
Theorem markAsRead_idempotent actor id s :
  snd (markAsRead actor id (snd (markAsRead actor id s))) = snd (markAsRead actor id s).
Proof.
  unfold markAsRead, set_notifications. cbn. f_equal.
  rewrite <- list_fmap_compose. apply list_fmap_ext. intros i n _. cbn.
  destruct (decide (notification_id n = id ∧ n_user_id n = user_id actor)) as [Hn|Hn].
  - rewrite (bool_decide_true _ Hn). cbn. by rewrite (bool_decide_true _ Hn).
  - rewrite (bool_decide_false _ Hn). by rewrite (bool_decide_false _ Hn).
Qed.

Lemma unread_after_markAll actor s uid :
  unread (snd (markAllAsRead actor s)) uid
  = if bool_decide (uid = user_id actor) then [] else unread s uid.
Proof.
  unfold unread. cbn [markAllAsRead snd set_notifications notifications].
  generalize (notifications s). intros l.
  induction l as [|n l IH]; [case_bool_decide; reflexivity|].
  rewrite fmap_cons, !filter_cons, IH. clear IH.
  destruct (decide (uid = user_id actor)) as [->|Hne].
  - rewrite !(bool_decide_true (user_id actor = user_id actor)) by done.
    destruct (decide (n_user_id n = user_id actor ∧ is_read n = false)) as [Hn|Hn].
    + rewrite (bool_decide_true _ Hn). cbn. rewrite decide_False; [done|]. by intros [_ ?].
    + rewrite (bool_decide_false _ Hn). by rewrite decide_False.
  - rewrite !(bool_decide_false (uid = user_id actor)) by done.
    destruct (decide (n_user_id n = user_id actor ∧ is_read n = false)) as [Hn|Hn].
    + rewrite (bool_decide_true _ Hn). cbn.
      rewrite !decide_False; [done| |]; destruct Hn; intros [? ?]; congruence.
    + by rewrite (bool_decide_false _ Hn).
Qed.

(** X17: After [markAllAsRead] the caller's unread count is 0 and the unread
    notifications of every other user are exactly what they were. *)
Theorem markAllAsRead_clears_own_only actor s :
  count_of (fst (getUnreadCount actor (snd (markAllAsRead actor s)))) = 0%nat
  ∧ ∀ other, user_id other ≠ user_id actor ->
      unread (snd (markAllAsRead actor s)) (user_id other) = unread s (user_id other)
      ∧ getUnreadCount other (snd (markAllAsRead actor s))
        = (fst (getUnreadCount other s), snd (markAllAsRead actor s)).
Proof.
  split.
  - cbn [getUnreadCount fst count_of body]. rewrite unread_after_markAll.
    by rewrite bool_decide_true.
  - intros other Hne. unfold getUnreadCount. cbn [fst].
    rewrite unread_after_markAll, bool_decide_false by done. done.
Qed.

Lemma length_filter_impl {A} (P Q : A -> Prop) `{∀ x, Decision (P x)}
    `{∀ x, Decision (Q x)} (l : list A) :
  (∀ x, P x -> Q x) -> (length (filter P l) <= length (filter Q l))%nat.
Proof.
  intros HPQ. induction l as [|x l IH]; [done|].
  destruct (decide (P x)) as [HP|HP].
  - rewrite !filter_cons_True by auto. cbn. lia.
  - rewrite (filter_cons_False P) by done. destruct (decide (Q x)).
    + rewrite filter_cons_True by done. cbn. lia.
    + by rewrite filter_cons_False.
Qed.

(** X18: A page of [getNotifications] holds only rows of the caller, only unread
    ones when [unread_only] is the string [true], at most [limit] of them
    and never more than [total], which counts no row of another user; the
    handler writes nothing. *)
Theorem getNotifications_scoped actor q s p :
  reply_data (fst (getNotifications actor q s)) = Some p ->
  snd (getNotifications actor q s) = s
  ∧ Forall (λ n, n ∈ notifications s ∧ n_user_id n = user_id actor
                 ∧ (nq_unread_only q = Some "true" -> is_read n = false))
      (page_rows p)
  ∧ (length (page_rows p) <= Pos.to_nat (nq_limit q))%nat
  ∧ (length (page_rows p) <= page_total p)%nat
  ∧ (page_total p <= length (filter (λ n, n_user_id n = user_id actor) (notifications s)))%nat.
Proof.
  unfold getNotifications. cbn. intros [= <-]. cbn. split; [done|]. split; [|split; [|split]].
  - apply Forall_take, Forall_drop, Forall_reverse, Forall_forall.
    intros n Hn. apply list_elem_of_filter in Hn as [Hf Hn]. split; [done|].
    unfold getNotifications_filter in Hf. apply andb_true_iff in Hf as [Hu Hr].
    apply bool_decide_eq_true in Hu. split; [done|]. intros Hq.
    rewrite bool_decide_true in Hr by done. by destruct (is_read n).
  - rewrite length_take. lia.
  - rewrite length_take, length_drop, length_reverse. lia.
  - apply length_filter_impl. intros n Hf.
    unfold getNotifications_filter in Hf. apply andb_true_iff in Hf as [Hu _].
    by apply bool_decide_eq_true in Hu.
Qed.

(** ** What the overdue scan sends *)

Lemma overdue_spec today t :
  overdue today t = true
  <-> ∃ d st, due_date t = Some d ∧ status t = Some st
              ∧ String.ltb d today = true ∧ st ≠ "completed".
Proof.
  unfold overdue. destruct (due_date t) as [d|], (status t) as [st|].
  - rewrite andb_true_iff, negb_true_iff, String.eqb_neq. split.
    + intros [? ?]. by exists d, st.
    + intros (d' & st' & [= <-] & [= <-] & ? & ?). done.
  - split; [done|]. by intros (? & ? & ? & ? & _).
  - split; [done|]. by intros (? & ? & ? & ? & _).
  - split; [done|]. by intros (? & ? & ? & ? & _).
Qed.

Lemma notify_overdue_appends ts : ∀ s n,
  ∃ new,
    notifications (fst (notify_overdue ts s n)) = (notifications s ++ new)%list
    ∧ Forall (λ x, ∃ t, t ∈ ts ∧ x = overdue_row (notification_id x) t) new
    ∧ (n + length new <= snd (notify_overdue ts s n))%nat
    ∧ users (fst (notify_overdue ts s n)) = users s
    ∧ classes (fst (notify_overdue ts s n)) = classes s
    ∧ class_members (fst (notify_overdue ts s n)) = class_members s
    ∧ tasks (fst (notify_overdue ts s n)) = tasks s.
Proof.
  induction ts as [|t ts IH]; intros s n.
  { exists []. cbn. rewrite app_nil_r. repeat split; try done. lia. }
  cbn [notify_overdue]. destruct (data _).
  - destruct (IH s n) as (new & H1 & H2 & H3 & H4).
    exists new. split; [done|]. split; [|done].
    eapply Forall_impl; [exact H2|]. intros x (u & Hu & Hx). exists u. split; [by right|done].
  - set (s1 := createNotification _ _ _ _ _ _ s).
    destruct (IH s1 (S n)) as (new & H1 & H2 & H3 & H4 & H5 & H6 & H7).
    destruct (createNotification_frame (created_by t) "task_overdue" "Task Overdue"
                (overdue_message t) (Some (task_id t)) None s) as (F1 & F2 & F3 & F4).
    fold s1 in F1, F2, F3, F4.
    assert (∃ one, notifications s1 = (notifications s ++ one)%list
                   ∧ (length one <= 1)%nat
                   ∧ Forall (λ x, x = overdue_row (notification_id x) t) one)
      as (one & Hone & Hlen & Hrow).
    { unfold s1, createNotification. destruct (notification_row_ok s _).
      - eexists [_]. cbn. split; [done|]. split; [lia|]. by apply Forall_singleton.
      - exists []. cbn. rewrite app_nil_r. split; [done|]. split; [lia|done]. }
    exists (one ++ new)%list. rewrite H1, Hone, <- app_assoc. split; [done|].
    split; [|rewrite length_app; repeat split; try congruence; lia].
    apply Forall_app. split.
    + eapply Forall_impl; [exact Hrow|]. intros x ->. exists t. split; [left|done].
    + eapply Forall_impl; [exact H2|]. intros x (u & Hu & Hx). exists u.
      split; [by right|done].
Qed.

(** X4: Every notification the overdue scan adds is a [task_overdue] for a task
    of the store whose due date lies before today and whose status is not
    [completed], addressed to that task's creator; nothing else is written,
    and the count it reports is at least the number of rows added. *)
Theorem checkOverdueTasks_only_overdue today s :
  ∃ new,
    notifications (snd (checkOverdueTasks today s)) = (notifications s ++ new)%list
    ∧ Forall (λ x, ∃ t d st, t ∈ tasks s
                 ∧ due_date t = Some d ∧ String.ltb d today = true
                 ∧ status t = Some st ∧ st ≠ "completed"
                 ∧ n_type x = "task_overdue" ∧ n_user_id x = created_by t
                 ∧ n_task_id x = Some (task_id t) ∧ is_read x = false) new
    ∧ (length new <= count_of (fst (checkOverdueTasks today s)))%nat
    ∧ users (snd (checkOverdueTasks today s)) = users s
    ∧ classes (snd (checkOverdueTasks today s)) = classes s
    ∧ class_members (snd (checkOverdueTasks today s)) = class_members s
    ∧ tasks (snd (checkOverdueTasks today s)) = tasks s.
Proof.
  destruct (checkOverdueTasks_loop today s) as [-> ->].
  destruct (notify_overdue_appends (filter (λ t, overdue today t = true) (tasks s)) s 0)
    as (new & H1 & H2 & H3 & H4).
  exists new. split; [done|]. split; [|done].
  eapply Forall_impl; [exact H2|]. intros x (t & Ht & Hx).
  apply list_elem_of_filter in Ht as [Hov Ht].
  apply overdue_spec in Hov as (d & st & ? & ? & ? & ?).
  exists t, d, st. rewrite Hx. done.
Qed.

(** ** createTask and its notification *)

Lemma has_user_single s id :
  is_null (data (single (users_by_id s id))) = false -> has_user s id = true.
Proof.
  unfold has_user, users_by_id. intros H. apply bool_decide_eq_true.
  destruct (filter _ (users s)) as [|u [|? ?]] eqn:E; try done.
  assert (u ∈ filter (λ u, user_id u = id) (users s)) as Hu by (rewrite E; left).
  apply list_elem_of_filter in Hu as [<- Hu]. by apply list_elem_of_fmap_2.
Qed.

(** X5: A successful [createTask] with an assignee appends exactly one unread
    [task_assigned] notification, for the assignee and about the new task;
    without an assignee it appends none. *)
Theorem createTask_notifies_assignee actor b s :
  code (fst (createTask actor b s)) = 201%nat ->
  ∃ task,
    body (fst (createTask actor b s)) = TaskBody task
    ∧ assignee_id task = or_null (b_assignee_id b)
    ∧ match assignee_id task with
      | Some a =>
          ∃ n, notifications (snd (createTask actor b s)) = (notifications s ++ [n])%list
               ∧ n_user_id n = a ∧ n_type n = "task_assigned"
               ∧ n_task_id n = Some (task_id task) ∧ is_read n = false
      | None => notifications (snd (createTask actor b s)) = notifications s
      end.
Proof.
  unfold createTask. intros Hcode.
  repeat case_match; simplify_eq/=; try discriminate.
  all: match goal with H : insert_task _ _ = Some _ |- _ =>
         unfold insert_task in H; cbn in H;
         destruct (task_row_ok s _) eqn:Hrow in H; simplify_eq end.
  all: cbn in *; simplify_eq.
  all: eexists; split; [reflexivity|]; split; [done|]; cbn.
  all: try done.
  all: match goal with H : _ || is_null _ = false |- _ =>
         apply orb_false_iff in H as [_ Hlook]; apply has_user_single in Hlook end.
  all: rewrite createNotification_accepted;
    [eexists; split; [reflexivity|]; done
    |done
    |unfold notification_types; left
    |apply Nat.leb_le; vm_compute; reflexivity
    |cbn; unfold has_task; apply bool_decide_eq_true; cbn; rewrite fmap_app;
     apply elem_of_app; right; left
    |cbn; unfold task_row_ok in Hrow; cbn in Hrow;
     rewrite !andb_true_iff in Hrow; tauto].
Qed.

(** ** Refused requests *)

(** X6: A handler that does not answer with [success: true] has not written
    anything: every refusal leaves the store as it was. *)
Theorem refused_request_changes_nothing actor id b name description draw1 draw2
    invite classId memberId s :
  (success (fst (createTask actor b s)) = false -> snd (createTask actor b s) = s)
  ∧ (success (fst (updateTask actor id b s)) = false ->
     snd (updateTask actor id b s) = s)
  ∧ (success (fst (deleteTask actor id s)) = false -> snd (deleteTask actor id s) = s)
  ∧ (success (fst (createClass actor name description draw1 draw2 s)) = false ->
     snd (createClass actor name description draw1 draw2 s) = s)
  ∧ (success (fst (updateClass actor id name description s)) = false ->
     snd (updateClass actor id name description s) = s)
  ∧ (success (fst (deleteClass actor id s)) = false -> snd (deleteClass actor id s) = s)
  ∧ (success (fst (joinClass actor invite s)) = false ->
     snd (joinClass actor invite s) = s)
  ∧ (success (fst (removeMember actor classId memberId s)) = false ->
     snd (removeMember actor classId memberId s) = s).
Proof.
  unfold createTask, updateTask, deleteTask, createClass, updateClass, deleteClass,
    joinClass, removeMember.
  repeat split; intros H; repeat case_match; simplify_eq/=; done.
Qed.

(** The role gate in front of a handler: a caller whose role is not listed
    gets 403 and the handler does not run. *)
Lemma requireRole_refuses roles actor next s :
  user_role actor ∉ roles ->
  code (fst (requireRole roles actor next s)) = 403%nat
  ∧ success (fst (requireRole roles actor next s)) = false
  ∧ snd (requireRole roles actor next s) = s.
Proof. intros H. unfold requireRole. by rewrite bool_decide_false. Qed.

Lemma student_not_staff : student ∉ [teacher; admin].
Proof. intros H. repeat (apply elem_of_cons in H as [H|H]; [done|]). by apply elem_of_nil in H. Qed.

(** ** What a student can change *)

Lemma update_row_status_only st id s t t' :
  update_row (status_patch st) (λ x, bool_decide (task_id x = id)) s t = Some t' ->
  same_but_status t t' ∧ (task_id t ≠ id -> t' = t).
Proof.
  unfold update_row. case_bool_decide as Hid.
  - rewrite patch_status_only. case_match; [|done]. intros [= <-].
    split; [by destruct t|done].
  - intros [= <-]. split; [by destruct t|done].
Qed.

Lemma notify_completed_frame actor st t task s :
  users (notify_completed actor st t task s) = users s
  ∧ classes (notify_completed actor st t task s) = classes s
  ∧ class_members (notify_completed actor st t task s) = class_members s
  ∧ tasks (notify_completed actor st t task s) = tasks s.
Proof.
  unfold notify_completed. case_match; [|done].
  destruct (createNotification_frame (created_by t) "task_completed" "Task Completed"
              ((match data (single (users_by_id s (user_id actor))) with
                | Some u => if String.eqb (user_name u) EmptyString
                            then "A student" else user_name u
                | None => "A student"
                end) ++ " completed the task: " ++ dquote ++ title task ++ dquote)
              (Some (task_id task)) None s) as (? & ? & ? & ?).
  done.
Qed.

Lemma update_task_by_id_tasks p id s task s1 :
  update_task_by_id p id s = Some (task, s1) ->
  update_tasks p (λ x, bool_decide (task_id x = id)) s = Some s1.
Proof.
  unfold update_task_by_id. destruct (update_tasks _ _ s); [|done].
  destruct (data _); [|done]. by intros [= _ ->].
Qed.

(** What [updateTask] leaves behind: the store as it was, or the store
    after one update of the rows with the given id, up to a notification. *)
Lemma updateTask_store actor id b s :
  ∃ s1,
    (s1 = s
     ∨ ∃ p, update_tasks p (λ x, bool_decide (task_id x = id)) s = Some s1
            ∧ (user_role actor = student -> ∃ st, p = status_patch st))
    ∧ users (snd (updateTask actor id b s)) = users s1
    ∧ classes (snd (updateTask actor id b s)) = classes s1
    ∧ class_members (snd (updateTask actor id b s)) = class_members s1
    ∧ tasks (snd (updateTask actor id b s)) = tasks s1.
Proof.
  unfold updateTask.
  destruct (data (single (tasks_by_id s id))) as [t0|]; [|exists s; cbn; split; [by left|done]].
  destruct (error _); [exists s; cbn; split; [by left|done]|].
  destruct (bool_decide (user_role actor = student)) eqn:Hrole.
  - destruct (bool_decide (assignee_id t0 ≠ _)); [exists s; cbn; split; [by left|done]|].
    destruct (or_null (b_status b)) as [st|]; [|exists s; cbn; split; [by left|done]].
    destruct (update_task_by_id _ _ s) as [[task s1]|] eqn:E; [|exists s; cbn; split; [by left|done]].
    exists s1. split; [|apply notify_completed_frame].
    right. exists (status_patch st). split; [by eapply update_task_by_id_tasks|eauto].
  - apply bool_decide_eq_false in Hrole.
    destruct (_ && _); [exists s; cbn; split; [by left|done]|].
    destruct (no_keys _); [exists s; cbn; split; [by left|done]|].
    destruct (update_task_by_id _ _ s) as [[task s1]|] eqn:E; [|exists s; cbn; split; [by left|done]].
    exists s1. split; [|done].
    right. exists (updateData b). split; [by eapply update_task_by_id_tasks|done].
Qed.

(** X7: Whatever a student sends to the task routes, no task is added or
    removed and no column of any task other than [status] changes; creating
    and deleting are refused outright, and classes and memberships are out of
    reach of the task routes. *)
Theorem student_changes_status_only actor id b s :
  user_role actor = student ->
  Forall2 (λ t t', same_but_status t t' ∧ (task_id t ≠ id -> t' = t))
    (tasks s) (tasks (snd (updateTask actor id b s)))
  ∧ classes (snd (updateTask actor id b s)) = classes s
  ∧ class_members (snd (updateTask actor id b s)) = class_members s
  ∧ users (snd (updateTask actor id b s)) = users s
  ∧ route_createTask actor b s
    = (failure 403 "Forbidden — requires teacher or admin role", s)
  ∧ route_deleteTask actor id s
    = (failure 403 "Forbidden — requires teacher or admin role", s).
Proof.
  intros Hrole.
  destruct (updateTask_store actor id b s) as (s1 & Hs1 & -> & -> & -> & ->).
  split; [|split; [|split; [|split; [|split]]]].
  5,6: unfold route_createTask, route_deleteTask, requireRole;
       rewrite Hrole, bool_decide_false by apply student_not_staff; done.
  all: destruct Hs1 as [->|(p & Hup & Hp)]; [try done|].
  - apply Forall_Forall2_diag, Forall_forall. intros t _. split; [by destruct t|done].
  - destruct (Hp Hrole) as [st ->].
    destruct (update_tasks_Some _ _ _ _ Hup) as [_ Hrows].
    eapply Forall2_impl; [exact Hrows|]. intros t t' Hrow.
    exact (update_row_status_only _ _ _ _ _ Hrow).
  - by destruct (update_tasks_Some _ _ _ _ Hup) as [-> _].
  - by destruct (update_tasks_Some _ _ _ _ Hup) as [-> _].
  - by destruct (update_tasks_Some _ _ _ _ Hup) as [-> _].
Qed.

(** ** What [updateTask] never changes *)

(** X8: No call of [updateTask], by anyone and with any body, adds or removes a
    task or changes the id or the creator of one; rows with another id are
    left exactly as they were, and so are users, classes and memberships. *)
Theorem updateTask_keeps_identity actor id b s :
  task_identity <$> tasks (snd (updateTask actor id b s)) = task_identity <$> tasks s
  ∧ Forall2 (λ t t', task_id t ≠ id -> t' = t)
      (tasks s) (tasks (snd (updateTask actor id b s)))
  ∧ users (snd (updateTask actor id b s)) = users s
  ∧ classes (snd (updateTask actor id b s)) = classes s
  ∧ class_members (snd (updateTask actor id b s)) = class_members s.
Proof.
  destruct (updateTask_store actor id b s) as (s1 & Hs1 & -> & -> & -> & ->).
  destruct Hs1 as [->|(p & Hup & _)].
  - repeat split; try done. apply Forall_Forall2_diag, Forall_forall. done.
  - destruct (update_tasks_Some _ _ _ _ Hup) as [Hs1 Hrows].
    split; [by eapply update_tasks_identity|]. split; [|by rewrite Hs1].
    eapply Forall2_impl; [exact Hrows|]. intros t t' Hrow Hne. unfold update_row in Hrow.
    rewrite bool_decide_false in Hrow by done. by simplify_eq.
Qed.

(** ** Who may read, edit and delete a task *)

(** X9: For a task the lookup finds, [getTask] succeeds exactly for its
    assignee among students, its creator among teachers, and every
    administrator; everyone else gets 403, and an unknown id gets 404.
    Nothing is written. *)
Theorem getTask_access actor id s :
  snd (getTask actor id s) = s
  ∧ (tasks_by_id s id = [] -> code (fst (getTask actor id s)) = 404%nat)
  ∧ ∀ t, tasks_by_id s id = [t] ->
      (fst (getTask actor id s) = mkResponse 200 true None (TaskBody t)
       ∨ code (fst (getTask actor id s)) = 403%nat)
      ∧ (code (fst (getTask actor id s)) = 200%nat
         <-> match user_role actor with
             | student => assignee_id t = Some (user_id actor)
             | teacher => created_by t = user_id actor
             | admin => True
             end).
Proof.
  unfold getTask. split; [by repeat case_match|]. split; [by intros ->|].
  intros t ->. cbn.
  destruct (user_role actor) eqn:Hrole; cbn.
  - rewrite (bool_decide_true (student = student)) by done. cbn.
    destruct (decide (assignee_id t = Some (user_id actor))) as [Ha|Ha].
    + rewrite (bool_decide_false (assignee_id t ≠ _)) by (by intros ?).
      rewrite (bool_decide_false (student = teacher)) by done. cbn.
      split; [by left|done].
    + rewrite (bool_decide_true (assignee_id t ≠ _)) by done. cbn.
      split; [by right|]. split; [done|]. intros ?. done.
  - rewrite (bool_decide_false (teacher = student)) by done. cbn.
    rewrite (bool_decide_true (teacher = teacher)) by done. cbn.
    destruct (decide (created_by t = user_id actor)) as [Ha|Ha].
    + rewrite (bool_decide_false (created_by t ≠ _)) by (by intros ?). cbn.
      split; [by left|done].
    + rewrite (bool_decide_true (created_by t ≠ _)) by done. cbn.
      split; [by right|]. split; [done|]. intros ?. done.
  - rewrite (bool_decide_false (admin = student)), (bool_decide_false (admin = teacher))
      by done. cbn. split; [by left|done].
Qed.

(** X10: A teacher can neither edit nor delete a task of another creator,
    whatever the body: both calls answer 403 and write nothing.  The same
    holds for a student and a task that is not assigned to them. *)
Theorem foreign_task_is_protected actor id b s t :
  tasks_by_id s id = [t] ->
  (user_role actor = teacher ∧ created_by t ≠ user_id actor
   ∨ user_role actor = student ∧ assignee_id t ≠ Some (user_id actor)) ->
  code (fst (updateTask actor id b s)) = 403%nat
  ∧ snd (updateTask actor id b s) = s
  ∧ (created_by t ≠ user_id actor ->
     code (fst (deleteTask actor id s)) = 403%nat ∧ snd (deleteTask actor id s) = s).
Proof.
  intros Ht Hcase. unfold updateTask, deleteTask. rewrite Ht. cbn.
  destruct Hcase as [[Hrole Hne]|[Hrole Hne]]; rewrite Hrole.
  - rewrite (bool_decide_false (teacher = student)) by done.
    rewrite !(bool_decide_true (created_by t ≠ user_id actor)) by done.
    rewrite !(bool_decide_true (teacher ≠ admin)) by done. done.
  - rewrite (bool_decide_true (student = student)) by done.
    rewrite (bool_decide_true (assignee_id t ≠ Some (user_id actor))) by done.
    split; [done|]. split; [done|]. intros Hc.
    rewrite (bool_decide_true (created_by t ≠ user_id actor)) by done.
    by rewrite (bool_decide_true (student ≠ admin)) by done.
Qed.

(** X11: A successful [deleteTask] removes the rows with that id and
    nothing else from [tasks].  What becomes of the notifications that refer
    to the task depends on the table: the one made at start-up loses them,
    the one of the migration keeps them without their [task_id].  Either
    way no notification mentions the task afterwards, every other
    notification stays as it is, and the task can no longer be fetched. *)
Theorem deleteTask_removes_task_and_notifications actor id s :
  code (fst (deleteTask actor id s)) = 200%nat ->
  tasks (snd (deleteTask actor id s)) = filter (λ t, task_id t ≠ id) (tasks s)
  ∧ notifications (snd (deleteTask actor id s))
    = match notifications_origin s with
      | startup => filter (λ n, n_task_id n ≠ Some id) (notifications s)
      | migration =>
          (λ n, if bool_decide (n_task_id n = Some id) then unlinked n else n)
          <$> notifications s
      end
  ∧ (∀ n, n ∈ notifications (snd (deleteTask actor id s)) -> n_task_id n ≠ Some id)
  ∧ (∀ n, n ∈ notifications s -> n_task_id n ≠ Some id ->
          n ∈ notifications (snd (deleteTask actor id s)))
  ∧ users (snd (deleteTask actor id s)) = users s
  ∧ classes (snd (deleteTask actor id s)) = classes s
  ∧ class_members (snd (deleteTask actor id s)) = class_members s
  ∧ ∀ reader, code (fst (getTask reader id (snd (deleteTask actor id s)))) = 404%nat.
Proof.
  unfold deleteTask. intros Hcode.
  destruct (data (single (tasks_by_id s id))); [|discriminate].
  destruct (error _); [discriminate|]. destruct (_ && _); [discriminate|].
  cbn [snd]. split; [done|]. split; [by cbn; destruct (notifications_origin s)|].
  split; [|split; [|split; [done|split; [done|split; [done|]]]]].
  - intros n. cbn. destruct (notifications_origin s).
    + by intros [? _]%list_elem_of_filter.
    + intros (n0 & -> & _)%list_elem_of_fmap. by case_bool_decide.
  - intros n Hn Hne. cbn. destruct (notifications_origin s).
    + by apply list_elem_of_filter.
    + apply list_elem_of_fmap. exists n. by rewrite bool_decide_false.
  - intros reader. unfold getTask, tasks_by_id. cbn.
    rewrite list_filter_filter.
    assert (filter (λ t, task_id t = id ∧ task_id t ≠ id) (tasks s) = []) as ->; [|done].
    induction (tasks s) as [|x l IH]; [done|].
    rewrite filter_cons_False; [done|tauto].
Qed.

(** ** Listing and paging *)

(** [Math.ceil] as [totalPages] computes it: the least number of pages of
    [n] rows that hold [count] rows. *)
Lemma totalPages_bounds count n :
  (0 < n)%nat ->
  (count <= totalPages count n * n)%nat ∧ (totalPages count n * n < count + n)%nat.
Proof.
  intros Hn. unfold totalPages.
  pose proof (Nat.div_mod_eq (count + n - 1) n) as Hdiv.
  pose proof (Nat.mod_upper_bound (count + n - 1) n ltac:(lia)) as Hmod.
  nia.
Qed.

(** Cutting a list into [k] consecutive pages of [n] rows loses nothing
    when [k] pages are enough. *)
Lemma pages_concat {A} (l : list A) n k :
  (length l <= k * n)%nat ->
  concat ((λ i, take n (drop (i * n) l)) <$> seq 0 k) = l.
Proof.
  revert l. induction k as [|k IH]; intros l Hlen.
  - destruct l; [done|]. cbn in Hlen. lia.
  - cbn [seq fmap list_fmap concat]. rewrite <- fmap_S_seq, <- list_fmap_compose.
    cbn [Nat.mul drop]. trans (take n l ++ drop n l)%list; [|apply take_drop]. f_equal.
    etrans; [|apply (IH (drop n l)); rewrite length_drop; lia].
    f_equal. apply list_fmap_ext. intros i x _. cbn.
    by rewrite drop_drop.
Qed.

Lemma getTasks_filter_page ilike actor q q' t :
  q_status q' = q_status q -> q_priority q' = q_priority q ->
  q_search q' = q_search q -> q_class_id q' = q_class_id q ->
  getTasks_filter ilike actor q' t = getTasks_filter ilike actor q t.
Proof. unfold getTasks_filter. by intros -> -> -> ->. Qed.

(** X12: What a caller finds in a listing: only tasks of the store that are
    their own (assigned to a student, created by a teacher or an
    administrator), at most [limit] of them, never more than [total]; the
    listing writes nothing. *)
Theorem getTasks_scoped ilike actor q s :
  snd (getTasks ilike actor q s) = s
  ∧ Forall (λ t, t ∈ tasks s
                 ∧ match user_role actor with
                   | student => assignee_id t = Some (user_id actor)
                   | _ => created_by t = user_id actor
                   end)
      (listed_tasks (fst (getTasks ilike actor q s)))
  ∧ (length (listed_tasks (fst (getTasks ilike actor q s))) <= Pos.to_nat (q_limit q))%nat
  ∧ (length (listed_tasks (fst (getTasks ilike actor q s)))
     <= total_of (fst (getTasks ilike actor q s)))%nat
  ∧ (total_of (fst (getTasks ilike actor q s)) <= length (tasks s))%nat.
Proof.
  unfold getTasks, listed_tasks, total_of. cbn.
  split; [done|]. split; [|split; [|split]].
  - apply Forall_take, Forall_drop, Forall_reverse, Forall_forall.
    intros t [Hf Ht]%list_elem_of_filter. split; [done|].
    unfold getTasks_filter in Hf. rewrite !andb_true_iff in Hf.
    destruct Hf as [[[[Hf _] _] _] _].
    destruct (user_role actor).
    + rewrite (bool_decide_false (student = teacher)),
        (bool_decide_false (student = admin)) in Hf by done.
      by apply bool_decide_eq_true in Hf.
    + rewrite (bool_decide_true (teacher = teacher)) in Hf by done.
      by apply bool_decide_eq_true in Hf.
    + rewrite (bool_decide_true (admin = admin)), orb_true_r in Hf by done.
      by apply bool_decide_eq_true in Hf.
  - rewrite length_take. lia.
  - rewrite length_take, length_drop, length_reverse. lia.
  - apply length_filter.
Qed.

(** X13: Paging loses and repeats nothing: the pages 1 to [totalPages] of a
    listing, one after the other, are exactly the caller's matching tasks,
    newest first, and [total] and [totalPages] are the same on every page
    that starts within the matching rows. *)
Theorem getTasks_pages_cover ilike actor st pr se cl limit s :
  let q page := mkTaskQuery st pr se cl page limit in
  let matching := filter (λ t, getTasks_filter ilike actor (q 1%positive) t = true)
                    (tasks s) in
  concat ((λ i, listed_tasks (fst (getTasks ilike actor (q (Pos.of_nat (S i))) s)))
          <$> seq 0 (totalPages (length matching) (Pos.to_nat limit)))
  = reverse matching
  ∧ ∀ page,
      ((Pos.to_nat page - 1) * Pos.to_nat limit <= length matching)%nat ->
      body (fst (getTasks ilike actor (q page) s))
      = TasksBody (take (Pos.to_nat limit)
                     (drop ((Pos.to_nat page - 1) * Pos.to_nat limit) (reverse matching)))
          (Pos.to_nat page) (Pos.to_nat limit) (length matching)
          (totalPages (length matching) (Pos.to_nat limit)).
Proof.
  intros q matching. split; [|done].
  etrans; [|apply (pages_concat (reverse matching) (Pos.to_nat limit)
                     (totalPages (length matching) (Pos.to_nat limit)))].
  - f_equal. apply list_fmap_ext. intros _ i _. unfold getTasks, listed_tasks. cbn [fst body q_page q_limit q].
    rewrite Nat2Pos.id by done. by rewrite Nat.sub_succ, Nat.sub_0_r.
  - rewrite length_reverse. apply totalPages_bounds. lia.
Qed.

(** ** Statistics *)

Lemma count_status_sum (l : list Task) :
  (count_status "todo" l + count_status "in-progress" l + count_status "completed" l
   <= length l)%nat
  ∧ (Forall (λ t, status t ≠ None ∧ check_in statuses (status t) = true) l ->
     count_status "todo" l + count_status "in-progress" l + count_status "completed" l
     = length l).
Proof.
  unfold count_status. induction l as [|t l [IH1 IH2]]; [done|].
  assert (Hcase : status t = Some "todo" ∨ status t = Some "in-progress"
                  ∨ status t = Some "completed"
                  ∨ (status t ≠ Some "todo" ∧ status t ≠ Some "in-progress"
                     ∧ status t ≠ Some "completed")).
  { destruct (decide (status t = Some "todo")); [tauto|].
    destruct (decide (status t = Some "in-progress")); [tauto|].
    destruct (decide (status t = Some "completed")); tauto. }
  split.
  - destruct Hcase as [H|[H|[H|(H1 & H2 & H3)]]].
    + rewrite filter_cons_True, !filter_cons_False by (rewrite ?H; done). cbn. lia.
    + rewrite filter_cons_False, filter_cons_True, filter_cons_False
        by (rewrite ?H; done). cbn. lia.
    + rewrite !filter_cons_False, filter_cons_True by (rewrite ?H; done). cbn. lia.
    + rewrite !filter_cons_False by done. cbn. lia.
  - intros Hall. apply Forall_cons in Hall as [[Hsome Hin] Hall]. specialize (IH2 Hall).
    destruct Hcase as [H|[H|[H|(H1 & H2 & H3)]]].
    + rewrite filter_cons_True, !filter_cons_False by (rewrite ?H; done). cbn. lia.
    + rewrite filter_cons_False, filter_cons_True, filter_cons_False
        by (rewrite ?H; done). cbn. lia.
    + rewrite !filter_cons_False, filter_cons_True by (rewrite ?H; done). cbn. lia.
    + exfalso. destruct (status t) as [x|]; [|done]. unfold check_in, statuses in Hin.
      apply bool_decide_eq_true in Hin.
      repeat (apply elem_of_cons in Hin as [->|Hin]; [done|]). by apply elem_of_nil in Hin.
Qed.

Lemma length_omap_le {A B} (f : A -> option B) (l : list A) :
  (length (omap f l) <= length l)%nat.
Proof. induction l as [|x l IH]; [done|]. cbn. destruct (f x); cbn; lia. Qed.

Lemma length_remove_dups_le `{EqDecision A} (l : list A) :
  (length (remove_dups l) <= length l)%nat.
Proof. induction l as [|x l IH]; [done|]. cbn. case_match; cbn; lia. Qed.

(** X14: The counters of [getTaskStats] fit together: active tasks are the
    to-do and in-progress ones, active and completed tasks together never
    exceed the total and make up the total when the store keeps its schema
    and every task of the caller has a status, and there are no more
    students than tasks.  Only tasks the caller created are counted. *)
Theorem getTaskStats_consistent actor s :
  snd (getTaskStats actor s) = s
  ∧ ∃ st, reply_data (fst (getTaskStats actor s)) = Some st
    ∧ stats_totalTasks st = length (filter (λ t, created_by t = user_id actor) (tasks s))
    ∧ stats_totalActive st = (stats_todo st + stats_pendingReview st)%nat
    ∧ (stats_totalActive st + stats_completed st <= stats_totalTasks st)%nat
    ∧ (stats_totalStudents st <= stats_totalTasks st)%nat
    ∧ (schema_ok s = true ->
       Forall (λ t, created_by t = user_id actor -> status t ≠ None) (tasks s) ->
       (stats_totalActive st + stats_completed st)%nat = stats_totalTasks st).
Proof.
  unfold getTaskStats. split; [done|]. eexists. split; [done|]. cbn.
  set (mine := filter (λ t, created_by t = user_id actor) (tasks s)).
  destruct (count_status_sum mine) as [Hle Heq].
  split; [done|]. split; [done|]. split; [lia|]. split.
  - etrans; [apply length_remove_dups_le|apply length_omap_le].
  - intros Hschema Hstatus. rewrite <- Heq; [lia|].
    apply Forall_forall. intros t [Hmine Ht]%list_elem_of_filter. split.
    + rewrite Forall_forall in Hstatus. by apply Hstatus.
    + pose proof (schema_task_row_ok s t Hschema Ht) as Hrow.
      unfold task_row_ok in Hrow. rewrite !andb_true_iff in Hrow. tauto.
Qed.

(** ** Classes and their members *)

Lemma filter_none_all {A} (P : A -> Prop) `{∀ x, Decision (P x)} (l : list A) :
  filter P l = [] -> filter (λ x, ¬ P x) l = l.
Proof.
  induction l as [|x l IH]; [done|]. destruct (decide (P x)).
  - by rewrite filter_cons_True.
  - rewrite filter_cons_False by done. intros Hl.
    rewrite filter_cons_True by done. by rewrite IH.
Qed.

Lemma filter_nothing {A} (P : A -> Prop) `{∀ x, Decision (P x)} (l : list A) :
  (∀ x, ¬ P x) -> filter P l = [].
Proof.
  intros HP. induction l as [|x l IH]; [done|]. by rewrite filter_cons_False.
Qed.

Lemma filter_nothing_in {A} (P : A -> Prop) `{∀ x, Decision (P x)} (l : list A) :
  (∀ x, x ∈ l -> ¬ P x) -> filter P l = [].
Proof.
  induction l as [|x l IH]; intros HP; [done|].
  rewrite filter_cons_False by (apply HP; left). apply IH. intros y Hy. apply HP. by right.
Qed.

Lemma single_data {A} (l : list A) x : data (single l) = Some x -> l = [x].
Proof. destruct l as [|y [|z l]]; cbn; congruence. Qed.

Lemma maybeSingle_data {A} (l : list A) x : data (maybeSingle l) = Some x -> l = [x].
Proof. destruct l as [|y [|z l]]; cbn; congruence. Qed.

(** What a successful [joinClass] has done. *)
Lemma joinClass_accepted actor invite s :
  code (fst (joinClass actor invite s)) = 200%nat ->
  ∃ c cls m,
    or_null invite = Some c
    ∧ classes_by_invite_code s (trim c) = [cls]
    ∧ teacher_id cls ≠ user_id actor
    ∧ member_row_ok s m = true
    ∧ member_class_id m = class_id cls ∧ member_user_id m = user_id actor
    ∧ body (fst (joinClass actor invite s)) = ClassBody cls
    ∧ snd (joinClass actor invite s) = set_class_members (λ l, (l ++ [m])%list) s.
Proof.
  unfold joinClass. destruct (or_null invite) as [c|]; [|done].
  destruct (data (single _)) as [cls|] eqn:Hcls; [|done]. apply single_data in Hcls.
  destruct (error _); [done|]. case_bool_decide as Ht; [done|].
  destruct (data (maybeSingle _)); [done|].
  unfold insert_member. destruct (member_row_ok s _) eqn:Hrow; [|done].
  intros _. by eexists c, cls, _.
Qed.

(** What a successful [removeMember] has done. *)
Lemma removeMember_accepted actor classId memberId s :
  code (fst (removeMember actor classId memberId s)) = 200%nat ->
  ∃ cls, classes_by_id s classId = [cls]
    ∧ (teacher_id cls = user_id actor ∨ user_role actor = admin)
    ∧ snd (removeMember actor classId memberId s)
      = set_class_members
          (filter (λ m, ¬ (member_class_id m = classId ∧ member_user_id m = memberId))) s.
Proof.
  unfold removeMember. destruct (data (single _)) as [cls|] eqn:Hcls; [|done].
  apply single_data in Hcls.
  destruct (decide (teacher_id cls = user_id actor)) as [Ht|Ht].
  - rewrite (bool_decide_false (teacher_id cls ≠ _)) by (by intros ?). cbn.
    intros _. exists cls. by eauto.
  - rewrite (bool_decide_true (teacher_id cls ≠ _)) by done.
    destruct (decide (user_role actor = admin)) as [Hr|Hr].
    + rewrite (bool_decide_false (user_role actor ≠ _)) by (by intros ?). cbn.
      intros _. exists cls. by eauto.
    + by rewrite (bool_decide_true (user_role actor ≠ _)) by done.
Qed.

Lemma removeMember_by_owner actor classId memberId s cls :
  classes_by_id s classId = [cls] ->
  teacher_id cls = user_id actor ∨ user_role actor = admin ->
  removeMember actor classId memberId s
  = (mkResponse 200 true (Some "Member removed from class") NoBody,
     set_class_members
       (filter (λ m, ¬ (member_class_id m = classId ∧ member_user_id m = memberId))) s).
Proof.
  intros Hcls Hown. unfold removeMember. rewrite Hcls. cbn.
  destruct Hown as [Hown|Hown].
  - by rewrite (bool_decide_false (teacher_id cls ≠ _)) by (by intros ?).
  - rewrite (bool_decide_false (user_role actor ≠ _)) by (by intros ?).
    by rewrite andb_false_r.
Qed.

(** X19: A successful [removeMember] deletes the membership of that user in
    that class and no other row; tasks, also those assigned to the removed
    user, and notifications stay; removing again changes nothing more. *)
Theorem removeMember_effect actor classId memberId s :
  code (fst (removeMember actor classId memberId s)) = 200%nat ->
  membership (snd (removeMember actor classId memberId s)) classId memberId = []
  ∧ (∀ m, m ∈ class_members (snd (removeMember actor classId memberId s))
          <-> m ∈ class_members s
              ∧ ¬ (member_class_id m = classId ∧ member_user_id m = memberId))
  ∧ users (snd (removeMember actor classId memberId s)) = users s
  ∧ classes (snd (removeMember actor classId memberId s)) = classes s
  ∧ tasks (snd (removeMember actor classId memberId s)) = tasks s
  ∧ notifications (snd (removeMember actor classId memberId s)) = notifications s
  ∧ removeMember actor classId memberId (snd (removeMember actor classId memberId s))
    = (mkResponse 200 true (Some "Member removed from class") NoBody,
       snd (removeMember actor classId memberId s)).
Proof.
  intros Hcode.
  destruct (removeMember_accepted _ _ _ _ Hcode) as (cls & Hcls & Hown & ->).
  split; [|split; [|split; [done|split; [done|split; [done|split; [done|]]]]]].
  - unfold membership. cbn. rewrite list_filter_filter.
    apply filter_nothing. tauto.
  - intros m. cbn. rewrite list_elem_of_filter. tauto.
  - rewrite (removeMember_by_owner actor classId memberId _ cls) by done.
    apply (f_equal (pair _)). destruct s as [us cs ms ts ns o].
    unfold set_class_members. cbn. apply (f_equal (λ l, mkStore us cs l ts ns o)).
    rewrite list_filter_filter. apply list_filter_iff. tauto.
Qed.

(** X20: Joining and being removed again is a round trip: when the teacher of
    the class, or an administrator, removes the member who has just joined,
    the store is the one before the join. *)
Theorem join_then_remove_restores student_ staff invite s cls :
  schema_ok s = true ->
  code (fst (joinClass student_ invite s)) = 200%nat ->
  body (fst (joinClass student_ invite s)) = ClassBody cls ->
  teacher_id cls = user_id staff ∨ user_role staff = admin ->
  removeMember staff (class_id cls) (user_id student_) (snd (joinClass student_ invite s))
  = (mkResponse 200 true (Some "Member removed from class") NoBody, s).
Proof.
  intros Hok Hcode Hbody Hown.
  destruct (joinClass_accepted _ _ _ Hcode)
    as (c & cls' & m & Hc & Hcls & Ht & Hrow & Hmc & Hmu & Hb & Hs).
  rewrite Hb in Hbody. injection Hbody as ->. rewrite Hs.
  apply filter_key_singleton in Hcls as [Hin _].
  rewrite (removeMember_by_owner staff (class_id cls) (user_id student_) _ cls).
  - apply (f_equal (pair _)). destruct s as [us cs ms ts ns o].
    unfold set_class_members. cbn. apply (f_equal (λ l, mkStore us cs l ts ns o)).
    rewrite filter_app, filter_cons_False, filter_nil, app_nil_r by tauto.
    apply filter_none_all.
    unfold member_row_ok in Hrow. rewrite !andb_true_iff in Hrow.
    destruct Hrow as [_ Hrow]. apply bool_decide_eq_true in Hrow.
    by rewrite Hmc, Hmu in Hrow.
  - by apply (classes_by_id_unique s cls).
  - done.
Qed.

(** X21: Membership decides what a student can open: right after a successful
    [joinClass] the student can fetch the class with [getClass], and right
    after a successful [removeMember] the removed student gets 403. *)
Theorem membership_controls_access actor staff invite classId s cls :
  schema_ok s = true -> user_role actor = student ->
  (code (fst (joinClass actor invite s)) = 200%nat ->
   body (fst (joinClass actor invite s)) = ClassBody cls ->
   code (fst (getClass actor (class_id cls) (snd (joinClass actor invite s)))) = 200%nat)
  ∧ (code (fst (removeMember staff classId (user_id actor) s)) = 200%nat ->
     code (fst (getClass actor classId
                  (snd (removeMember staff classId (user_id actor) s)))) = 403%nat).
Proof.
  intros Hok Hrole. split.
  - intros Hcode Hbody.
    destruct (joinClass_accepted _ _ _ Hcode)
      as (c & cls' & m & Hc & Hcls & Ht & Hrow & Hmc & Hmu & Hb & Hs).
    rewrite Hb in Hbody. injection Hbody as ->. rewrite Hs.
    apply filter_key_singleton in Hcls as [Hin _].
    unfold getClass.
    change (classes_by_id (set_class_members _ s) (class_id cls))
      with (classes_by_id s (class_id cls)).
    rewrite (classes_by_id_unique s cls Hok Hin). cbn [data error single].
    rewrite (bool_decide_false (user_role actor = teacher)) by (by rewrite Hrole).
    rewrite (bool_decide_true (user_role actor = student)) by done. cbn [andb].
    assert (membership (set_class_members (λ l, (l ++ [m])%list) s) (class_id cls)
              (user_id actor) = [m]) as ->; [|done].
    unfold membership. destruct s as [us cs ms ts ns o]. cbn.
    rewrite filter_app, filter_cons_True, filter_nil by done.
    unfold member_row_ok in Hrow. rewrite !andb_true_iff in Hrow.
    destruct Hrow as [_ Hrow]. apply bool_decide_eq_true in Hrow.
    rewrite Hmc, Hmu in Hrow. unfold membership in Hrow. cbn in Hrow. by rewrite Hrow.
  - intros Hcode.
    destruct (removeMember_accepted _ _ _ _ Hcode) as (cls' & Hcls & _ & ->).
    rewrite (getClass_denies_non_member actor classId _ cls'); [done|done|done|].
    unfold membership. cbn. rewrite list_filter_filter.
    apply filter_nothing. tauto.
Qed.

(** ** Creating and renaming a class *)

Lemma insert_class_Some c s row s' :
  insert_class c s = Some (row, s') ->
  row = mkClass (gen_id (class_id <$> classes s)) (class_name c) (class_description c)
          (invite_code c) (teacher_id c)
  ∧ class_row_ok s row = true
  ∧ s' = mkStore (users s) (classes s ++ [row])%list (class_members s) (tasks s)
           (notifications s) (notifications_origin s).
Proof.
  unfold insert_class. case_match eqn:Hrow; [|done]. by intros [= <- <-].
Qed.

(** X22: A class that [createClass] has created belongs to the caller, carries
    the trimmed, non-blank name, has an invite code no other class has (the
    first draw, or the second when the first is taken), an id of its own and
    no members; it is appended to the classes and nothing else changes. *)
Theorem createClass_success actor name description draw1 draw2 s :
  schema_ok s = true ->
  code (fst (createClass actor name description draw1 draw2 s)) = 201%nat ->
  ∃ n cls,
    name = Val n
    ∧ body (fst (createClass actor name description draw1 draw2 s)) = ClassBody cls
    ∧ snd (createClass actor name description draw1 draw2 s)
      = mkStore (users s) (classes s ++ [cls])%list (class_members s) (tasks s)
          (notifications s) (notifications_origin s)
    ∧ teacher_id cls = user_id actor
    ∧ class_name cls = trim n ∧ class_name cls ≠ EmptyString
    ∧ invite_code cls = (if bool_decide (draw1 ∈ invite_code <$> classes s)
                         then draw2 else draw1)
    ∧ (invite_code cls ∉ invite_code <$> classes s)
    ∧ (class_id cls ∉ class_id <$> classes s)
    ∧ members_of (snd (createClass actor name description draw1 draw2 s)) (class_id cls)
      = [].
Proof.
  intros Hok. unfold createClass.
  destruct name as [| |n]; [done|done|]. cbn [or_null].
  destruct (String.eqb n EmptyString); [done|].
  destruct (String.eqb (trim n) EmptyString) eqn:Hblank; [done|].
  destruct (insert_class _ s) as [[cls s']|] eqn:Hins; [|done].
  apply insert_class_Some in Hins as (Hcls & Hrow & ->). cbn in Hcls.
  intros _. exists n, cls. cbn [fst snd body].
  unfold class_row_ok in Hrow. rewrite !andb_true_iff in Hrow.
  destruct Hrow as [[_ _] Hfree]. apply bool_decide_eq_true in Hfree.
  assert (Hcode : invite_code cls ∉ invite_code <$> classes s).
  { intros (c & Heq & Hc)%list_elem_of_fmap.
    pose proof (classes_by_invite_code_unique s c Hok Hc) as Hone.
    rewrite <- Heq, Hfree in Hone. done. }
  assert (Hid : class_id cls ∉ class_id <$> classes s).
  { rewrite Hcls. cbn. apply gen_id_fresh. }
  split; [done|]. split; [done|]. split; [done|]. split; [by rewrite Hcls|].
  split; [by rewrite Hcls|]. split.
  { rewrite Hcls. cbn. intros Hempty. by rewrite Hempty in Hblank. }
  split; [|split; [done|split; [done|]]].
  - rewrite Hcls. cbn.
    destruct (decide (draw1 ∈ invite_code <$> classes s)) as [Hused|Hfresh].
    + rewrite bool_decide_true by done.
      apply list_elem_of_fmap in Hused as (c & -> & Hc).
      by rewrite (classes_by_invite_code_unique s c Hok Hc).
    + rewrite bool_decide_false by done.
      unfold classes_by_invite_code. by rewrite filter_key_absent.
  - unfold members_of. cbn [class_members].
    apply filter_nothing_in. intros m Hm Hmc.
    destruct (proj1 (schema_ok_schema s) Hok) as [_ _ _ _ _ _ Hrefs _ _ _ _ _ _ _ _].
    rewrite Forall_forall in Hrefs. specialize (Hrefs m Hm).
    apply andb_true_iff in Hrefs as [Hhas _]. apply bool_decide_eq_true in Hhas.
    apply Hid. by rewrite <- Hmc.
Qed.

(** X23: [createClass] refuses a missing, empty or blank name with 400 and
    writes nothing; [updateClass] has no such check: the owner of a class
    can rename it to a blank name, which is stored as the empty string. *)
Theorem blank_name_refused_on_create_only actor n description draw1 draw2 id s cls :
  trim n = EmptyString ->
  createClass actor (Val n) description draw1 draw2 s
  = (failure 400 "Class name is required", s)
  ∧ (classes_by_id s id = [cls] -> teacher_id cls = user_id actor ->
     ∃ cls', fst (updateClass actor id (Val n) Undefined s)
             = mkResponse 200 true (Some "Class updated") (ClassBody cls')
       ∧ class_name cls' = EmptyString
       ∧ classes_by_id (snd (updateClass actor id (Val n) Undefined s)) id = [cls']).
Proof.
  intros Hblank. split.
  - unfold createClass. cbn. destruct (String.eqb n EmptyString); [done|].
    by rewrite Hblank.
  - intros Hcls Hown. unfold updateClass. rewrite Hcls. cbn [data single].
    rewrite (bool_decide_false (teacher_id cls ≠ _)) by (by intros ?). cbn [andb defined negb orb].
    set (rows := (λ c, if bool_decide (class_id c = id)
                       then patch_class (Val n) Undefined c else c) <$> classes s).
    assert (Hrows : filter (λ c, class_id c = id) rows
                    = [patch_class (Val n) Undefined cls]).
    { unfold rows. unfold classes_by_id in Hcls. revert Hcls.
      generalize (classes s). intros l. revert cls Hown.
      induction l as [|c l IH]; intros cls Hown; [done|]. cbn [fmap list_fmap].
      destruct (decide (class_id c = id)) as [Hc|Hc].
      - rewrite filter_cons_True by done. intros [= -> Hl].
        rewrite bool_decide_true by done. rewrite filter_cons_True by done.
        f_equal. clear IH. induction l as [|c l IH]; [done|]. cbn [fmap list_fmap].
        destruct (decide (class_id c = id)) as [Hc'|Hc'].
        + by rewrite filter_cons_True in Hl.
        + rewrite filter_cons_False in Hl by done.
          rewrite bool_decide_false, filter_cons_False by done. auto.
      - rewrite filter_cons_False by done. intros Hl.
        rewrite bool_decide_false, filter_cons_False by done. by apply IH. }
    assert (Hlen : class_patch_ok (Val n) Undefined = true)
      by (unfold class_patch_ok; by rewrite Hblank).
    rewrite Hlen. unfold classes_by_id at 1. cbn [classes]. rewrite Hrows. cbn.
    eexists. split; [done|]. split; [exact Hblank|].
    unfold classes_by_id. by rewrite Hrows.
Qed.

(** X24: [updateClass] never adds or removes a class and never changes the id,
    the invite code or the teacher of one; classes with another id, and all
    users, memberships, tasks and notifications, stay as they are. *)
Theorem updateClass_keeps_identity actor id name description s :
  class_identity <$> classes (snd (updateClass actor id name description s))
  = class_identity <$> classes s
  ∧ Forall2 (λ c c', class_id c ≠ id -> c' = c)
      (classes s) (classes (snd (updateClass actor id name description s)))
  ∧ users (snd (updateClass actor id name description s)) = users s
  ∧ class_members (snd (updateClass actor id name description s)) = class_members s
  ∧ tasks (snd (updateClass actor id name description s)) = tasks s
  ∧ notifications (snd (updateClass actor id name description s)) = notifications s.
Proof.
  assert (Hsame : Forall2 (λ c c', class_id c ≠ id -> c' = c) (classes s) (classes s)).
  { by apply Forall_Forall2_diag, Forall_forall. }
  unfold updateClass. repeat case_match; cbn [snd]; try done.
  all: split; [apply updateClass_rows_identity|]; split; [|done].
  all: cbn [classes]; apply Forall2_fmap_r, Forall_Forall2_diag, Forall_forall.
  all: intros ? _ Hne; by rewrite bool_decide_false.
Qed.

(** ** Which classes a caller sees *)

Lemma membership_nonempty s cid uid :
  membership s cid uid ≠ []
  <-> cid ∈ member_class_id <$> filter (λ m, member_user_id m = uid) (class_members s).
Proof.
  unfold membership. split.
  - intros Hne. destruct (filter _ _) as [|m l] eqn:E; [done|].
    assert (Hm : m ∈ filter (λ m, member_class_id m = cid ∧ member_user_id m = uid)
                   (class_members s)) by (rewrite E; left).
    apply list_elem_of_filter in Hm as [[<- Hu] Hm].
    apply list_elem_of_fmap_2. by apply list_elem_of_filter.
  - intros (m & -> & [Hu Hm]%list_elem_of_filter)%list_elem_of_fmap Hnone.
    assert (Hin : m ∈ filter (λ m', member_class_id m' = member_class_id m
                                    ∧ member_user_id m' = uid) (class_members s))
      by (by apply list_elem_of_filter).
    rewrite Hnone in Hin. by apply elem_of_nil in Hin.
Qed.

Lemma getClasses_listing actor s :
  snd (getClasses actor s) = s
  ∧ ∃ l, fst (getClasses actor s) = mkReply 200 true None (Some l)
    ∧ ∀ c n, (c, n) ∈ l
        <-> c ∈ classes s ∧ n = length (members_of s (class_id c))
            ∧ match user_role actor with
              | admin => True
              | teacher => teacher_id c = user_id actor
              | student => membership s (class_id c) (user_id actor) ≠ []
              end.
Proof.
  unfold getClasses. split; [by repeat case_match|].
  destruct (user_role actor).
  - destruct (member_class_id <$> _) as [|i ids] eqn:Hids.
    + eexists. split; [done|]. intros c n. split; [by intros ?%elem_of_nil|].
      intros (_ & _ & Hm). apply membership_nonempty in Hm. rewrite Hids in Hm.
      by apply elem_of_nil in Hm.
    + eexists. split; [done|]. intros c n. rewrite <- Hids.
      rewrite list_elem_of_fmap. split.
      * intros (c' & [= <- ->] & Hc). rewrite elem_of_reverse in Hc.
        apply list_elem_of_filter in Hc as [Hin Hc]. split; [done|]. split; [done|].
        by apply membership_nonempty.
      * intros (Hc & -> & Hm). exists c. split; [done|]. rewrite elem_of_reverse.
        apply list_elem_of_filter. split; [|done]. by apply membership_nonempty.
  - eexists. split; [done|]. intros c n. rewrite list_elem_of_fmap. split.
    + intros (c' & [= <- ->] & Hc). rewrite elem_of_reverse in Hc.
      apply list_elem_of_filter in Hc as [Ht Hc]. done.
    + intros (Hc & -> & Ht). exists c. split; [done|]. rewrite elem_of_reverse.
      by apply list_elem_of_filter.
  - eexists. split; [done|]. intros c n. rewrite list_elem_of_fmap. split.
    + intros (c' & [= <- ->] & Hc). by rewrite elem_of_reverse in Hc.
    + intros (Hc & -> & _). exists c. split; [done|]. by rewrite elem_of_reverse.
Qed.

(** X25: [getClasses] lists a class exactly when it is in the store and the
    caller is an administrator, its teacher, or a student with a membership
    row in it; the number sent with it is the number of its membership
    rows; the classes come newest first, none more often than the table
    has it.  Nothing is written. *)
Theorem getClasses_visible actor s :
  snd (getClasses actor s) = s
  ∧ ∃ l, fst (getClasses actor s) = mkReply 200 true None (Some l)
    ∧ (∀ c n, (c, n) ∈ l
         <-> c ∈ classes s ∧ n = length (members_of s (class_id c))
             ∧ match user_role actor with
               | admin => True
               | teacher => teacher_id c = user_id actor
               | student => membership s (class_id c) (user_id actor) ≠ []
               end)
    ∧ reverse (fst <$> l) `sublist_of` classes s.
Proof.
  destruct (getClasses_listing actor s) as (Hs & l & Hl & Hvis).
  split; [done|]. exists l. split; [done|]. split; [done|].
  assert (Hrows : ∀ x : list Class,
            reverse (fst <$> ((λ cls, (cls, length (members_of s (class_id cls))))
                              <$> reverse x)) = x).
  { intros x. rewrite <- list_fmap_compose.
    rewrite (list_fmap_ext _ id (reverse x)) by (intros; reflexivity).
    by rewrite list_fmap_id, reverse_involutive. }
  unfold getClasses in Hl. destruct (user_role actor).
  - destruct (member_class_id <$> _); injection Hl as <-.
    + apply sublist_nil_l.
    + rewrite Hrows. apply sublist_filter.
  - injection Hl as <-. rewrite Hrows. apply sublist_filter.
  - injection Hl as <-. by rewrite Hrows.
Qed.

(** X26: The two class readers agree: on a store that satisfies its schema,
    [getClass] opens a class for a caller exactly when that caller's
    [getClasses] lists it, and it shows as many members as the list
    counted. *)
Theorem getClass_opens_what_getClasses_lists actor id s :
  schema_ok s = true ->
  ∃ l, reply_data (fst (getClasses actor s)) = Some l
    ∧ (code (fst (getClass actor id s)) = 200%nat
       <-> ∃ c n, (c, n) ∈ l ∧ class_id c = id)
    ∧ ∀ c n, (c, n) ∈ l -> class_id c = id ->
        ∃ members, body (fst (getClass actor id s)) = ClassWithMembers c members
                   ∧ length members = n.
Proof.
  intros Hok. destruct (getClasses_listing actor s) as (_ & l & Hl & Hvis).
  exists l. rewrite Hl. split; [done|].
  assert (Hopen : ∀ c n, (c, n) ∈ l -> class_id c = id ->
            ∃ members,
              fst (getClass actor id s)
              = mkResponse 200 true None (ClassWithMembers c members)
              ∧ length members = n).
  { intros c n (Hc & -> & Hrole)%Hvis <-. unfold getClass.
    rewrite (classes_by_id_unique s c Hok Hc). cbn [data error single].
    destruct (user_role actor).
    - rewrite (bool_decide_false (student = teacher)) by done.
      rewrite (bool_decide_true (student = student)) by done. cbn [andb].
      destruct (membership s (class_id c) (user_id actor)) as [|m ms] eqn:Hm; [done|].
      assert (Hin : m ∈ class_members s ∧ member_class_id m = class_id c
                    ∧ member_user_id m = user_id actor).
      { assert (Hx : m ∈ membership s (class_id c) (user_id actor)) by (rewrite Hm; left).
        apply list_elem_of_filter in Hx. tauto. }
      destruct Hin as (Hin & Hmc & Hmu).
      pose proof (membership_unique s m Hok Hin) as Hone.
      rewrite Hmc, Hmu, Hm in Hone. injection Hone as ->. cbn.
      eexists. split; [done|]. by rewrite length_fmap.
    - rewrite (bool_decide_true (teacher = teacher)) by done.
      rewrite (bool_decide_false (teacher_id c ≠ _)) by (by intros ?).
      rewrite (bool_decide_false (teacher = student)) by done. cbn.
      eexists. split; [done|]. by rewrite length_fmap.
    - rewrite (bool_decide_false (admin = teacher)) by done.
      rewrite (bool_decide_false (admin = student)) by done. cbn.
      eexists. split; [done|]. by rewrite length_fmap. }
  split.
  - split.
    + unfold getClass. destruct (data (single _)) as [c|] eqn:Hc; [|done].
      apply single_data in Hc. apply filter_key_singleton in Hc as [Hc Hid].
      destruct (error _); [done|]. intros Hcode.
      exists c, (length (members_of s (class_id c))). split; [|done].
      apply Hvis. split; [done|]. split; [done|].
      destruct (user_role actor).
      * rewrite (bool_decide_false (student = teacher)) in Hcode by done.
        rewrite (bool_decide_true (student = student)) in Hcode by done.
        cbn [andb] in Hcode. rewrite Hid. intros Hnone. by rewrite Hnone in Hcode.
      * rewrite (bool_decide_true (teacher = teacher)) in Hcode by done.
        cbn [andb] in Hcode.
        destruct (decide (teacher_id c = user_id actor)); [done|].
        by rewrite bool_decide_true in Hcode by done.
      * done.
    + intros (c & n & Hin & Hid).
      destruct (Hopen c n Hin Hid) as (members & -> & _). done.
  - intros c n Hin Hid. destruct (Hopen c n Hin Hid) as (members & -> & Hlen).
    by exists members.
Qed.

(** ** Invite codes and white space *)

Lemma trim_start_unfold s :
  trim_start s = match leading_space s with
                 | Some r => trim_start r
                 | None => s
                 end.
Proof.
  destruct s as [|a [|b [|c s3]]]; cbn [trim_start leading_space]; [done|..].
  - by destruct (space (code1 a)).
  - destruct (space (code1 a)); [done|]. by destruct (space (code2 a b)).
  - destruct (space (code1 a)); [done|]. destruct (space (code2 a b)); [done|].
    by destruct (space (code3 a b c)).
Qed.

Lemma leading_space_length s r :
  leading_space s = Some r -> (String.length r < String.length s)%nat.
Proof.
  destruct s as [|a [|b [|c s3]]]; cbn [leading_space]; [done|..].
  all: repeat case_match; intros; simplify_eq/=; lia.
Qed.

Lemma append_cons a s t : String a s ++ t = String a (s ++ t).
Proof. done. Qed.

Lemma append_nil t : EmptyString ++ t = t.
Proof. done. Qed.

Lemma leading_space_app s r t :
  leading_space s = Some r -> leading_space (s ++ t) = Some (r ++ t).
Proof.
  destruct s as [|a [|b [|c s3]]]; rewrite ?append_cons, ?append_nil;
    cbn [leading_space]; [done|..].
  - destruct (space (code1 a)); [|done]. by intros [= <-].
  - destruct (space (code1 a)); [by intros [= <-]|].
    destruct (space (code2 a b)); [|done]. by intros [= <-].
  - destruct (space (code1 a)); [by intros [= <-]|].
    destruct (space (code2 a b)); [by intros [= <-]|].
    destruct (space (code3 a b c)); [|done]. by intros [= <-].
Qed.

Lemma string_length_ind (P : string -> Prop) :
  (∀ s, (∀ r, (String.length r < String.length s)%nat -> P r) -> P s) -> ∀ s, P s.
Proof.
  intros Hstep s. remember (String.length s) as n eqn:Hn.
  revert s Hn. induction (lt_wf n) as [n _ IH]. intros s ->.
  apply Hstep. intros r Hr. by apply (IH (String.length r)).
Qed.

Lemma trim_start_no_space s : leading_space (trim_start s) = None.
Proof.
  induction s as [s IH] using string_length_ind. rewrite trim_start_unfold.
  destruct (leading_space s) as [r|] eqn:E; [|done].
  apply IH. by apply leading_space_length.
Qed.

Lemma trim_start_app_blank p w :
  trim_start p = EmptyString -> trim_start (p ++ w) = trim_start w.
Proof.
  induction p as [p IH] using string_length_ind. rewrite trim_start_unfold.
  destruct (leading_space p) as [r|] eqn:E.
  - intros Hr. rewrite (trim_start_unfold (p ++ w)), (leading_space_app p r w E).
    apply IH; [by apply leading_space_length|done].
  - by intros ->.
Qed.

Lemma trim_end_prefix s :
  ∃ w, s = trim_end s ++ w ∧ trim_start w = EmptyString.
Proof.
  induction s as [|a r (w & Hr & Hw)]; [by exists EmptyString|].
  cbn [trim_end]. destruct (String.eqb_spec (trim_start (String a r)) EmptyString) as [Hb|Hb].
  - by exists (String a r).
  - exists w. split; [|done]. rewrite append_cons. by rewrite <- Hr.
Qed.

Lemma trim_end_blank s : trim_start (trim_end s) = EmptyString -> trim_start s = EmptyString.
Proof.
  intros Hb. destruct (trim_end_prefix s) as (w & Hs & Hw).
  rewrite Hs. by rewrite trim_start_app_blank.
Qed.

Lemma trim_end_idemp s : trim_end (trim_end s) = trim_end s.
Proof.
  induction s as [|a r IH]; [done|]. cbn [trim_end].
  destruct (String.eqb_spec (trim_start (String a r)) EmptyString) as [Hb|Hb]; [done|].
  cbn [trim_end].
  destruct (String.eqb_spec (trim_start (String a (trim_end r))) EmptyString) as [Hb'|_].
  - exfalso. apply Hb, trim_end_blank. cbn [trim_end].
    by destruct (String.eqb_spec (trim_start (String a r)) EmptyString).
  - by rewrite IH.
Qed.

Lemma trim_start_trim_end s :
  leading_space s = None -> trim_start (trim_end s) = trim_end s.
Proof.
  intros Hs. rewrite trim_start_unfold.
  destruct (leading_space (trim_end s)) as [r|] eqn:E; [|done].
  destruct (trim_end_prefix s) as (w & Hw & _).
  apply (leading_space_app _ _ w) in E. rewrite <- Hw in E. congruence.
Qed.

(** [trim] leaves no white space at either end: trimming again changes
    nothing. *)
Lemma trim_idemp s : trim (trim s) = trim s.
Proof.
  unfold trim. rewrite trim_start_trim_end by apply trim_start_no_space.
  apply trim_end_idemp.
Qed.

(** X27: White space around an invite code does not matter: a code sent with
    leading or trailing blanks is answered like the bare code, and the
    store after it is the same. *)
Theorem joinClass_ignores_padding actor c s :
  trim c ≠ EmptyString ->
  joinClass actor (Val c) s = joinClass actor (Val (trim c)) s.
Proof.
  intros Hne. unfold joinClass. cbn [or_null].
  destruct (String.eqb_spec c EmptyString) as [->|_]; [done|].
  destruct (String.eqb_spec (trim c) EmptyString) as [|_]; [done|].
  by rewrite trim_idemp.
Qed.

(** * The classroom, worked through *)

Import Scenario.

(** C1: the scan is not idempotent on a store that already holds two overdue
    notifications for the same task and creator.  The duplicate check asks
    for at most one row; with two it gets an error and no data, so the scan
    notifies again, and again on the next call. *)
Theorem overdue_scan_repeats_on_duplicates :
  schema_ok notified_twice = true
  ∧ overdue_notifications notified_twice essay = [overdue_note "n1"; overdue_note "n2"]
  ∧ count_of (fst (checkOverdueTasks "2024-02-01" notified_twice)) = 1%nat
  ∧ count_of (fst (checkOverdueTasks "2024-02-01"
                     (snd (checkOverdueTasks "2024-02-01" notified_twice)))) = 1%nat
  ∧ length (notifications
              (snd (checkOverdueTasks "2024-02-01"
                      (snd (checkOverdueTasks "2024-02-01" notified_twice)))))
    = S (length (notifications (snd (checkOverdueTasks "2024-02-01" notified_twice)))).
Proof. vm_compute. done. Qed.

(** The same scan on the store without notifications: one notification, then
    none. *)
Example overdue_scan_school :
  count_of (fst (checkOverdueTasks "2024-02-01" school)) = 1%nat
  ∧ notifications (snd (checkOverdueTasks "2024-02-01" school)) = [overdue_note "0"]
  ∧ checkOverdueTasks "2024-02-01" (snd (checkOverdueTasks "2024-02-01" school))
    = (mkResponse 200 true
         (Some "Checked 1 overdue tasks, sent 0 new notifications") (CountBody 0),
       snd (checkOverdueTasks "2024-02-01" school)).
Proof. vm_compute. done. Qed.

(** The school satisfies both hypotheses of the idempotence theorem. *)
Example overdue_scan_school_idempotent :
  count_of (fst (checkOverdueTasks "2024-02-01"
                   (snd (checkOverdueTasks "2024-02-01" school)))) = 0%nat
  ∧ snd (checkOverdueTasks "2024-02-01" (snd (checkOverdueTasks "2024-02-01" school)))
    = snd (checkOverdueTasks "2024-02-01" school).
Proof.
  assert (schema_ok school = true) as Hok by (vm_compute; reflexivity).
  assert (overdue_deduplicated school = true) as Hdedup by (vm_compute; reflexivity).
  by destruct (checkOverdueTasks_idempotent "2024-02-01" school Hok Hdedup)
    as (_ & _ & _ & _ & ? & ?).
Qed.

(** C2, counterexample: S1 sends a new title together with the status; the
    call succeeds, the status is written and the title is not. *)
Lemma student_extra_field_accepted :
  user_role S1 = student ∧ assignee_id essay = Some (user_id S1)
  ∧ b_title retitled = Val "Changed"
  ∧ code (fst (updateTask S1 "k1" retitled school)) = 200%nat
  ∧ error_kind (fst (updateTask S1 "k1" retitled school)) = None
  ∧ tasks_by_id (snd (updateTask S1 "k1" retitled school)) "k1"
    = [with_status (Some "completed") essay].
Proof. vm_compute. done. Qed.

Lemma student_update_reads_only_status_witness :
  schema_ok school = true ∧ essay ∈ tasks school
  ∧ user_role S1 = student ∧ assignee_id essay = Some (user_id S1)
  ∧ updateTask S1 "k1" title_only school
    = (failure 400 "Students can only update task status", school)
  ∧ updateTask S1 "k1" retitled school
    = updateTask S1 "k1" (only_status (Val "completed")) school.
Proof.
  assert (schema_ok school = true) as Hok by (vm_compute; reflexivity).
  assert (essay ∈ tasks school) as Hin by left.
  destruct (student_update_reads_only_status S1 school essay title_only
              Hok Hin eq_refl eq_refl) as (H1 & _ & _).
  destruct (student_update_reads_only_status S1 school essay retitled
              Hok Hin eq_refl eq_refl) as (_ & _ & H3).
  split; [exact Hok|]. split; [exact Hin|].
  split; [reflexivity|]. split; [reflexivity|].
  split; [exact (proj1 (H1 eq_refl))|exact H3].
Defined.

(** C3, counterexample: the quiz is in the store, but not among the tasks
    listed for the administrator, who created none; and an update without
    any key is refused for an administrator as for everyone. *)
Lemma admin_getTasks_omits_tasks_of_others :
  user_role A1 = admin ∧ quiz ∈ tasks school
  ∧ listed_tasks (fst (getTasks any_title A1 no_filters school)) = []
  ∧ total_of (fst (getTasks any_title A1 no_filters school)) = 0%nat
  ∧ updateTask A1 "k2" (only_status Undefined) school
    = (failure 400 "No fields to update", school).
Proof. split; [done|]. split; [by right; left|]. vm_compute. done. Qed.

Lemma admin_task_access_witness :
  schema_ok school = true ∧ quiz ∈ tasks school ∧ user_role A1 = admin
  ∧ getTask A1 "k2" school = (mkResponse 200 true None (TaskBody quiz), school)
  ∧ deleteTask A1 "k2" school
    = (mkResponse 200 true (Some "Task deleted successfully") NoBody,
       delete_task "k2" school)
  ∧ total_of (fst (getTasks any_title A1 no_filters school))
    = length (filter (λ x, created_by x = user_id A1) (tasks school)).
Proof.
  assert (schema_ok school = true) as Hok by (vm_compute; reflexivity).
  assert (quiz ∈ tasks school) as Hin by (right; left).
  destruct (admin_task_access A1 school quiz Hok Hin eq_refl)
    as (H1 & H2 & _ & _ & H5).
  split; [exact Hok|]. split; [exact Hin|]. split; [reflexivity|].
  split; [exact H1|]. split; [exact H2|].
  exact (H5 any_title 1%positive 10%positive).
Defined.

(** C4, counterexample: the quiz is already completed; S1 sets it to
    completed once more and T2 is notified once more. *)
Lemma completed_again_notifies_again :
  status quiz = Some "completed"
  ∧ code (fst (updateTask S1 "k2" (only_status (Val "completed")) school)) = 200%nat
  ∧ notifications_about school "task_completed" "t2" "k2" = []
  ∧ length (notifications_about
              (snd (updateTask S1 "k2" (only_status (Val "completed")) school))
              "task_completed" "t2" "k2") = 1%nat.
Proof. vm_compute. done. Qed.

Lemma completion_notice_follows_new_status_witness :
  schema_ok school = true ∧ essay ∈ tasks school
  ∧ user_role S1 = student ∧ assignee_id essay = Some (user_id S1)
  ∧ or_null (b_status retitled) = Some "completed"
  ∧ code (fst (updateTask S1 (task_id essay) retitled school)) = 200%nat
  ∧ ∃ n, notifications (snd (updateTask S1 (task_id essay) retitled school))
         = (notifications school ++ [n])%list
         ∧ n_type n = "task_completed" ∧ n_user_id n = created_by essay
         ∧ n_task_id n = Some (task_id essay).
Proof.
  assert (schema_ok school = true) as Hok by (vm_compute; reflexivity).
  assert (essay ∈ tasks school) as Hin by left.
  destruct (completion_notice_follows_new_status S1 school essay retitled
              "completed" Hok Hin eq_refl eq_refl eq_refl eq_refl)
    as [H _].
  split; [exact Hok|]. split; [exact Hin|].
  split; [reflexivity|]. split; [reflexivity|].
  split; [reflexivity|]. split; [vm_compute; reflexivity|].
  exact (H eq_refl).
Defined.

(** C5: S2 is a student and not a member of c1.  [getClass] refuses, but
    [getClassMembers], which looks at neither the caller nor the membership
    table, hands out the members of the class. *)
Theorem getClassMembers_answers_non_member :
  user_role S2 = student
  ∧ membership school "c1" (user_id S2) = []
  ∧ error_kind (fst (getClass S2 "c1" school)) = Some ForbiddenError
  ∧ getClassMembers S2 "c1" school
    = (mkResponse 200 true None (StudentsBody [Some S1]), school).
Proof. vm_compute. done. Qed.

(** C6, counterexample: S1 is already a member of c1 and joins again; the
    answer has status 400 like the one the teacher gets, which makes it a
    validation error and not a conflict.  An empty invite code, which no
    class matches, is a validation error too, not [NotFoundError]. *)
Lemma already_member_is_validation_error :
  membership school "c1" (user_id S1) = [mkMember "m1" "c1" "s1"]
  ∧ code (fst (joinClass S1 (Val "abcd1234") school)) = 400%nat
  ∧ code (fst (joinClass T1 (Val "abcd1234") school)) = 400%nat
  ∧ error_kind (fst (joinClass S1 (Val "abcd1234") school)) = Some ValidationError
  ∧ error_kind (fst (joinClass S1 (Val "abcd1234") school)) ≠ Some ConflictError
  ∧ classes_by_invite_code school EmptyString = []
  ∧ error_kind (fst (joinClass S2 (Val EmptyString) school)) = Some ValidationError.
Proof. vm_compute. repeat split; done. Qed.

Lemma joinClass_outcomes_witness :
  schema_ok school = true ∧ has_user school (user_id S2) = true
  ∧ (∃ m, member_class_id m = class_id c1 ∧ member_user_id m = user_id S2
          ∧ joinClass S2 (Val " abcd1234 ") school
            = (mkResponse 200 true
                 (Some ("Joined class " ++ dquote ++ class_name c1 ++ dquote
                        ++ " successfully"))
                 (ClassBody c1),
               set_class_members (λ l, (l ++ [m])%list) school))
  ∧ joinClass S1 (Val "abcd1234") school
    = (failure 400 "You are already a member of this class", school)
  ∧ joinClass S2 (Val "0000ffff") school
    = (failure 404 "Invalid invite code", school).
Proof.
  assert (schema_ok school = true) as Hok by (vm_compute; reflexivity).
  assert (c1 ∈ classes school) as Hc by left.
  destruct (joinClass_outcomes S2 (Val " abcd1234 ") school Hok eq_refl)
    as (_ & _ & Hjoin).
  destruct (Hjoin " abcd1234 " c1 eq_refl Hc eq_refl) as (_ & _ & Hnew).
  destruct (joinClass_outcomes S1 (Val "abcd1234") school Hok eq_refl)
    as (_ & _ & Hagain).
  destruct (Hagain "abcd1234" c1 eq_refl Hc eq_refl) as (_ & Hmember & _).
  destruct (joinClass_outcomes S2 (Val "0000ffff") school Hok eq_refl)
    as (_ & Hnone & _).
  split; [exact Hok|]. split; [reflexivity|]. split; [|split].
  - apply Hnew; [discriminate|].
    intros m Hm [_ Hu]. apply list_elem_of_singleton in Hm. by subst m.
  - apply Hmember; [discriminate|].
    exists (mkMember "m1" "c1" "s1"). split; [left|done].
  - apply (Hnone "0000ffff" eq_refl).
    intros cls Hcls. apply list_elem_of_singleton in Hcls. by subst cls.
Defined.


(** The administrator does create the task for T1's class. *)
Example admin_creates_for_any_class :
  code (fst (createTask A1 for_c1 school)) = 201%nat.
Proof. vm_compute. done. Qed.

Lemma createTask_server_fields_witness :
  code (fst (createTask T1 forged school)) = 201%nat
  ∧ b_status forged = Val "completed" ∧ b_created_by forged = Val "t2"
  ∧ ∃ task,
      body (fst (createTask T1 forged school)) = TaskBody task
      ∧ status task = Some "todo"
      ∧ created_by task = user_id T1
      ∧ tasks (snd (createTask T1 forged school)) = (tasks school ++ [task])%list.
Proof.
  assert (code (fst (createTask T1 forged school)) = 201%nat) as Hcode
    by (vm_compute; reflexivity).
  split; [exact Hcode|]. split; [reflexivity|]. split; [reflexivity|].
  exact (createTask_server_fields T1 forged school Hcode).
Defined.

(** C9, the scenario of the specification: class c1 is referenced by three
    tasks and has two members. *)
Lemma deleteClass_detaches_tasks_witness :
  code (fst (deleteClass T1 "c1" three_tasks)) = 200%nat
  ∧ Forall2 (detached "c1") (tasks three_tasks)
      (tasks (snd (deleteClass T1 "c1" three_tasks)))
  ∧ length (tasks (snd (deleteClass T1 "c1" three_tasks))) = length (tasks three_tasks)
  ∧ (∀ m, m ∈ class_members (snd (deleteClass T1 "c1" three_tasks)) ->
       member_class_id m ≠ "c1")
  ∧ (∀ c, c ∈ classes (snd (deleteClass T1 "c1" three_tasks)) -> class_id c ≠ "c1").
Proof.
  assert (code (fst (deleteClass T1 "c1" three_tasks)) = 200%nat) as Hcode
    by (vm_compute; reflexivity).
  split; [exact Hcode|].
  exact (deleteClass_detaches_tasks T1 "c1" three_tasks Hcode).
Defined.

Example deleteClass_three_tasks :
  task_class_id <$> tasks three_tasks = [Some "c1"; Some "c1"; Some "c1"; None]
  ∧ task_class_id <$> tasks (snd (deleteClass T1 "c1" three_tasks))
    = [None; None; None; None]
  ∧ task_id <$> tasks (snd (deleteClass T1 "c1" three_tasks)) = ["k1"; "k3"; "k4"; "k2"]
  ∧ class_members (snd (deleteClass T1 "c1" three_tasks)) = []
  ∧ classes (snd (deleteClass T1 "c1" three_tasks)) = [].
Proof. vm_compute. done. Qed.

(** C10, counterexample: T1 sets the status of their own essay to a word the
    schema does not know, and S1 sends an empty status; neither call
    succeeds and the stored status stays as it was. *)
Lemma unknown_status_not_stored :
  created_by essay = user_id T1 ∧ assignee_id essay = Some (user_id S1)
  ∧ updateTask T1 "k1" (only_status (Val "done")) school
    = (failure 500 "Failed to update task", school)
  ∧ updateTask S1 "k1" (only_status (Val "done")) school
    = (failure 500 "Failed to update task", school)
  ∧ updateTask S1 "k1" (only_status (Val EmptyString)) school
    = (failure 400 "Students can only update task status", school).
Proof. vm_compute. done. Qed.

Lemma status_checked_by_store_only_witness :
  schema_ok school = true ∧ essay ∈ tasks school
  ∧ user_role T1 ≠ student ∧ created_by essay = user_id T1
  ∧ code (fst (updateTask T1 (task_id essay) (only_status (Val "in-progress")) school))
    = 200%nat
  ∧ tasks (snd (updateTask T1 (task_id essay) (only_status (Val "in-progress")) school))
    = replace_task (task_id essay) (with_status (Some "in-progress") essay)
      <$> tasks school
  ∧ updateTask T1 (task_id essay) (only_status (Val "IN-PROGRESS")) school
    = (failure 500 "Failed to update task", school).
Proof.
  assert (schema_ok school = true) as Hok by (vm_compute; reflexivity).
  assert (essay ∈ tasks school) as Hin by left.
  assert (user_role T1 ≠ student) as Hrole by discriminate.
  destruct (status_checked_by_store_only T1 school essay "in-progress" Hok Hin
              (or_intror (conj Hrole (or_introl eq_refl)))) as [Hyes _].
  destruct (status_checked_by_store_only T1 school essay "IN-PROGRESS" Hok Hin
              (or_intror (conj Hrole (or_introl eq_refl)))) as [_ Hno].
  destruct Hyes as (Hcode & _ & Htasks); [by right; left|].
  split; [exact Hok|]. split; [exact Hin|]. split; [exact Hrole|].
  split; [reflexivity|]. split; [exact Hcode|]. split; [exact Htasks|].
  apply Hno. unfold statuses.
  repeat (apply not_elem_of_cons; split; [discriminate|]). apply not_elem_of_nil.
Defined.

(** An administrator's update that sends an empty text as the due date: the
    [DATE] column refuses it, as it refuses a day the calendar does not
    have. *)
Example admin_update_with_empty_date :
  updateTask A1 "k1" empty_date school = (failure 500 "Failed to update task", school)
  ∧ valid_date "2024-02-30" = false ∧ valid_date "2024-02-29" = true.
Proof. vm_compute. done. Qed.

(** The width of [title] counts characters: 255 accented letters of two
    bytes each fit, one letter more does not, and spaces beyond the width are
    cut off. *)
Example title_counted_in_characters :
  String.length long_title = 510%nat ∧ char_length long_title = 255%nat
  ∧ code (fst (createTask T1 (only_title long_title) school)) = 201%nat
  ∧ code (fst (createTask T1 (only_title (long_title ++ "x")) school)) = 500%nat
  ∧ (title <$> tasks (snd (createTask T1 (only_title (long_title ++ "  ")) three_tasks)))
    = ["Essay"; "Reading"; "Lab"; "Quiz"; long_title].
Proof. vm_compute. done. Qed.

(** The invite code of c1 between no-break spaces is the invite code of
    c1. *)
Example joinClass_padded_code :
  trim padded_code = "abcd1234"
  ∧ fst (joinClass S2 (Val padded_code) school)
    = mkResponse 200 true
        (Some ("Joined class " ++ dquote ++ "Maths" ++ dquote ++ " successfully"))
        (ClassBody c1).
Proof. vm_compute. done. Qed.

(** The gated routes turn a student away before the handler runs. *)
Example student_cannot_delete_class :
  route_deleteClass S1 "c1" school
  = (failure 403 "Forbidden — requires teacher or admin role", school).
Proof. vm_compute. done. Qed.

(** S1 moves the essay to [in-progress]: the status is stored and nobody is
    notified. *)
Example student_sets_in_progress :
  updateTask S1 "k1" (only_status (Val "in-progress")) school
  = (mkResponse 200 true (Some "Task status updated")
       (TaskBody (with_status (Some "in-progress") essay)),
     set_tasks (fmap (replace_task "k1" (with_status (Some "in-progress") essay)))
       school).
Proof. vm_compute. done. Qed.

(** ** The remaining handlers, at the school *)

Lemma run_keeps_deduplicated_witness :
  schema_ok school = true ∧ overdue_deduplicated school = true
  ∧ n_type <$> notifications (run a_week school) = ["task_overdue"; "task_completed"]
  ∧ overdue_deduplicated (run a_week school) = true.
Proof.
  assert (schema_ok school = true) as Hok by (vm_compute; reflexivity).
  assert (overdue_deduplicated school = true) as Hdedup by (vm_compute; reflexivity).
  split; [exact Hok|]. split; [exact Hdedup|]. split; [vm_compute; reflexivity|].
  exact (run_keeps_deduplicated a_week school Hok Hdedup).
Defined.

Lemma scan_idempotent_after_any_run_witness :
  schema_ok school = true ∧ overdue_deduplicated school = true
  ∧ count_of (fst (checkOverdueTasks "2024-03-02" (run a_week school))) = 1%nat
  ∧ count_of (fst (checkOverdueTasks "2024-03-02"
                     (snd (checkOverdueTasks "2024-03-02" (run a_week school))))) = 0%nat
  ∧ snd (checkOverdueTasks "2024-03-02"
           (snd (checkOverdueTasks "2024-03-02" (run a_week school))))
    = snd (checkOverdueTasks "2024-03-02" (run a_week school)).
Proof.
  assert (schema_ok school = true) as Hok by (vm_compute; reflexivity).
  assert (overdue_deduplicated school = true) as Hdedup by (vm_compute; reflexivity).
  split; [exact Hok|]. split; [exact Hdedup|]. split; [vm_compute; reflexivity|].
  exact (scan_idempotent_after_any_run a_week "2024-03-02" school Hok Hdedup).
Defined.

Lemma createTask_notifies_assignee_witness :
  code (fst (createTask T1 forged school)) = 201%nat
  ∧ ∃ task,
      body (fst (createTask T1 forged school)) = TaskBody task
      ∧ assignee_id task = or_null (b_assignee_id forged)
      ∧ match assignee_id task with
        | Some a =>
            ∃ n, notifications (snd (createTask T1 forged school))
                 = (notifications school ++ [n])%list
                 ∧ n_user_id n = a ∧ n_type n = "task_assigned"
                 ∧ n_task_id n = Some (task_id task) ∧ is_read n = false
        | None => notifications (snd (createTask T1 forged school)) = notifications school
        end.
Proof.
  assert (code (fst (createTask T1 forged school)) = 201%nat) as Hcode
    by (vm_compute; reflexivity).
  split; [exact Hcode|]. exact (createTask_notifies_assignee T1 forged school Hcode).
Defined.

Lemma student_changes_status_only_witness :
  user_role S1 = student
  ∧ Forall2 (λ t t', same_but_status t t' ∧ (task_id t ≠ "k1" -> t' = t))
      (tasks school) (tasks (snd (updateTask S1 "k1" retitled school)))
  ∧ classes (snd (updateTask S1 "k1" retitled school)) = classes school
  ∧ class_members (snd (updateTask S1 "k1" retitled school)) = class_members school
  ∧ users (snd (updateTask S1 "k1" retitled school)) = users school
  ∧ route_createTask S1 retitled school
    = (failure 403 "Forbidden — requires teacher or admin role", school)
  ∧ route_deleteTask S1 "k1" school
    = (failure 403 "Forbidden — requires teacher or admin role", school).
Proof.
  assert (user_role S1 = student) as Hrole by reflexivity.
  split; [exact Hrole|].
  exact (student_changes_status_only S1 "k1" retitled school Hrole).
Defined.

Lemma foreign_task_is_protected_witness :
  tasks_by_id school "k1" = [essay]
  ∧ user_role T2 = teacher ∧ created_by essay ≠ user_id T2
  ∧ code (fst (updateTask T2 "k1" retitled school)) = 403%nat
  ∧ snd (updateTask T2 "k1" retitled school) = school
  ∧ (created_by essay ≠ user_id T2 ->
     code (fst (deleteTask T2 "k1" school)) = 403%nat
     ∧ snd (deleteTask T2 "k1" school) = school).
Proof.
  assert (tasks_by_id school "k1" = [essay]) as Hk1 by (vm_compute; reflexivity).
  assert (created_by essay ≠ user_id T2) as Hother by (vm_compute; discriminate).
  split; [exact Hk1|]. split; [reflexivity|]. split; [exact Hother|].
  exact (foreign_task_is_protected T2 "k1" retitled school essay Hk1
           (or_introl (conj eq_refl Hother))).
Defined.

Lemma deleteTask_removes_task_and_notifications_witness :
  code (fst (deleteTask T1 "k1" notified_twice)) = 200%nat
  ∧ notifications (snd (deleteTask T1 "k1" notified_twice)) = []
  ∧ code (fst (deleteTask T1 "k1" (migrated notified_twice))) = 200%nat
  ∧ notifications (snd (deleteTask T1 "k1" (migrated notified_twice)))
    = [unlinked (overdue_note "n1"); unlinked (overdue_note "n2")]
  ∧ ∀ reader,
      code (fst (getTask reader "k1" (snd (deleteTask T1 "k1" (migrated notified_twice)))))
      = 404%nat.
Proof.
  assert (code (fst (deleteTask T1 "k1" notified_twice)) = 200%nat) as Hcode
    by (vm_compute; reflexivity).
  assert (code (fst (deleteTask T1 "k1" (migrated notified_twice))) = 200%nat) as Hcode'
    by (vm_compute; reflexivity).
  destruct (deleteTask_removes_task_and_notifications T1 "k1" notified_twice Hcode)
    as (_ & Hgone & _).
  destruct (deleteTask_removes_task_and_notifications T1 "k1" (migrated notified_twice)
              Hcode') as (_ & Hkept & _ & _ & _ & _ & _ & Hfetch).
  split; [exact Hcode|]. split; [exact Hgone|]. split; [exact Hcode'|].
  split; [exact Hkept|exact Hfetch].
Defined.

Lemma removeMember_effect_witness :
  code (fst (removeMember T1 "c1" "s1" school)) = 200%nat
  ∧ membership (snd (removeMember T1 "c1" "s1" school)) "c1" "s1" = []
  ∧ tasks (snd (removeMember T1 "c1" "s1" school)) = tasks school
  ∧ removeMember T1 "c1" "s1" (snd (removeMember T1 "c1" "s1" school))
    = (mkResponse 200 true (Some "Member removed from class") NoBody,
       snd (removeMember T1 "c1" "s1" school)).
Proof.
  assert (code (fst (removeMember T1 "c1" "s1" school)) = 200%nat) as Hcode
    by (vm_compute; reflexivity).
  split; [exact Hcode|].
  destruct (removeMember_effect T1 "c1" "s1" school Hcode)
    as (Hgone & _ & _ & _ & Htasks & _ & Hagain).
  split; [exact Hgone|]. split; [exact Htasks|exact Hagain].
Defined.

Lemma join_then_remove_restores_witness :
  schema_ok school = true
  ∧ code (fst (joinClass S2 (Val "abcd1234") school)) = 200%nat
  ∧ body (fst (joinClass S2 (Val "abcd1234") school)) = ClassBody c1
  ∧ teacher_id c1 = user_id T1
  ∧ removeMember T1 (class_id c1) (user_id S2) (snd (joinClass S2 (Val "abcd1234") school))
    = (mkResponse 200 true (Some "Member removed from class") NoBody, school).
Proof.
  assert (schema_ok school = true) as Hok by (vm_compute; reflexivity).
  assert (code (fst (joinClass S2 (Val "abcd1234") school)) = 200%nat) as Hcode
    by (vm_compute; reflexivity).
  assert (body (fst (joinClass S2 (Val "abcd1234") school)) = ClassBody c1) as Hbody
    by (vm_compute; reflexivity).
  split; [exact Hok|]. split; [exact Hcode|]. split; [exact Hbody|].
  split; [reflexivity|].
  exact (join_then_remove_restores S2 T1 (Val "abcd1234") school c1 Hok Hcode Hbody
           (or_introl eq_refl)).
Defined.

Lemma membership_controls_access_witness :
  schema_ok school = true ∧ user_role S2 = student
  ∧ code (fst (joinClass S2 (Val "abcd1234") school)) = 200%nat
  ∧ code (fst (getClass S2 (class_id c1) (snd (joinClass S2 (Val "abcd1234") school))))
    = 200%nat
  ∧ code (fst (removeMember T1 "c1" (user_id S1) school)) = 200%nat
  ∧ code (fst (getClass S1 "c1" (snd (removeMember T1 "c1" (user_id S1) school))))
    = 403%nat.
Proof.
  assert (schema_ok school = true) as Hok by (vm_compute; reflexivity).
  assert (code (fst (joinClass S2 (Val "abcd1234") school)) = 200%nat) as Hjoin
    by (vm_compute; reflexivity).
  assert (body (fst (joinClass S2 (Val "abcd1234") school)) = ClassBody c1) as Hbody
    by (vm_compute; reflexivity).
  assert (code (fst (removeMember T1 "c1" (user_id S1) school)) = 200%nat) as Hremove
    by (vm_compute; reflexivity).
  split; [exact Hok|]. split; [reflexivity|]. split; [exact Hjoin|].
  split; [|split; [exact Hremove|]].
  - exact (proj1 (membership_controls_access S2 T1 (Val "abcd1234") "c1" school c1
                    Hok eq_refl) Hjoin Hbody).
  - exact (proj2 (membership_controls_access S1 T1 (Val "abcd1234") "c1" school c1
                    Hok eq_refl) Hremove).
Defined.

Lemma createClass_success_witness :
  schema_ok school = true
  ∧ code (fst (createClass T2 (Val physics) Undefined "abcd1234" "0f0f0f0f" school))
    = 201%nat
  ∧ ∃ cls,
      body (fst (createClass T2 (Val physics) Undefined "abcd1234" "0f0f0f0f" school))
      = ClassBody cls
      ∧ teacher_id cls = user_id T2 ∧ class_name cls = "Physics"
      ∧ invite_code cls = "0f0f0f0f"
      ∧ members_of
          (snd (createClass T2 (Val physics) Undefined "abcd1234" "0f0f0f0f" school))
          (class_id cls) = [].
Proof.
  assert (schema_ok school = true) as Hok by (vm_compute; reflexivity).
  assert (code (fst (createClass T2 (Val physics) Undefined "abcd1234" "0f0f0f0f"
                       school)) = 201%nat) as Hcode by (vm_compute; reflexivity).
  split; [exact Hok|]. split; [exact Hcode|].
  destruct (createClass_success T2 (Val physics) Undefined "abcd1234" "0f0f0f0f"
              school Hok Hcode)
    as (n & cls & Hn & Hbody & _ & Hteacher & Hname & _ & Hinvite & _ & _ & Hnone).
  exists cls. injection Hn as <-.
  split; [exact Hbody|]. split; [exact Hteacher|].
  split; [by rewrite Hname; vm_compute|].
  split; [exact Hinvite|exact Hnone].
Defined.

Lemma blank_name_refused_on_create_only_witness :
  trim blank = EmptyString
  ∧ createClass T1 (Val blank) Undefined "0f0f0f0f" "1e1e1e1e" school
    = (failure 400 "Class name is required", school)
  ∧ ∃ cls', fst (updateClass T1 "c1" (Val blank) Undefined school)
            = mkResponse 200 true (Some "Class updated") (ClassBody cls')
      ∧ class_name cls' = EmptyString
      ∧ classes_by_id (snd (updateClass T1 "c1" (Val blank) Undefined school)) "c1"
        = [cls'].
Proof.
  assert (trim blank = EmptyString) as Hblank by (vm_compute; reflexivity).
  assert (classes_by_id school "c1" = [c1]) as Hc1 by (vm_compute; reflexivity).
  split; [exact Hblank|].
  destruct (blank_name_refused_on_create_only T1 blank Undefined "0f0f0f0f" "1e1e1e1e"
              "c1" school c1 Hblank) as [Hcreate Hupdate].
  split; [exact Hcreate|]. exact (Hupdate Hc1 eq_refl).
Defined.

Lemma getClass_opens_what_getClasses_lists_witness :
  schema_ok school = true
  ∧ ∃ l, reply_data (fst (getClasses S1 school)) = Some l
      ∧ (code (fst (getClass S1 "c1" school)) = 200%nat
         <-> ∃ c n, (c, n) ∈ l ∧ class_id c = "c1")
      ∧ ∀ c n, (c, n) ∈ l -> class_id c = "c1" ->
          ∃ members, body (fst (getClass S1 "c1" school)) = ClassWithMembers c members
                     ∧ length members = n.
Proof.
  assert (schema_ok school = true) as Hok by (vm_compute; reflexivity).
  split; [exact Hok|]. exact (getClass_opens_what_getClasses_lists S1 "c1" school Hok).
Defined.

Lemma joinClass_ignores_padding_witness :
  trim padded_code ≠ EmptyString
  ∧ trim padded_code = "abcd1234"
  ∧ code (fst (joinClass S2 (Val padded_code) school)) = 200%nat
  ∧ joinClass S2 (Val padded_code) school = joinClass S2 (Val (trim padded_code)) school.
Proof.
  assert (trim padded_code ≠ EmptyString) as Hcode by (vm_compute; discriminate).
  split; [exact Hcode|]. split; [vm_compute; reflexivity|].
  split; [vm_compute; reflexivity|].
  exact (joinClass_ignores_padding S2 padded_code school Hcode).
Defined.

Lemma getNotifications_scoped_witness :
  reply_data (fst (getNotifications T1 inbox notified_twice)) = Some first_page
  ∧ snd (getNotifications T1 inbox notified_twice) = notified_twice
  ∧ Forall (λ n, n ∈ notifications notified_twice ∧ n_user_id n = user_id T1
                 ∧ (nq_unread_only inbox = Some "true" -> is_read n = false))
      (page_rows first_page)
  ∧ (length (page_rows first_page) <= Pos.to_nat (nq_limit inbox))%nat
  ∧ (length (page_rows first_page) <= page_total first_page)%nat
  ∧ (page_total first_page
     <= length (filter (λ n, n_user_id n = user_id T1) (notifications notified_twice)))%nat.
Proof.
  assert (reply_data (fst (getNotifications T1 inbox notified_twice)) = Some first_page)
    as Hpage by (vm_compute; reflexivity).
  split; [exact Hpage|].
  exact (getNotifications_scoped T1 inbox notified_twice first_page Hpage).
Defined.
